(** * Signal-generation state machines of the Summer_of_Quant strategies

    Shallow embedding of the four [strat] functions (Strategy_2.py, main3.py,
    main4.py, main5.py): the per-bar loop over an indicator-augmented frame
    that maintains [position], [trailing_stop] and [num_wrong] and writes the
    [signals] and [trade_type] columns.

    Prices, volumes and indicators are binary64 floats, as in the pandas
    frame; NaN is the "undefined" value of an indicator, and every
    comparison with it is false.  Row labels are those of the default
    RangeIndex, 0 .. len-1; a [.loc] lookup outside them raises KeyError,
    which the embedding keeps as an outcome.  Lookback lengths are natural
    numbers (a negative length is outside the model); [position],
    [num_wrong] and [num_wrong_limit] are Python integers.  The series that
    [process_data] obtains from pandas and pandas_ta are fields of a
    [Library] record; a pandas_ta call may return [None], which
    Strategy_2.py's [process_data] turns into a TypeError and the others
    into a column of undefined cells. *)

From Stdlib Require Import ZArith Floats Lia Bool.
From stdpp Require Import base option list strings pretty.

(** ** Python and pandas primitives *)

Module Py.

(** Exceptions and the outcome of a call.  [KeyError] is what a [.loc]
    lookup raises, [ColumnKeyError] what [frame[name]] raises for a column
    the frame does not have, [TypeError] what subscripting [None] raises;
    [InsufficientDataError] is the error the specification names for short
    inputs. *)
Inductive exn : Type :=
| KeyError (label : Z)
| ColumnKeyError (name : string)
| TypeError
| InsufficientDataError.

Inductive outcome (A : Type) : Type :=
| Returned (a : A)
| Raised (e : exn).
Arguments Returned {A} a.
Arguments Raised {A} e.

#[global] Instance outcome_ret : MRet outcome := @Returned.
#[global] Instance outcome_bind : MBind outcome :=
  fun A B f m => match m with Returned a => f a | Raised e => Raised e end.

#[global] Instance outcome_fmap : FMap outcome :=
  fun A B f m => match m with Returned a => Returned (f a) | Raised e => Raised e end.

Definition returns {A} (m : outcome A) : Prop := exists a, m = Returned a.
Definition raises {A} (m : outcome A) (e : exn) : Prop := m = Raised e.

(** Float comparisons, written as in the source: [gt a b] is [a > b].
    Every comparison with NaN is false. *)
Definition lt (a b : float) : bool := PrimFloat.ltb a b.
Definition gt (a b : float) : bool := PrimFloat.ltb b a.
Definition le (a b : float) : bool := PrimFloat.leb a b.
Definition ge (a b : float) : bool := PrimFloat.leb b a.

(** [pd.isna] on a float cell. *)
Definition isna (x : float) : bool := PrimFloat.is_nan x.

(** The builtins [max(a, b)] and [min(a, b)]: the first argument is kept
    unless the second compares strictly greater (smaller). *)
Definition max (a b : float) : float := if gt b a then b else a.
Definition min (a b : float) : float := if lt b a then b else a.

(** [data.loc[i, col]] on a frame with a RangeIndex: a label outside
    [0, len) raises KeyError. *)
Definition loc {R A : Type} (data : list R) (i : Z) (col : R -> A) : outcome A :=
  if (i <? 0)%Z then Raised (KeyError i)
  else match data !! Z.to_nat i with
       | Some r => Returned (col r)
       | None => Raised (KeyError i)
       end.

(** [data.loc[a:b, col]]: a label slice, inclusive at both ends, clipped to
    the labels that exist. *)
Definition loc_slice {R A : Type} (data : list R) (a b : Z) (col : R -> A) : list A :=
  col <$> drop (Z.to_nat a) (take (Z.to_nat (b + 1)) data).

(** [Series.mean()] and [Series.std()] on a float64 column, as pandas
    computes them through numpy (nanops.nanmean and nanops.nanstd with
    skipna and ddof = 1): NaN cells count for nothing and are replaced by 0
    in place, and every sum is numpy's [add.reduce]. *)
Definition dropna (xs : list float) : list float :=
  filter (fun x => isna x = false) xs.

Definition fillna0 (xs : list float) : list float :=
  (fun x => if isna x then 0%float else x) <$> xs.

(** numpy's pairwise summation of a block of cells: fewer than 8 cells are
    added left to right; up to 128 cells go round-robin into 8 running
    sums, which are added as a balanced tree before the cells left over
    are added one by one; a longer block is split in two at a multiple of
    8.  [fuel] bounds the depth of the splitting; the length of the block
    is more than enough. *)
Definition sum_loop (acc : float) (xs : list float) : float :=
  foldl PrimFloat.add acc xs.

Fixpoint sum_lanes (r xs : list float) (blocks : nat) : list float * list float :=
  match blocks with
  | O => (r, xs)
  | S b => sum_lanes (zip_with PrimFloat.add r (take 8 xs)) (drop 8 xs) b
  end.

Definition sum_unrolled (xs : list float) : float :=
  let '(r, rest) := sum_lanes (take 8 xs) (drop 8 xs) (length xs / 8 - 1) in
  match r with
  | [r0; r1; r2; r3; r4; r5; r6; r7] =>
      sum_loop (((r0 + r1) + (r2 + r3)) + ((r4 + r5) + (r6 + r7)))%float rest
  | _ => sum_loop 0%float xs
  end.

Fixpoint pairwise_sum (fuel : nat) (xs : list float) : float :=
  let n := length xs in
  if (n <? 8)%nat then sum_loop 0%float xs
  else if (n <=? 128)%nat then sum_unrolled xs
  else match fuel with
       | O => sum_unrolled xs
       | S fuel' =>
           let n2 := (n / 2 - (n / 2) mod 8)%nat in
           (pairwise_sum fuel' (take n2 xs) + pairwise_sum fuel' (drop n2 xs))%float
       end.

(** [values.sum()]: the reduction starts from 0. *)
Definition fsum (xs : list float) : float :=
  (0 + pairwise_sum (length xs) xs)%float.

Definition of_nat (n : nat) : float := PrimFloat.of_uint63 (Uint63.of_Z (Z.of_nat n)).

Definition mean (xs : list float) : float :=
  let count := length (dropna xs) in
  if (0 <? count)%nat then (fsum (fillna0 xs) / of_nat count)%float else nan.

Definition std (xs : list float) : float :=
  let count := length (dropna xs) in
  if (count <=? 1)%nat then nan
  else
    let avg := (fsum (fillna0 xs) / of_nat count)%float in
    let sqr := (fun x => if isna x then 0 else (avg - x) * (avg - x))%float <$> xs in
    PrimFloat.sqrt (fsum sqr / of_nat (count - 1))%float.

(** [for i in range(start, start + n): s = body(i, s)], stopping at the
    first exception. *)
Fixpoint for_range {St : Type} (body : nat -> St -> outcome St)
         (start n : nat) (s : St) : outcome St :=
  match n with
  | O => Returned s
  | S n' =>
      match body start s with
      | Returned s' => for_range body (S start) n' s'
      | Raised e => Raised e
      end
  end.

End Py.
Import Py.

(** ** Data model *)

(** One OHLCV observation: a row of the CSV input. *)
Record Bar : Type := mkBar {
  col_open : float;
  col_high : float;
  col_low : float;
  col_close : float;
  col_volume : float
}.

(** The labels written to the [trade_type] column. *)
Inductive TradeType : Type :=
| HOLD
| LONG
| SHORT
| CLOSE
| REVERSE_LONG_TO_SHORT
| REVERSE_SHORT_TO_LONG.

#[global] Instance TradeType_eq_dec : EqDecision TradeType.
Proof. solve_decision. Defined.

(** The loop variables of [strat] together with the two output columns.
    [position]: 0 = no position, 1 = long, -1 = short. *)
Record LoopState : Type := mkState {
  position : Z;
  trailing_stop : float;
  num_wrong : Z;
  signals : list Z;
  trade_type : list TradeType
}.

(** [data['signals'] = 0; data['trade_type'] = "HOLD"; position = 0;
    trailing_stop = 0.0; num_wrong = 0]. *)
Definition init_state (len : nat) : LoopState :=
  {| position := 0; trailing_stop := 0%float; num_wrong := 0;
     signals := replicate len 0%Z; trade_type := replicate len HOLD |}.

(** [data.loc[i, 'signals'] = sg; data.loc[i, 'trade_type'] = ty] followed by
    the assignments to the three loop variables. *)
Definition emit (i : nat) (sg : Z) (ty : TradeType)
           (pos : Z) (ts : float) (nw : Z) (s : LoopState) : LoopState :=
  {| position := pos; trailing_stop := ts; num_wrong := nw;
     signals := <[i := sg]> (signals s);
     trade_type := <[i := ty]> (trade_type s) |}.

(** A bar that writes nothing: only [trailing_stop] and [num_wrong] move. *)
Definition keep (ts : float) (nw : Z) (s : LoopState) : LoopState :=
  {| position := position s; trailing_stop := ts; num_wrong := nw;
     signals := signals s; trade_type := trade_type s |}.

(** The frame returned by [strat]: its two new columns. *)
Definition columns (s : LoopState) : list Z * list TradeType :=
  (signals s, trade_type s).

(** The output row at label [i]. *)
Definition row_at (out : list Z * list TradeType) (i : nat) : option (Z * TradeType) :=
  match out.1 !! i, out.2 !! i with
  | Some sg, Some ty => Some (sg, ty)
  | _, _ => None
  end.

(** ** The indicator library

    [process_data] calls pandas and pandas_ta for its series; their code is
    not part of the repository, so they enter as the fields of a record.
    A series is the list of its cells in index order.  A pandas_ta
    indicator returns [None] instead of a series when it has no result
    (an input shorter than its length); [ta.macd] returns a frame, a list
    of named columns. *)
Definition Frame : Type := list (string * list float).

Record Library : Type := mkLibrary {
  (* Series.ewm(span=n, adjust=False).mean() *)
  ewm_mean : nat -> list float -> list float;
  (* Series.rolling(window=n).mean() *)
  rolling_mean : nat -> list float -> list float;
  (* ta.atr(high, low, close, length=n) *)
  ta_atr : list float -> list float -> list float -> nat -> option (list float);
  (* ta.rsi(close, length=n) *)
  ta_rsi : list float -> nat -> option (list float);
  (* ta.macd(close, fast, slow, signal) *)
  ta_macd : list float -> nat -> nat -> nat -> option Frame
}.

(** The column names that [process_data] asks [ta.macd]'s frame for:
    [f'MACD_{fast}_{slow}_{signal}'] and [f'MACDs_{fast}_{slow}_{signal}']. *)
Definition column_name (prefix : string) (fast slow signal : nat) : string :=
  prefix +:+ "_" +:+ pretty fast +:+ "_" +:+ pretty slow +:+ "_" +:+ pretty signal.
Arguments column_name : simpl never.

(** [frame[name]]: KeyError for a column the frame does not have. *)
Fixpoint getitem (df : Frame) (name : string) : outcome (list float) :=
  match df with
  | [] => Raised (ColumnKeyError name)
  | (n, xs) :: df' => if String.eqb n name then Returned xs else getitem df' name
  end.

(** [data[col] = series] aligns on the index: the cell at label [i], NaN
    where the series has none. *)
Definition cell (series : list float) (i : nat) : float :=
  default nan (series !! i).

(** [data[col] = ta.atr(...)] where the call may have returned [None]: the
    column then holds [None] on every row.  The only thing [strat] does
    with such a cell is [pd.isna], which is true of [None] as of NaN, so
    the cell is NaN here. *)
Definition column (series : option (list float)) (i : nat) : float :=
  match series with
  | Some xs => cell xs i
  | None => nan
  end.

(** ** main3.py: volume spike, ATR trailing stop, reversal *)

Module main3.

(** A row of the frame returned by [process_data]. *)
Record Row : Type := mkRow { bar : Bar; ATR : float }.

Record Config : Type := mkConfig {
  atr_length : nat;
  trailing_stop_multiplier : float;
  volume_lookback : nat;
  num_wrong_limit : Z
}.

Definition default_config : Config :=
  {| atr_length := 14; trailing_stop_multiplier := 2%float;
     volume_lookback := 11; num_wrong_limit := 3 |}.

(** [process_data(data, atr_length)]: adds the ATR column. *)
Definition process_data (lib : Library) (atr_length : nat) (data : list Bar)
  : list Row :=
  let atr := ta_atr lib (col_high <$> data) (col_low <$> data)
                    (col_close <$> data) atr_length in
  imap (fun i b => {| bar := b; ATR := column atr i |}) data.

Definition start_idx (cfg : Config) : nat :=
  Nat.max (atr_length cfg) (volume_lookback cfg).

(** [volume_spike] at label [i] (lines 76-88). *)
Definition vol_window (cfg : Config) (data : list Row) (i : nat) : list float :=
  loc_slice data (Z.of_nat i - Z.of_nat (volume_lookback cfg)) (Z.of_nat i)
            (col_volume ∘ bar).

Definition vol_spike_threshold (cfg : Config) (data : list Row) (i : nat) : float :=
  let w := vol_window cfg data i in
  (mean w + 1.5 * std w)%float.

(** One iteration of the loop of [strat]. *)
Definition body (cfg : Config) (data : list Row) (i : nat) (s : LoopState)
  : outcome LoopState :=
  let m := trailing_stop_multiplier cfg in
  vol ← loc data (Z.of_nat i) (col_volume ∘ bar);
  close ← loc data (Z.of_nat i) (col_close ∘ bar);
  open_ ← loc data (Z.of_nat i) (col_open ∘ bar);
  atr ← loc data (Z.of_nat i) ATR;
  if isna atr then mret s
  else
    let volume_spike := gt vol (vol_spike_threshold cfg data i) in
    if (position s =? 0)%Z then
      if volume_spike then
        if gt close open_ then
          mret (emit i 1 LONG 1 (close - atr * m)%float 0 s)
        else if lt close open_ then
          mret (emit i (-1) SHORT (-1) (close + atr * m)%float 0 s)
        else mret s
      else mret s
    else if (position s =? 1)%Z then
      let trend_reversal := volume_spike && lt close open_ in
      prev ← loc data (Z.of_nat i - 1) (col_close ∘ bar);
      let nw := if le close prev then (num_wrong s + 1)%Z else 0%Z in
      if trend_reversal then
        mret (emit i (-2) REVERSE_LONG_TO_SHORT (-1) (close + atr * m)%float 0 s)
      else if (nw >=? num_wrong_limit cfg)%Z then
        mret (emit i (-1) CLOSE 0 (trailing_stop s) 0 s)
      else if lt close (trailing_stop s) then
        mret (emit i (-1) CLOSE 0 (trailing_stop s) 0 s)
      else
        mret (keep (Py.max (trailing_stop s) (close - atr * m)%float) nw s)
    else if (position s =? -1)%Z then
      let trend_reversal := volume_spike && gt close open_ in
      prev ← loc data (Z.of_nat i - 1) (col_close ∘ bar);
      let nw := if ge close prev then (num_wrong s + 1)%Z else 0%Z in
      if trend_reversal then
        mret (emit i 2 REVERSE_SHORT_TO_LONG 1 (close - atr * m)%float 0 s)
      else if (nw >=? num_wrong_limit cfg)%Z then
        mret (emit i 1 CLOSE 0 (trailing_stop s) 0 s)
      else if gt close (trailing_stop s) then
        mret (emit i 1 CLOSE 0 (trailing_stop s) 0 s)
      else
        mret (keep (Py.min (trailing_stop s) (close + atr * m)%float) nw s)
    else mret s.

(** The loop state on entering bar [k] (after the iterations below [k]). *)
Definition state_at (cfg : Config) (data : list Row) (k : nat) : outcome LoopState :=
  for_range (body cfg data) (start_idx cfg) (k - start_idx cfg)
            (init_state (length data)).

Definition strat (cfg : Config) (data : list Row) : outcome (list Z * list TradeType) :=
  columns <$> state_at cfg data (length data).

End main3.

(** ** main4.py: volume spike, ATR trailing stop, RSI filter, reversal *)

Module main4.

Record Row : Type := mkRow { bar : Bar; ATR : float; RSI : float }.

Record Config : Type := mkConfig {
  atr_length : nat;
  trailing_stop_multiplier : float;
  volume_lookback : nat;
  num_wrong_limit : Z;
  rsi_entry_threshold_long : float;
  rsi_entry_threshold_short : float
}.

Definition default_config : Config :=
  {| atr_length := 14; trailing_stop_multiplier := 2%float;
     volume_lookback := 11; num_wrong_limit := 3;
     rsi_entry_threshold_long := 50%float;
     rsi_entry_threshold_short := 50%float |}.

(** The keyword arguments of [process_data]. *)
Record Params : Type := mkParams { p_atr_length : nat; p_rsi_length : nat }.

Definition default_params : Params := {| p_atr_length := 14; p_rsi_length := 14 |}.

(** [process_data(data, atr_length, rsi_length)]: adds ATR and RSI. *)
Definition process_data (lib : Library) (p : Params) (data : list Bar) : list Row :=
  let atr := ta_atr lib (col_high <$> data) (col_low <$> data)
                    (col_close <$> data) (p_atr_length p) in
  let rsi := ta_rsi lib (col_close <$> data) (p_rsi_length p) in
  imap (fun i b => {| bar := b; ATR := column atr i; RSI := column rsi i |}) data.

Definition start_idx (cfg : Config) : nat :=
  Nat.max (atr_length cfg) (volume_lookback cfg).

Definition vol_window (cfg : Config) (data : list Row) (i : nat) : list float :=
  loc_slice data (Z.of_nat i - Z.of_nat (volume_lookback cfg)) (Z.of_nat i)
            (col_volume ∘ bar).

Definition vol_spike_threshold (cfg : Config) (data : list Row) (i : nat) : float :=
  let w := vol_window cfg data i in
  (mean w + 1.5 * std w)%float.

Definition body (cfg : Config) (data : list Row) (i : nat) (s : LoopState)
  : outcome LoopState :=
  let m := trailing_stop_multiplier cfg in
  vol ← loc data (Z.of_nat i) (col_volume ∘ bar);
  close ← loc data (Z.of_nat i) (col_close ∘ bar);
  open_ ← loc data (Z.of_nat i) (col_open ∘ bar);
  atr ← loc data (Z.of_nat i) ATR;
  rsi ← loc data (Z.of_nat i) RSI;
  if isna atr || isna rsi then mret s
  else
    let volume_spike := gt vol (vol_spike_threshold cfg data i) in
    if (position s =? 0)%Z then
      if volume_spike then
        if gt close open_ && ge rsi (rsi_entry_threshold_long cfg) then
          mret (emit i 1 LONG 1 (close - atr * m)%float 0 s)
        else if lt close open_ && le rsi (rsi_entry_threshold_short cfg) then
          mret (emit i (-1) SHORT (-1) (close + atr * m)%float 0 s)
        else mret s
      else mret s
    else if (position s =? 1)%Z then
      let trend_reversal := volume_spike && lt close open_ in
      prev ← loc data (Z.of_nat i - 1) (col_close ∘ bar);
      let nw := if le close prev then (num_wrong s + 1)%Z else 0%Z in
      if trend_reversal && le rsi (rsi_entry_threshold_short cfg) then
        mret (emit i (-2) REVERSE_LONG_TO_SHORT (-1) (close + atr * m)%float 0 s)
      else if (nw >=? num_wrong_limit cfg)%Z then
        mret (emit i (-1) CLOSE 0 (trailing_stop s) 0 s)
      else if lt close (trailing_stop s) then
        mret (emit i (-1) CLOSE 0 (trailing_stop s) 0 s)
      else
        mret (keep (Py.max (trailing_stop s) (close - atr * m)%float) nw s)
    else if (position s =? -1)%Z then
      let trend_reversal := volume_spike && gt close open_ in
      prev ← loc data (Z.of_nat i - 1) (col_close ∘ bar);
      let nw := if ge close prev then (num_wrong s + 1)%Z else 0%Z in
      if trend_reversal && ge rsi (rsi_entry_threshold_long cfg) then
        mret (emit i 2 REVERSE_SHORT_TO_LONG 1 (close - atr * m)%float 0 s)
      else if (nw >=? num_wrong_limit cfg)%Z then
        mret (emit i 1 CLOSE 0 (trailing_stop s) 0 s)
      else if gt close (trailing_stop s) then
        mret (emit i 1 CLOSE 0 (trailing_stop s) 0 s)
      else
        mret (keep (Py.min (trailing_stop s) (close + atr * m)%float) nw s)
    else mret s.

Definition state_at (cfg : Config) (data : list Row) (k : nat) : outcome LoopState :=
  for_range (body cfg data) (start_idx cfg) (k - start_idx cfg)
            (init_state (length data)).

Definition strat (cfg : Config) (data : list Row) : outcome (list Z * list TradeType) :=
  columns <$> state_at cfg data (length data).

End main4.

(** ** Strategy_2.py: EMA trend filter, MACD crossover, ATR trailing stop *)

Module Strategy_2.

Record Row : Type := mkRow {
  bar : Bar; EMA : float; ATR : float; MACD : float; MACD_signal : float
}.

Record Config : Type := mkConfig {
  ema_length : nat;
  atr_length : nat;
  trailing_stop_multiplier : float;
  num_wrong_limit : Z
}.

Definition default_config : Config :=
  {| ema_length := 100; atr_length := 14;
     trailing_stop_multiplier := 2%float; num_wrong_limit := 2 |}.

(** The keyword arguments of [process_data]. *)
Record Params : Type := mkParams {
  p_ema_length : nat; p_atr_length : nat;
  p_macd_fast : nat; p_macd_slow : nat; p_macd_signal : nat
}.

Definition default_params : Params :=
  {| p_ema_length := 100; p_atr_length := 14;
     p_macd_fast := 6; p_macd_slow := 19; p_macd_signal := 4 |}.

(** [process_data]: adds EMA, ATR, MACD and MACD_signal.  Subscripting the
    result of [ta.macd] raises TypeError when it is [None] and KeyError
    when the frame lacks the column. *)
Definition process_data (lib : Library) (p : Params) (data : list Bar)
  : outcome (list Row) :=
  let ema := ewm_mean lib (p_ema_length p) (col_close <$> data) in
  let atr := ta_atr lib (col_high <$> data) (col_low <$> data)
                    (col_close <$> data) (p_atr_length p) in
  match ta_macd lib (col_close <$> data)
                (p_macd_fast p) (p_macd_slow p) (p_macd_signal p) with
  | None => Raised TypeError
  | Some macd_df =>
      macd ← getitem macd_df
             (column_name "MACD" (p_macd_fast p) (p_macd_slow p) (p_macd_signal p));
      macd_signal ← getitem macd_df
             (column_name "MACDs" (p_macd_fast p) (p_macd_slow p) (p_macd_signal p));
      Returned
        (imap (fun i b => {| bar := b; EMA := cell ema i; ATR := column atr i;
                             MACD := cell macd i;
                             MACD_signal := cell macd_signal i |}) data)
  end.

Definition start_idx (cfg : Config) : nat :=
  Nat.max (Nat.max (ema_length cfg) (atr_length cfg)) 26.

Definition body (cfg : Config) (data : list Row) (i : nat) (s : LoopState)
  : outcome LoopState :=
  let m := trailing_stop_multiplier cfg in
  close ← loc data (Z.of_nat i) (col_close ∘ bar);
  open_ ← loc data (Z.of_nat i) (col_open ∘ bar);
  atr ← loc data (Z.of_nat i) ATR;
  ema ← loc data (Z.of_nat i) EMA;
  macd ← loc data (Z.of_nat i) MACD;
  macd_signal ← loc data (Z.of_nat i) MACD_signal;
  prev_macd ← loc data (Z.of_nat i - 1) MACD;
  prev_macd_signal ← loc data (Z.of_nat i - 1) MACD_signal;
  if isna atr || isna macd || isna macd_signal || isna ema then mret s
  else
    let macd_cross_up := lt prev_macd prev_macd_signal && gt macd macd_signal in
    let macd_cross_down := gt prev_macd prev_macd_signal && lt macd macd_signal in
    if (position s =? 0)%Z then
      if gt close ema && macd_cross_up && gt close open_ then
        mret (emit i 1 LONG 1 (close - atr * m)%float 0 s)
      else if lt close ema && macd_cross_down && lt close open_ then
        mret (emit i (-1) SHORT (-1) (close + atr * m)%float 0 s)
      else mret s
    else if (position s =? 1)%Z then
      prev ← loc data (Z.of_nat i - 1) (col_close ∘ bar);
      let nw := if le close prev then (num_wrong s + 1)%Z else 0%Z in
      let exit_signal := macd_cross_down || lt close ema in
      if exit_signal || (nw >=? num_wrong_limit cfg)%Z || lt close (trailing_stop s) then
        mret (emit i (-1) CLOSE 0 (trailing_stop s) 0 s)
      else
        mret (keep (Py.max (trailing_stop s) (close - atr * m)%float) nw s)
    else if (position s =? -1)%Z then
      prev ← loc data (Z.of_nat i - 1) (col_close ∘ bar);
      let nw := if ge close prev then (num_wrong s + 1)%Z else 0%Z in
      let exit_signal := macd_cross_up || gt close ema in
      if exit_signal || (nw >=? num_wrong_limit cfg)%Z || gt close (trailing_stop s) then
        mret (emit i 1 CLOSE 0 (trailing_stop s) 0 s)
      else
        mret (keep (Py.min (trailing_stop s) (close + atr * m)%float) nw s)
    else mret s.

Definition state_at (cfg : Config) (data : list Row) (k : nat) : outcome LoopState :=
  for_range (body cfg data) (start_idx cfg) (k - start_idx cfg)
            (init_state (length data)).

Definition strat (cfg : Config) (data : list Row) : outcome (list Z * list TradeType) :=
  columns <$> state_at cfg data (length data).

End Strategy_2.

(** ** main5.py: SMA trend filter, RSI momentum, ATR trailing stop *)

Module main5.

Record Row : Type := mkRow { bar : Bar; SMA : float; ATR : float; RSI : float }.

Record Config : Type := mkConfig {
  sma_length : nat;
  atr_length : nat;
  trailing_stop_multiplier : float;
  rsi_entry_threshold_long : float;
  rsi_entry_threshold_short : float;
  num_wrong_limit : Z
}.

Definition default_config : Config :=
  {| sma_length := 150; atr_length := 14;
     trailing_stop_multiplier := 2%float;
     rsi_entry_threshold_long := 60%float;
     rsi_entry_threshold_short := 40%float;
     num_wrong_limit := 3 |}.

(** The keyword arguments of [process_data]. *)
Record Params : Type := mkParams {
  p_sma_length : nat; p_atr_length : nat; p_rsi_length : nat
}.

Definition default_params : Params :=
  {| p_sma_length := 150; p_atr_length := 14; p_rsi_length := 14 |}.

(** [process_data]: adds SMA, ATR and RSI. *)
Definition process_data (lib : Library) (p : Params) (data : list Bar) : list Row :=
  let sma := rolling_mean lib (p_sma_length p) (col_close <$> data) in
  let atr := ta_atr lib (col_high <$> data) (col_low <$> data)
                    (col_close <$> data) (p_atr_length p) in
  let rsi := ta_rsi lib (col_close <$> data) (p_rsi_length p) in
  imap (fun i b => {| bar := b; SMA := cell sma i; ATR := column atr i;
                      RSI := column rsi i |}) data.

Definition start_idx (cfg : Config) : nat :=
  Nat.max (sma_length cfg) (atr_length cfg).

Definition body (cfg : Config) (data : list Row) (i : nat) (s : LoopState)
  : outcome LoopState :=
  let m := trailing_stop_multiplier cfg in
  close ← loc data (Z.of_nat i) (col_close ∘ bar);
  open_ ← loc data (Z.of_nat i) (col_open ∘ bar);
  atr ← loc data (Z.of_nat i) ATR;
  rsi ← loc data (Z.of_nat i) RSI;
  sma ← loc data (Z.of_nat i) SMA;
  if isna atr || isna rsi || isna sma then mret s
  else
    if (position s =? 0)%Z then
      if gt close sma && ge rsi (rsi_entry_threshold_long cfg) && gt close open_ then
        mret (emit i 1 LONG 1 (close - atr * m)%float 0 s)
      else if lt close sma && le rsi (rsi_entry_threshold_short cfg) && lt close open_ then
        mret (emit i (-1) SHORT (-1) (close + atr * m)%float 0 s)
      else mret s
    else if (position s =? 1)%Z then
      prev ← loc data (Z.of_nat i - 1) (col_close ∘ bar);
      let nw := if le close prev then (num_wrong s + 1)%Z else 0%Z in
      let exit_signal := lt rsi (rsi_entry_threshold_short cfg) || lt close sma in
      if exit_signal || (nw >=? num_wrong_limit cfg)%Z || lt close (trailing_stop s) then
        mret (emit i (-1) CLOSE 0 (trailing_stop s) 0 s)
      else
        mret (keep (Py.max (trailing_stop s) (close - atr * m)%float) nw s)
    else if (position s =? -1)%Z then
      prev ← loc data (Z.of_nat i - 1) (col_close ∘ bar);
      let nw := if ge close prev then (num_wrong s + 1)%Z else 0%Z in
      let exit_signal := gt rsi (rsi_entry_threshold_long cfg) || gt close sma in
      if exit_signal || (nw >=? num_wrong_limit cfg)%Z || gt close (trailing_stop s) then
        mret (emit i 1 CLOSE 0 (trailing_stop s) 0 s)
      else
        mret (keep (Py.min (trailing_stop s) (close + atr * m)%float) nw s)
    else mret s.

Definition state_at (cfg : Config) (data : list Row) (k : nat) : outcome LoopState :=
  for_range (body cfg data) (start_idx cfg) (k - start_idx cfg)
            (init_state (length data)).

Definition strat (cfg : Config) (data : list Row) : outcome (list Z * list TradeType) :=
  columns <$> state_at cfg data (length data).

End main5.

(** ** The four variants behind one interface *)

Inductive variant : Type :=
| EMA_MACD        (* Strategy_2.py *)
| VolumeSpike     (* main3.py *)
| VolumeSpike_RSI (* main4.py *)
| SMA_RSI.        (* main5.py *)

Definition Row (v : variant) : Type :=
  match v with
  | EMA_MACD => Strategy_2.Row
  | VolumeSpike => main3.Row
  | VolumeSpike_RSI => main4.Row
  | SMA_RSI => main5.Row
  end.

Definition Config (v : variant) : Type :=
  match v with
  | EMA_MACD => Strategy_2.Config
  | VolumeSpike => main3.Config
  | VolumeSpike_RSI => main4.Config
  | SMA_RSI => main5.Config
  end.

Definition bar_of {v : variant} : Row v -> Bar :=
  match v with
  | EMA_MACD => Strategy_2.bar
  | VolumeSpike => main3.bar
  | VolumeSpike_RSI => main4.bar
  | SMA_RSI => main5.bar
  end.

Definition atr_of {v : variant} : Row v -> float :=
  match v with
  | EMA_MACD => Strategy_2.ATR
  | VolumeSpike => main3.ATR
  | VolumeSpike_RSI => main4.ATR
  | SMA_RSI => main5.ATR
  end.

(** The indicator cells of a row that the variant's [pd.isna] guard reads:
    some indicator the variant needs is undefined on this row. *)
Definition undefined {v : variant} : Row v -> bool :=
  match v with
  | EMA_MACD => fun r =>
      isna (Strategy_2.ATR r) || isna (Strategy_2.MACD r)
      || isna (Strategy_2.MACD_signal r) || isna (Strategy_2.EMA r)
  | VolumeSpike => fun r => isna (main3.ATR r)
  | VolumeSpike_RSI => fun r => isna (main4.ATR r) || isna (main4.RSI r)
  | SMA_RSI => fun r =>
      isna (main5.ATR r) || isna (main5.RSI r) || isna (main5.SMA r)
  end.

Definition multiplier {v : variant} : Config v -> float :=
  match v with
  | EMA_MACD => Strategy_2.trailing_stop_multiplier
  | VolumeSpike => main3.trailing_stop_multiplier
  | VolumeSpike_RSI => main4.trailing_stop_multiplier
  | SMA_RSI => main5.trailing_stop_multiplier
  end.

Definition limit {v : variant} : Config v -> Z :=
  match v with
  | EMA_MACD => Strategy_2.num_wrong_limit
  | VolumeSpike => main3.num_wrong_limit
  | VolumeSpike_RSI => main4.num_wrong_limit
  | SMA_RSI => main5.num_wrong_limit
  end.

Definition start_idx (v : variant) : Config v -> nat :=
  match v with
  | EMA_MACD => Strategy_2.start_idx
  | VolumeSpike => main3.start_idx
  | VolumeSpike_RSI => main4.start_idx
  | SMA_RSI => main5.start_idx
  end.

Definition body (v : variant)
  : Config v -> list (Row v) -> nat -> LoopState -> outcome LoopState :=
  match v with
  | EMA_MACD => Strategy_2.body
  | VolumeSpike => main3.body
  | VolumeSpike_RSI => main4.body
  | SMA_RSI => main5.body
  end.

Definition state_at (v : variant)
  : Config v -> list (Row v) -> nat -> outcome LoopState :=
  match v with
  | EMA_MACD => Strategy_2.state_at
  | VolumeSpike => main3.state_at
  | VolumeSpike_RSI => main4.state_at
  | SMA_RSI => main5.state_at
  end.

Definition strat (v : variant)
  : Config v -> list (Row v) -> outcome (list Z * list TradeType) :=
  match v with
  | EMA_MACD => Strategy_2.strat
  | VolumeSpike => main3.strat
  | VolumeSpike_RSI => main4.strat
  | SMA_RSI => main5.strat
  end.

(** The reversal trigger of a held long (short) position at bar [i]; the
    variants without the reversal rule never trigger. *)
Definition reversal_long (v : variant) : Config v -> list (Row v) -> nat -> bool :=
  match v with
  | EMA_MACD => fun _ _ _ => false
  | VolumeSpike => fun cfg data i =>
      match data !! i with
      | Some r =>
          gt (col_volume (main3.bar r)) (main3.vol_spike_threshold cfg data i)
          && lt (col_close (main3.bar r)) (col_open (main3.bar r))
      | None => false
      end
  | VolumeSpike_RSI => fun cfg data i =>
      match data !! i with
      | Some r =>
          gt (col_volume (main4.bar r)) (main4.vol_spike_threshold cfg data i)
          && lt (col_close (main4.bar r)) (col_open (main4.bar r))
          && le (main4.RSI r) (main4.rsi_entry_threshold_short cfg)
      | None => false
      end
  | SMA_RSI => fun _ _ _ => false
  end.

Definition reversal_short (v : variant) : Config v -> list (Row v) -> nat -> bool :=
  match v with
  | EMA_MACD => fun _ _ _ => false
  | VolumeSpike => fun cfg data i =>
      match data !! i with
      | Some r =>
          gt (col_volume (main3.bar r)) (main3.vol_spike_threshold cfg data i)
          && gt (col_close (main3.bar r)) (col_open (main3.bar r))
      | None => false
      end
  | VolumeSpike_RSI => fun cfg data i =>
      match data !! i with
      | Some r =>
          gt (col_volume (main4.bar r)) (main4.vol_spike_threshold cfg data i)
          && gt (col_close (main4.bar r)) (col_open (main4.bar r))
          && ge (main4.RSI r) (main4.rsi_entry_threshold_long cfg)
      | None => false
      end
  | SMA_RSI => fun _ _ _ => false
  end.

(** ** What one iteration can do to the loop state

    [transition i c a m lim s s']: the effect of one bar with close [c] and
    ATR [a] under multiplier [m] and adverse-close limit [lim]. *)
Inductive transition (i : nat) (c a m : float) (lim : Z) (s : LoopState)
  : LoopState -> Prop :=
| T_idle : transition i c a m lim s s
| T_long :
    position s = 0%Z ->
    transition i c a m lim s (emit i 1 LONG 1 (c - a * m)%float 0 s)
| T_short :
    position s = 0%Z ->
    transition i c a m lim s (emit i (-1) SHORT (-1) (c + a * m)%float 0 s)
| T_reverse_long :
    position s = 1%Z ->
    transition i c a m lim s
               (emit i (-2) REVERSE_LONG_TO_SHORT (-1) (c + a * m)%float 0 s)
| T_reverse_short :
    position s = (-1)%Z ->
    transition i c a m lim s
               (emit i 2 REVERSE_SHORT_TO_LONG 1 (c - a * m)%float 0 s)
| T_close_long :
    position s = 1%Z ->
    transition i c a m lim s (emit i (-1) CLOSE 0 (trailing_stop s) 0 s)
| T_close_short :
    position s = (-1)%Z ->
    transition i c a m lim s (emit i 1 CLOSE 0 (trailing_stop s) 0 s)
| T_hold_long nw :
    position s = 1%Z ->
    (nw = 0 \/ nw = num_wrong s + 1)%Z -> (nw < lim)%Z ->
    transition i c a m lim s
               (keep (Py.max (trailing_stop s) (c - a * m)%float) nw s)
| T_hold_short nw :
    position s = (-1)%Z ->
    (nw = 0 \/ nw = num_wrong s + 1)%Z -> (nw < lim)%Z ->
    transition i c a m lim s
               (keep (Py.min (trailing_stop s) (c + a * m)%float) nw s).

(** The pair written to row [i] by an iteration that moves the position
    from [pos] to [pos']. *)
Inductive emitted (pos pos' : Z) : Z -> TradeType -> Prop :=
| E_hold : pos' = pos -> emitted pos pos' 0 HOLD
| E_long : pos = 0%Z -> pos' = 1%Z -> emitted pos pos' 1 LONG
| E_short : pos = 0%Z -> pos' = (-1)%Z -> emitted pos pos' (-1) SHORT
| E_close_long : pos = 1%Z -> pos' = 0%Z -> emitted pos pos' (-1) CLOSE
| E_close_short : pos = (-1)%Z -> pos' = 0%Z -> emitted pos pos' 1 CLOSE
| E_reverse_long :
    pos = 1%Z -> pos' = (-1)%Z -> emitted pos pos' (-2) REVERSE_LONG_TO_SHORT
| E_reverse_short :
    pos = (-1)%Z -> pos' = 1%Z -> emitted pos pos' 2 REVERSE_SHORT_TO_LONG.

(** The loop invariant on entering bar [k] of a frame of [len] rows. *)
Record Inv (len : nat) (lim : Z) (k : nat) (s : LoopState) : Prop := mkInv {
  inv_signals : length (signals s) = len;
  inv_trade_type : length (trade_type s) = len;
  inv_position : position s = 0%Z \/ position s = 1%Z \/ position s = (-1)%Z;
  inv_first : position s = 0%Z \/ 1 <= k;
  inv_flat : position s = 0%Z -> num_wrong s = 0%Z;
  inv_count : (0 <= num_wrong s)%Z /\ (num_wrong s = 0 \/ num_wrong s < lim)%Z;
  inv_fresh : forall j, k <= j -> j < len ->
                signals s !! j = Some 0%Z /\ trade_type s !! j = Some HOLD
}.

Definition opening (ty : TradeType) : Prop := ty = LONG \/ ty = SHORT.

Definition closing_or_reversing (ty : TradeType) : Prop :=
  ty = CLOSE \/ ty = REVERSE_LONG_TO_SHORT \/ ty = REVERSE_SHORT_TO_LONG.

(** The loop state restricted to the first [k] rows of the frame. *)
Definition restrict (k : nat) (s : LoopState) : LoopState :=
  {| position := position s; trailing_stop := trailing_stop s;
     num_wrong := num_wrong s;
     signals := take k (signals s); trade_type := take k (trade_type s) |}.

(** The (signals, trade_type) pairs a row of the result may hold. *)
Definition allowed_pairs : list (Z * TradeType) :=
  [ (0, HOLD); (1, LONG); (-1, SHORT); (-1, CLOSE); (1, CLOSE);
    (-2, REVERSE_LONG_TO_SHORT); (2, REVERSE_SHORT_TO_LONG) ]%Z.

Definition is_reversal (ty : TradeType) : Prop :=
  ty = REVERSE_LONG_TO_SHORT \/ ty = REVERSE_SHORT_TO_LONG.

(** Trailing stop "not lower than before", on floats: unchanged or strictly
    above, and in no case strictly below.  [not_raised] is the mirror. *)
Definition not_lowered (old new : float) : Prop :=
  (new = old \/ lt old new = true) /\ lt new old = false.

Definition not_raised (old new : float) : Prop :=
  (new = old \/ gt old new = true) /\ gt new old = false.

(** Bar [j] closes at or below (at or above) the previous bar's close. *)
Definition adverse_long {v : variant} (data : list (Row v)) (j : nat) : bool :=
  match j with
  | O => false
  | S j' =>
      match data !! j, data !! j' with
      | Some r, Some p => le (col_close (bar_of r)) (col_close (bar_of p))
      | _, _ => false
      end
  end.

Definition adverse_short {v : variant} (data : list (Row v)) (j : nat) : bool :=
  match j with
  | O => false
  | S j' =>
      match data !! j, data !! j' with
      | Some r, Some p => ge (col_close (bar_of r)) (col_close (bar_of p))
      | _, _ => false
      end
  end.

(** Bar [j] exists and passes the variant's [pd.isna] guard. *)
Definition defined_at {v : variant} (data : list (Row v)) (j : nat) : bool :=
  match data !! j with
  | Some r => negb (undefined r)
  | None => false
  end.

(** [volume_spike] at bar [i] in the two volume-spike variants. *)
Definition volume_spike (v : variant) : Config v -> list (Row v) -> nat -> bool :=
  match v with
  | VolumeSpike => fun cfg data i =>
      match data !! i with
      | Some r => gt (col_volume (main3.bar r)) (main3.vol_spike_threshold cfg data i)
      | None => false
      end
  | VolumeSpike_RSI => fun cfg data i =>
      match data !! i with
      | Some r => gt (col_volume (main4.bar r)) (main4.vol_spike_threshold cfg data i)
      | None => false
      end
  | _ => fun _ _ _ => false
  end.

(** The keyword arguments of each variant's [process_data], and the
    pipeline of [main]: [strat(process_data(data))]. *)
Definition Params (v : variant) : Type :=
  match v with
  | EMA_MACD => Strategy_2.Params
  | VolumeSpike => nat
  | VolumeSpike_RSI => main4.Params
  | SMA_RSI => main5.Params
  end.

Definition process_data (v : variant) (lib : Library)
  : Params v -> list Bar -> outcome (list (Row v)) :=
  match v with
  | EMA_MACD => Strategy_2.process_data lib
  | VolumeSpike => fun p bars => Returned (main3.process_data lib p bars)
  | VolumeSpike_RSI => fun p bars => Returned (main4.process_data lib p bars)
  | SMA_RSI => fun p bars => Returned (main5.process_data lib p bars)
  end.

(** [strat(process_data(data))]. *)
Definition pipeline (v : variant) (lib : Library) (p : Params v)
           (cfg : Config v) (bars : list Bar)
  : outcome (list Z * list TradeType) :=
  processed_data ← process_data v lib p bars;
  strat v cfg processed_data.

(** The cell of a column of [ta.macd]'s result at label [i]; there is none
    when the result is [None] or has no such column. *)
Definition frame_cell (df : option Frame) (name : string) (i : nat) : float :=
  match df with
  | Some d =>
      match getitem d name with
      | Returned xs => cell xs i
      | Raised _ => nan
      end
  | None => nan
  end.

(** The contract assumed of the indicator library, the specification's
    "each indicator at index i is a pure function of bars[0..i]": the cell
    at label [i] of every series is the same whether it is computed from
    the whole input or from any prefix that contains label [i].  A cell
    that does not exist (the library returned [None], a shorter series or
    a frame without the column) counts as undefined, like NaN. *)
Definition causal1 (f : list float -> list float) : Prop :=
  forall xs k i, i < k -> cell (f (take k xs)) i = cell (f xs) i.

Record causal (lib : Library) : Prop := mkCausal {
  causal_ewm : forall n, causal1 (ewm_mean lib n);
  causal_rolling : forall n, causal1 (rolling_mean lib n);
  causal_atr : forall h l c n k i, i < k ->
    column (ta_atr lib (take k h) (take k l) (take k c) n) i
    = column (ta_atr lib h l c n) i;
  causal_rsi : forall c n k i, i < k ->
    column (ta_rsi lib (take k c) n) i = column (ta_rsi lib c n) i;
  causal_macd : forall c f s g name k i, i < k ->
    frame_cell (ta_macd lib (take k c) f s g) name i
    = frame_cell (ta_macd lib c f s g) name i
}.

(** A small causal library to run the pipeline on: the series are computed
    cell by cell from the bar itself (the bar's range for ATR, the close for
    the averages and MACD, a constant 60 for RSI) and are never [None]. *)
Definition sample_library : Library :=
  {| ewm_mean := fun _ c => c;
     rolling_mean := fun _ c => c;
     ta_atr := fun h l _ _ => Some (zip_with PrimFloat.sub h l);
     ta_rsi := fun c _ => Some ((fun _ => 60%float) <$> c);
     ta_macd := fun c f s g =>
                  Some [(column_name "MACD" f s g, c);
                        (column_name "MACDh" f s g, (fun _ => 0%float) <$> c);
                        (column_name "MACDs" f s g, c)] |}.

(** The same series behind the warm-up of pandas_ta: an indicator of
    length [n] returns [None] for an input of fewer than [n] rows and has
    no value on its first [n] labels ([ta.macd]: the largest of its three
    lengths). *)
Definition warm (n : nat) (xs : list float) : list float :=
  imap (fun i x => if (i <? n)%nat then nan else x) xs.

Definition warming_library : Library :=
  {| ewm_mean := ewm_mean sample_library;
     rolling_mean := rolling_mean sample_library;
     ta_atr := fun h l c n =>
                 if (length c <? n)%nat then None
                 else Some (warm n (zip_with PrimFloat.sub h l));
     ta_rsi := fun c n =>
                 if (length c <? n)%nat then None
                 else Some (warm n ((fun _ => 60%float) <$> c));
     ta_macd := fun c f s g =>
                  let n := Nat.max f (Nat.max s g) in
                  if (length c <? n)%nat then None
                  else Some [(column_name "MACD" f s g, warm n c);
                             (column_name "MACDh" f s g, warm n ((fun _ => 0%float) <$> c));
                             (column_name "MACDs" f s g, warm n c)] |}.

(** ** Worked frames *)

(** A worked frame for main3.py (open, close, volume, ATR per row; high and
    low are not read by [strat]): a long entry on the volume spike of bar 4,
    an undefined ATR on bar 5, two adverse closes on bars 7 and 8, a second
    entry on bar 9 and a bearish spike on bar 10. *)
Definition demo_row (o c vol atr : float) : main3.Row :=
  main3.mkRow (mkBar o c c c vol) atr.

Definition demo_config : main3.Config :=
  {| main3.atr_length := 1; main3.trailing_stop_multiplier := 2%float;
     main3.volume_lookback := 4; main3.num_wrong_limit := 2 |}.

Definition demo_frame : list main3.Row :=
  [ demo_row 1 1 1 nan;
    demo_row 1 1 1 1;
    demo_row 1 1 1 1;
    demo_row 1 1 1 1;
    demo_row 2 3 100 1;
    demo_row 3 4 1 nan;
    demo_row 4 5 1 1;
    demo_row 5 4.5 1 1;
    demo_row 4.5 4 1 1;
    demo_row 4 5 500 1;
    demo_row 5 4 3000 1 ]%float.

(** A frame for main3.py whose volume is missing (NaN) on bars 5..8: the
    long position opened on the spike of bar 4 is held while the closes
    rise; on bar 8 the window of five volumes holds one number only, its
    standard deviation is NaN, and the close falls below the trailing
    stop. *)
Definition nan_volume_frame : list main3.Row :=
  [ demo_row 1 1 1 nan;
    demo_row 1 1 1 1;
    demo_row 1 1 1 1;
    demo_row 1 1 1 1;
    demo_row 2 3 100 1;
    demo_row 3 4 nan 1;
    demo_row 4 5 nan 1;
    demo_row 5 6 nan 1;
    demo_row 6 3.5 nan 1 ]%float.

(** The same frame for main4.py, with an RSI of 60 on every row: entries
    pass the RSI filter (60 >= 50), the reversal on bar 10 does not
    (60 <= 50 fails). *)
Definition demo_row4 (o c vol atr rsi : float) : main4.Row :=
  main4.mkRow (mkBar o c c c vol) atr rsi.

Definition demo_config4 : main4.Config :=
  {| main4.atr_length := 1; main4.trailing_stop_multiplier := 2%float;
     main4.volume_lookback := 4; main4.num_wrong_limit := 2;
     main4.rsi_entry_threshold_long := 50%float;
     main4.rsi_entry_threshold_short := 50%float |}.

Definition demo_frame4 : list main4.Row :=
  [ demo_row4 1 1 1 nan 60;
    demo_row4 1 1 1 1 60;
    demo_row4 1 1 1 1 60;
    demo_row4 1 1 1 1 60;
    demo_row4 2 3 100 1 60;
    demo_row4 3 4 1 nan 60;
    demo_row4 4 5 1 1 60;
    demo_row4 5 4.5 1 1 60;
    demo_row4 4.5 4 1 1 60;
    demo_row4 4 5 500 1 60;
    demo_row4 5 4 3000 1 60 ]%float.

(** A frame for main3.py under its default configuration: fourteen warm-up
    rows, volumes alternating between 90 and 110 on rows 3..13, and a
    bullish bar 14 with volume 117. *)
Definition spike_frame : list main3.Row :=
  ((fun vol => demo_row 10 10 vol nan)
     <$> [100; 100; 100; 90; 110; 90; 110; 90; 110; 90; 110; 90; 110; 90]%float)
  ++ [demo_row 10 11 117 1]%float.

(** ** Claims in the wording of the specification, where the code differs *)

(** The row at label [i] of the frame that [process_data] returns, for the
    bar [b] at that label. *)
Definition processed_row (v : variant) (lib : Library)
  : Params v -> list Bar -> nat -> Bar -> Row v :=
  match v with
  | EMA_MACD => fun p bars i b =>
      let c := col_close <$> bars in
      let f := Strategy_2.p_macd_fast p in
      let s := Strategy_2.p_macd_slow p in
      let g := Strategy_2.p_macd_signal p in
      let df := ta_macd lib c f s g in
      Strategy_2.mkRow b
        (cell (ewm_mean lib (Strategy_2.p_ema_length p) c) i)
        (column (ta_atr lib (col_high <$> bars) (col_low <$> bars) c
                        (Strategy_2.p_atr_length p)) i)
        (frame_cell df (column_name "MACD" f s g) i)
        (frame_cell df (column_name "MACDs" f s g) i)
  | VolumeSpike => fun p bars i b =>
      main3.mkRow b
        (column (ta_atr lib (col_high <$> bars) (col_low <$> bars)
                        (col_close <$> bars) p) i)
  | VolumeSpike_RSI => fun p bars i b =>
      main4.mkRow b
        (column (ta_atr lib (col_high <$> bars) (col_low <$> bars)
                        (col_close <$> bars) (main4.p_atr_length p)) i)
        (column (ta_rsi lib (col_close <$> bars) (main4.p_rsi_length p)) i)
  | SMA_RSI => fun p bars i b =>
      main5.mkRow b
        (cell (rolling_mean lib (main5.p_sma_length p) (col_close <$> bars)) i)
        (column (ta_atr lib (col_high <$> bars) (col_low <$> bars)
                        (col_close <$> bars) (main5.p_atr_length p)) i)
        (column (ta_rsi lib (col_close <$> bars) (main5.p_rsi_length p)) i)
  end.

(** The contract that the runs of one variant with the arguments [p] of
    [process_data] need of the library: the indicator cells of row [i]
    are the same whether [process_data] is given the whole input or any
    prefix that contains label [i]. *)
Definition causal_at (v : variant) (lib : Library) (p : Params v) : Prop :=
  forall (bars : list Bar) k i b, i < k ->
    processed_row v lib p (take k bars) i b = processed_row v lib p bars i b.

(** C1 as the specification words it, for a causal indicator library: at
    every index the run on the prefix and the run on the whole series both
    give a signal, and the same one. *)
Definition causality_as_stated : Prop :=
  forall lib, causal lib ->
  forall v (p : Params v) (cfg : Config v) (bars : list Bar) i,
    i < length bars ->
    exists full part sg ty,
      pipeline v lib p cfg bars = Returned full
      /\ pipeline v lib p cfg (take (S i) bars) = Returned part
      /\ row_at full i = Some (sg, ty) /\ row_at part i = Some (sg, ty).

(** C5 as the specification words it, for a held long position: in both
    volume-spike variants a volume spike on a bearish candle reverses. *)
Definition reversal_as_stated : Prop :=
  forall v (cfg : Config v) (data : list (Row v)) i s r,
    v = VolumeSpike \/ v = VolumeSpike_RSI ->
    start_idx v cfg <= i -> data !! i = Some r -> undefined r = false ->
    state_at v cfg data i = Returned s -> position s = 1%Z ->
    volume_spike v cfg data i = true ->
    lt (col_close (bar_of r)) (col_open (bar_of r)) = true ->
    exists out,
      strat v cfg data = Returned out
      /\ row_at out i = Some ((-2)%Z, REVERSE_LONG_TO_SHORT).

(** C6 as the specification words it.  The rolling volume mean and
    standard deviation are indicators of the volume-spike configurations;
    a bar on which an indicator of the configuration is undefined, those
    two included, is a no-op. *)
Definition required_undefined (v : variant)
  : Config v -> list (Row v) -> nat -> bool :=
  match v with
  | VolumeSpike => fun cfg data i =>
      match data !! i with
      | Some r =>
          undefined (v:=VolumeSpike) r
          || isna (mean (main3.vol_window cfg data i))
          || isna (std (main3.vol_window cfg data i))
      | None => false
      end
  | VolumeSpike_RSI => fun cfg data i =>
      match data !! i with
      | Some r =>
          undefined (v:=VolumeSpike_RSI) r
          || isna (mean (main4.vol_window cfg data i))
          || isna (std (main4.vol_window cfg data i))
      | None => false
      end
  | EMA_MACD => fun _ data i =>
      match data !! i with
      | Some r => undefined (v:=EMA_MACD) r
      | None => false
      end
  | SMA_RSI => fun _ data i =>
      match data !! i with
      | Some r => undefined (v:=SMA_RSI) r
      | None => false
      end
  end.

Definition warm_up_safety_as_stated : Prop :=
  forall v (cfg : Config v) (data : list (Row v)) i s,
    i < length data ->
    state_at v cfg data i = Returned s ->
    i < start_idx v cfg \/ required_undefined v cfg data i = true ->
    exists out,
      strat v cfg data = Returned out
      /\ row_at out i = Some (0%Z, HOLD)
      /\ state_at v cfg data (S i) = Returned s.

(** C7 as the specification words it: a CLOSE row resets the whole state to
    {flat, 0.0, 0}. *)
Definition reset_on_close_as_stated : Prop :=
  forall v (cfg : Config v) (data : list (Row v)) out i s',
    strat v cfg data = Returned out ->
    out.2 !! i = Some CLOSE ->
    state_at v cfg data (S i) = Returned s' ->
    position s' = 0%Z /\ trailing_stop s' = 0%float /\ num_wrong s' = 0%Z.

(** C8 as the specification words it: the threshold over the
    [volume_lookback] bars strictly before bar [i]. *)
Definition spec_vol_window {R : Type} (col : R -> float)
           (volume_lookback : nat) (data : list R) (i : nat) : list float :=
  loc_slice data (Z.of_nat i - Z.of_nat volume_lookback) (Z.of_nat i - 1) col.

Definition spec_vol_spike_threshold {R : Type} (col : R -> float)
           (volume_lookback : nat) (data : list R) (i : nat) : float :=
  let w := spec_vol_window col volume_lookback data i in
  (mean w + 1.5 * std w)%float.

(** C9 as the specification words it: a frame shorter than the warm-up makes
    the run fail with InsufficientDataError. *)
Definition insufficient_data_as_stated : Prop :=
  forall v (cfg : Config v) (data : list (Row v)),
    length data < start_idx v cfg ->
    raises (strat v cfg data) InsufficientDataError.

(** ** The decision table of one bar

    The conditions each variant tests on bar [i], read off its [strat], and
    the single step they drive.  [prev_row] is the row at label [i - 1]. *)
Definition prev_row {R : Type} (data : list R) (i : nat) : option R :=
  match i with
  | O => None
  | S j => data !! j
  end.

(** Long entry from flat. *)
Definition entry_long (v : variant) : Config v -> list (Row v) -> nat -> bool :=
  match v with
  | EMA_MACD => fun cfg data i =>
      match data !! i, prev_row data i with
      | Some r, Some p =>
          gt (col_close (Strategy_2.bar r)) (Strategy_2.EMA r)
          && (lt (Strategy_2.MACD p) (Strategy_2.MACD_signal p)
              && gt (Strategy_2.MACD r) (Strategy_2.MACD_signal r))
          && gt (col_close (Strategy_2.bar r)) (col_open (Strategy_2.bar r))
      | _, _ => false
      end
  | VolumeSpike => fun cfg data i =>
      match data !! i with
      | Some r =>
          gt (col_volume (main3.bar r)) (main3.vol_spike_threshold cfg data i)
          && gt (col_close (main3.bar r)) (col_open (main3.bar r))
      | None => false
      end
  | VolumeSpike_RSI => fun cfg data i =>
      match data !! i with
      | Some r =>
          gt (col_volume (main4.bar r)) (main4.vol_spike_threshold cfg data i)
          && (gt (col_close (main4.bar r)) (col_open (main4.bar r))
              && ge (main4.RSI r) (main4.rsi_entry_threshold_long cfg))
      | None => false
      end
  | SMA_RSI => fun cfg data i =>
      match data !! i with
      | Some r =>
          gt (col_close (main5.bar r)) (main5.SMA r)
          && ge (main5.RSI r) (main5.rsi_entry_threshold_long cfg)
          && gt (col_close (main5.bar r)) (col_open (main5.bar r))
      | None => false
      end
  end.

(** Short entry from flat (tested after the long entry). *)
Definition entry_short (v : variant) : Config v -> list (Row v) -> nat -> bool :=
  match v with
  | EMA_MACD => fun cfg data i =>
      match data !! i, prev_row data i with
      | Some r, Some p =>
          lt (col_close (Strategy_2.bar r)) (Strategy_2.EMA r)
          && (gt (Strategy_2.MACD p) (Strategy_2.MACD_signal p)
              && lt (Strategy_2.MACD r) (Strategy_2.MACD_signal r))
          && lt (col_close (Strategy_2.bar r)) (col_open (Strategy_2.bar r))
      | _, _ => false
      end
  | VolumeSpike => fun cfg data i =>
      match data !! i with
      | Some r =>
          gt (col_volume (main3.bar r)) (main3.vol_spike_threshold cfg data i)
          && lt (col_close (main3.bar r)) (col_open (main3.bar r))
      | None => false
      end
  | VolumeSpike_RSI => fun cfg data i =>
      match data !! i with
      | Some r =>
          gt (col_volume (main4.bar r)) (main4.vol_spike_threshold cfg data i)
          && (lt (col_close (main4.bar r)) (col_open (main4.bar r))
              && le (main4.RSI r) (main4.rsi_entry_threshold_short cfg))
      | None => false
      end
  | SMA_RSI => fun cfg data i =>
      match data !! i with
      | Some r =>
          lt (col_close (main5.bar r)) (main5.SMA r)
          && le (main5.RSI r) (main5.rsi_entry_threshold_short cfg)
          && lt (col_close (main5.bar r)) (col_open (main5.bar r))
      | None => false
      end
  end.

(** [exit_signal] of a held long (short) position; the volume-spike
    variants have none. *)
Definition exit_long (v : variant) : Config v -> list (Row v) -> nat -> bool :=
  match v with
  | EMA_MACD => fun cfg data i =>
      match data !! i, prev_row data i with
      | Some r, Some p =>
          (gt (Strategy_2.MACD p) (Strategy_2.MACD_signal p)
           && lt (Strategy_2.MACD r) (Strategy_2.MACD_signal r))
          || lt (col_close (Strategy_2.bar r)) (Strategy_2.EMA r)
      | _, _ => false
      end
  | SMA_RSI => fun cfg data i =>
      match data !! i with
      | Some r =>
          lt (main5.RSI r) (main5.rsi_entry_threshold_short cfg)
          || lt (col_close (main5.bar r)) (main5.SMA r)
      | None => false
      end
  | _ => fun _ _ _ => false
  end.

Definition exit_short (v : variant) : Config v -> list (Row v) -> nat -> bool :=
  match v with
  | EMA_MACD => fun cfg data i =>
      match data !! i, prev_row data i with
      | Some r, Some p =>
          (lt (Strategy_2.MACD p) (Strategy_2.MACD_signal p)
           && gt (Strategy_2.MACD r) (Strategy_2.MACD_signal r))
          || gt (col_close (Strategy_2.bar r)) (Strategy_2.EMA r)
      | _, _ => false
      end
  | SMA_RSI => fun cfg data i =>
      match data !! i with
      | Some r =>
          gt (main5.RSI r) (main5.rsi_entry_threshold_long cfg)
          || gt (col_close (main5.bar r)) (main5.SMA r)
      | None => false
      end
  | _ => fun _ _ _ => false
  end.

(** The adverse counter after bar [i] has been looked at: one more if the
    close is at or below (above) the previous close, else 0. *)
Definition count_long (c prev : float) (nw : Z) : Z :=
  if le c prev then (nw + 1)%Z else 0%Z.

Definition count_short (c prev : float) (nw : Z) : Z :=
  if ge c prev then (nw + 1)%Z else 0%Z.

(** One bar of any variant, as a function of the conditions above: skip an
    undefined bar; flat: long entry, else short entry; held: reversal first,
    then exit signal / adverse counter / trailing stop, else ratchet the
    stop. *)
Definition step (v : variant) (cfg : Config v) (data : list (Row v))
           (i : nat) (s : LoopState) : outcome LoopState :=
  match data !! i with
  | None => Raised (KeyError (Z.of_nat i))
  | Some r =>
      let c := col_close (bar_of r) in
      let am := (atr_of r * multiplier cfg)%float in
      if undefined r then Returned s
      else if (position s =? 0)%Z then
        Returned
          (if entry_long v cfg data i then emit i 1 LONG 1 (c - am)%float 0 s
           else if entry_short v cfg data i then
                  emit i (-1) SHORT (-1) (c + am)%float 0 s
           else s)
      else if (position s =? 1)%Z then
        prev ← loc data (Z.of_nat i - 1) (col_close ∘ bar_of);
        let nw := count_long c prev (num_wrong s) in
        Returned
          (if reversal_long v cfg data i then
             emit i (-2) REVERSE_LONG_TO_SHORT (-1) (c + am)%float 0 s
           else if exit_long v cfg data i || (nw >=? limit cfg)%Z
                   || lt c (trailing_stop s) then
             emit i (-1) CLOSE 0 (trailing_stop s) 0 s
           else keep (Py.max (trailing_stop s) (c - am)%float) nw s)
      else if (position s =? -1)%Z then
        prev ← loc data (Z.of_nat i - 1) (col_close ∘ bar_of);
        let nw := count_short c prev (num_wrong s) in
        Returned
          (if reversal_short v cfg data i then
             emit i 2 REVERSE_SHORT_TO_LONG 1 (c - am)%float 0 s
           else if exit_short v cfg data i || (nw >=? limit cfg)%Z
                   || gt c (trailing_stop s) then
             emit i 1 CLOSE 0 (trailing_stop s) 0 s
           else keep (Py.min (trailing_stop s) (c + am)%float) nw s)
      else Returned s
  end.

(** What bar [i] with row [r] decides from state [s]: the state it leaves,
    the pair that ends in row [i] of the result, and the conditions under
    which it does so. *)
Inductive decision {v : variant} (cfg : Config v) (data : list (Row v))
          (i : nat) (r : Row v) (s : LoopState)
  : LoopState -> Z -> TradeType -> Prop :=
| D_skip :
    undefined r = true ->
    decision cfg data i r s s 0 HOLD
| D_long :
    undefined r = false -> position s = 0%Z ->
    entry_long v cfg data i = true ->
    decision cfg data i r s
      (emit i 1 LONG 1
            (col_close (bar_of r) - atr_of r * multiplier cfg)%float 0 s)
      1 LONG
| D_short :
    undefined r = false -> position s = 0%Z ->
    entry_long v cfg data i = false -> entry_short v cfg data i = true ->
    decision cfg data i r s
      (emit i (-1) SHORT (-1)
            (col_close (bar_of r) + atr_of r * multiplier cfg)%float 0 s)
      (-1) SHORT
| D_flat :
    undefined r = false -> position s = 0%Z ->
    entry_long v cfg data i = false -> entry_short v cfg data i = false ->
    decision cfg data i r s s 0 HOLD
| D_reverse_long p :
    undefined r = false -> position s = 1%Z -> prev_row data i = Some p ->
    reversal_long v cfg data i = true ->
    decision cfg data i r s
      (emit i (-2) REVERSE_LONG_TO_SHORT (-1)
            (col_close (bar_of r) + atr_of r * multiplier cfg)%float 0 s)
      (-2) REVERSE_LONG_TO_SHORT
| D_close_long p :
    undefined r = false -> position s = 1%Z -> prev_row data i = Some p ->
    reversal_long v cfg data i = false ->
    exit_long v cfg data i
    || (count_long (col_close (bar_of r)) (col_close (bar_of p)) (num_wrong s)
        >=? limit cfg)%Z
    || lt (col_close (bar_of r)) (trailing_stop s) = true ->
    decision cfg data i r s (emit i (-1) CLOSE 0 (trailing_stop s) 0 s) (-1) CLOSE
| D_hold_long p :
    undefined r = false -> position s = 1%Z -> prev_row data i = Some p ->
    reversal_long v cfg data i = false ->
    exit_long v cfg data i
    || (count_long (col_close (bar_of r)) (col_close (bar_of p)) (num_wrong s)
        >=? limit cfg)%Z
    || lt (col_close (bar_of r)) (trailing_stop s) = false ->
    decision cfg data i r s
      (keep (Py.max (trailing_stop s)
                    (col_close (bar_of r) - atr_of r * multiplier cfg)%float)
            (count_long (col_close (bar_of r)) (col_close (bar_of p)) (num_wrong s))
            s)
      0 HOLD
| D_reverse_short p :
    undefined r = false -> position s = (-1)%Z -> prev_row data i = Some p ->
    reversal_short v cfg data i = true ->
    decision cfg data i r s
      (emit i 2 REVERSE_SHORT_TO_LONG 1
            (col_close (bar_of r) - atr_of r * multiplier cfg)%float 0 s)
      2 REVERSE_SHORT_TO_LONG
| D_close_short p :
    undefined r = false -> position s = (-1)%Z -> prev_row data i = Some p ->
    reversal_short v cfg data i = false ->
    exit_short v cfg data i
    || (count_short (col_close (bar_of r)) (col_close (bar_of p)) (num_wrong s)
        >=? limit cfg)%Z
    || gt (col_close (bar_of r)) (trailing_stop s) = true ->
    decision cfg data i r s (emit i 1 CLOSE 0 (trailing_stop s) 0 s) 1 CLOSE
| D_hold_short p :
    undefined r = false -> position s = (-1)%Z -> prev_row data i = Some p ->
    reversal_short v cfg data i = false ->
    exit_short v cfg data i
    || (count_short (col_close (bar_of r)) (col_close (bar_of p)) (num_wrong s)
        >=? limit cfg)%Z
    || gt (col_close (bar_of r)) (trailing_stop s) = false ->
    decision cfg data i r s
      (keep (Py.min (trailing_stop s)
                    (col_close (bar_of r) + atr_of r * multiplier cfg)%float)
            (count_short (col_close (bar_of r)) (col_close (bar_of p)) (num_wrong s))
            s)
      0 HOLD.

(** The sum of a column of signals. *)
Definition sum_signals (l : list Z) : Z := foldr Z.add 0%Z l.

(** Two more configurations for the worked frame: a tight stop (multiplier
    0.5) under a lenient counter, and an adverse-close limit of 0. *)
Definition tight_stop_config : main3.Config :=
  {| main3.atr_length := 1; main3.trailing_stop_multiplier := 0.5%float;
     main3.volume_lookback := 4; main3.num_wrong_limit := 5 |}.

Definition zero_limit_config : main3.Config :=
  {| main3.atr_length := 1; main3.trailing_stop_multiplier := 2%float;
     main3.volume_lookback := 4; main3.num_wrong_limit := 0 |}.

(** A worked frame for main5.py (open, close, SMA, ATR, RSI per row): a
    long entry on bar 1, a close below the SMA on bar 3, a short entry on
    bar 4 and a close above the SMA on bar 5. *)
Definition demo_row5 (o c sma atr rsi : float) : main5.Row :=
  main5.mkRow (mkBar o c c c 1%float) sma atr rsi.

Definition demo_config5 : main5.Config :=
  {| main5.sma_length := 1; main5.atr_length := 1;
     main5.trailing_stop_multiplier := 2%float;
     main5.rsi_entry_threshold_long := 60%float;
     main5.rsi_entry_threshold_short := 40%float;
     main5.num_wrong_limit := 3 |}.

Definition demo_frame5 : list main5.Row :=
  [ demo_row5 1 1 nan nan nan;
    demo_row5 1 2 1 1 70;
    demo_row5 2 3 2 1 70;
    demo_row5 3 2.5 2.75 1 50;
    demo_row5 2.5 2 2.75 1 30;
    demo_row5 2 2.25 2.125 1 50 ]%float.

(** The first five rows of the worked frame followed by a bar whose close
    is NaN while its ATR is defined. *)
Definition nan_close_frame : list main3.Row :=
  take 5 demo_frame ++ [demo_row 3 nan 1 1]%float.

(** ** The look-ahead check of [main]

    [main] reads the CSV, runs [strat(process_data(data))] with the default
    arguments, hands the result to the BackTester and then re-runs the
    pipeline on the prefix [data.iloc[:i+1]] of every row whose signal is
    not 0.  The CSV reader, the BackTester and the graphs are not part of
    the repository; the embedding takes the bars that were read and returns
    the lines printed by the check. *)

(** The keyword defaults of [process_data] and [strat]. *)
Definition default_params (v : variant) : Params v :=
  match v with
  | EMA_MACD => Strategy_2.default_params
  | VolumeSpike => 14
  | VolumeSpike_RSI => main4.default_params
  | SMA_RSI => main5.default_params
  end.

Definition default_config (v : variant) : Config v :=
  match v with
  | EMA_MACD => Strategy_2.default_config
  | VolumeSpike => main3.default_config
  | VolumeSpike_RSI => main4.default_config
  | SMA_RSI => main5.default_config
  end.

Inductive Message : Type :=
| Checking              (* "Checking for lookahead bias..." *)
| Detected (i : nat)    (* f"Lookahead bias detected at index {i}" *)
| NoBias.               (* "No lookahead bias detected." *)

Record CheckState : Type := mkCheck {
  lookahead_bias : bool;
  printed : list Message
}.

(** One iteration of [for i in range(len(result_data))]. *)
Definition lookahead_body (v : variant) (lib : Library) (p : Params v)
           (cfg : Config v) (bars : list Bar)
           (result_data : list Z * list TradeType)
           (i : nat) (st : CheckState) : outcome CheckState :=
  sg ← loc result_data.1 (Z.of_nat i) id;
  if negb (sg =? 0)%Z then
    temp_data ← process_data v lib p (take (S i) bars);
    temp_data ← strat v cfg temp_data;
    sg' ← loc temp_data.1 (Z.of_nat i) id;
    if negb (sg' =? sg)%Z then
      Returned {| lookahead_bias := true;
                  printed := printed st ++ [Detected i] |}
    else Returned st
  else Returned st.

Definition lookahead_check (v : variant) (lib : Library) (p : Params v)
           (cfg : Config v) (bars : list Bar) : outcome (list Message) :=
  processed_data ← process_data v lib p bars;
  result_data ← strat v cfg processed_data;
  st ← for_range (lookahead_body v lib p cfg bars result_data)
                 0 (length result_data.1)
                 {| lookahead_bias := false; printed := [Checking] |};
  Returned (if lookahead_bias st then printed st else printed st ++ [NoBias]).

Definition main (v : variant) (lib : Library) (bars : list Bar)
  : outcome (list Message) :=
  lookahead_check v lib (default_params v) (default_config v) bars.

(** Row [i] of the full run carries a signal other than 0 and the run on
    the bars [0..i] carries a different one. *)
Definition mismatch_at (v : variant) (lib : Library) (p : Params v)
           (cfg : Config v) (bars : list Bar) (i : nat) : Prop :=
  exists full part sg sg',
    pipeline v lib p cfg bars = Returned full
    /\ pipeline v lib p cfg (take (S i) bars) = Returned part
    /\ full.1 !! i = Some sg /\ part.1 !! i = Some sg'
    /\ sg <> 0%Z /\ sg' <> sg.

(** [volume_lookback = 0] in the two volume-spike variants. *)
Definition zero_lookback {v : variant} : Config v -> Prop :=
  match v with
  | VolumeSpike => fun cfg => main3.volume_lookback cfg = 0
  | VolumeSpike_RSI => fun cfg => main4.volume_lookback cfg = 0
  | _ => fun _ => False
  end.

Definition zero_lookback_config : main3.Config :=
  {| main3.atr_length := 1; main3.trailing_stop_multiplier := 2%float;
     main3.volume_lookback := 0; main3.num_wrong_limit := 2 |}.

(** The series that [process_data] obtains from [ta.atr] and stores in the
    ATR column. *)
Definition param_atr_length {v : variant} : Params v -> nat :=
  match v with
  | EMA_MACD => Strategy_2.p_atr_length
  | VolumeSpike => fun n => n
  | VolumeSpike_RSI => main4.p_atr_length
  | SMA_RSI => main5.p_atr_length
  end.

Definition atr_series (v : variant) (lib : Library) (p : Params v)
           (bars : list Bar) : option (list float) :=
  ta_atr lib (col_high <$> bars) (col_low <$> bars) (col_close <$> bars)
         (param_atr_length p).

(** Replace the OHLCV part of a row, keeping its indicator cells. *)
Definition map_bar {v : variant} (f : Bar -> Bar) : Row v -> Row v :=
  match v with
  | EMA_MACD => fun r =>
      Strategy_2.mkRow (f (Strategy_2.bar r)) (Strategy_2.EMA r)
                       (Strategy_2.ATR r) (Strategy_2.MACD r)
                       (Strategy_2.MACD_signal r)
  | VolumeSpike => fun r => main3.mkRow (f (main3.bar r)) (main3.ATR r)
  | VolumeSpike_RSI => fun r =>
      main4.mkRow (f (main4.bar r)) (main4.ATR r) (main4.RSI r)
  | SMA_RSI => fun r =>
      main5.mkRow (f (main5.bar r)) (main5.SMA r) (main5.ATR r) (main5.RSI r)
  end.

(** Two bars agree on the OHLCV columns that the variant's [strat] reads:
    open and close, and volume in the two volume-spike variants. *)
Definition same_inputs (v : variant) (b b' : Bar) : Prop :=
  col_open b' = col_open b
  /\ col_close b' = col_close b
  /\ match v with
     | VolumeSpike | VolumeSpike_RSI => col_volume b' = col_volume b
     | _ => True
     end.

(** Overwrite high and low (and volume) with 0. *)
Definition flatten_range (b : Bar) : Bar :=
  mkBar (col_open b) 0 0 (col_close b) (col_volume b).

Definition drop_volume (b : Bar) : Bar :=
  mkBar (col_open b) 0 0 (col_close b) 0.

(** A bar with the columns that the variant's [strat] does not read
    overwritten. *)
Definition read_part (v : variant) : Bar -> Bar :=
  match v with
  | VolumeSpike | VolumeSpike_RSI => flatten_range
  | _ => drop_volume
  end.

(** The indicator cells of a row. *)
Definition indicators {v : variant} : Row v -> list float :=
  match v with
  | EMA_MACD => fun r =>
      [Strategy_2.EMA r; Strategy_2.ATR r; Strategy_2.MACD r;
       Strategy_2.MACD_signal r]
  | VolumeSpike => fun r => [main3.ATR r]
  | VolumeSpike_RSI => fun r => [main4.ATR r; main4.RSI r]
  | SMA_RSI => fun r => [main5.SMA r; main5.ATR r; main5.RSI r]
  end.

(** Two rows agree on every column that the variant's [strat] reads: the
    indicator cells, open and close, and volume in the two volume-spike
    variants.  High and low (and volume elsewhere) are free. *)
Definition same_read_columns (v : variant) (r r' : Row v) : Prop :=
  indicators r' = indicators r /\ same_inputs v (bar_of r) (bar_of r').

(** The worked frame of main3.py with other highs and lows, row by row. *)
Definition demo_frame_ranges : list main3.Row :=
  imap (fun i r =>
          main3.mkRow
            (mkBar (col_open (main3.bar r))
                   (col_close (main3.bar r) + Py.of_nat i)%float
                   (col_close (main3.bar r) - Py.of_nat (2 * i))%float
                   (col_close (main3.bar r)) (col_volume (main3.bar r)))
            (main3.ATR r))
       demo_frame.

(** * Proofs *)

Lemma loc_Returned {R A} (data : list R) (i : nat) (col : R -> A) r :
  data !! i = Some r -> loc data (Z.of_nat i) col = Returned (col r).
Proof.
  intros H. unfold loc.
  destruct (Z.ltb_spec (Z.of_nat i) 0); [lia|].
  by rewrite Nat2Z.id, H.
Qed.

Lemma loc_prev_Returned {R A} (data : list R) (i : nat) (col : R -> A) r :
  data !! i = Some r -> loc data (Z.of_nat (S i) - 1) col = Returned (col r).
Proof.
  intros H. replace (Z.of_nat (S i) - 1)%Z with (Z.of_nat i) by lia.
  by apply loc_Returned.
Qed.

Lemma loc_Raised {R A} (data : list R) (i : nat) (col : R -> A) :
  data !! i = None -> loc data (Z.of_nat i) col = Raised (KeyError (Z.of_nat i)).
Proof.
  intros H. unfold loc.
  destruct (Z.ltb_spec (Z.of_nat i) 0); [lia|].
  by rewrite Nat2Z.id, H.
Qed.

(** Case analysis on a body that is known to have returned. *)
Ltac outcome_step :=
  match goal with
  | H : context [mbind _ (loc ?d ?z ?c)] |- _ =>
      let E := fresh "E" in
      destruct (loc d z c) eqn:E; simpl in H; [|discriminate H]
  | H : mret _ = Returned _ |- _ => injection H as <-
  | H : Returned _ = Returned _ |- _ => injection H as <-
  | H : context [if ?b then _ else _] |- _ =>
      let E := fresh "E" in destruct b eqn:E
  end.

Ltac unfold_bodies H :=
  unfold Strategy_2.body, main3.body, main4.body, main5.body in H.

Ltac bool_facts :=
  repeat match goal with
    | H : (_ =? _)%Z = true |- _ => apply Z.eqb_eq in H
    | H : (_ =? _)%Z = false |- _ => apply Z.eqb_neq in H
    | H : (_ >=? _)%Z = false |- _ => rewrite Z.geb_leb in H; apply Z.leb_gt in H
    | H : (_ >=? _)%Z = true |- _ => rewrite Z.geb_leb in H; apply Z.leb_le in H
    | H : _ || _ = false |- _ => apply orb_false_elim in H as [? ?]
    | H : _ && _ = true |- _ => apply andb_prop in H as [? ?]
    end.

(** Every iteration that returns performs one of the transitions, on the
    row at its own label. *)
Lemma body_transition v (cfg : Config v) (data : list (Row v)) i s s' :
  body v cfg data i s = Returned s' ->
  exists r, data !! i = Some r /\
    transition i (col_close (bar_of r)) (atr_of r) (multiplier cfg) (limit cfg) s s'.
Proof.
  intros H.
  destruct (data !! i) as [r|] eqn:Hr.
  2: { destruct v; simpl in *; unfold_bodies H;
       repeat rewrite (loc_Raised _ _ _ Hr) in H; simpl in H; discriminate H. }
  exists r; split; [done|].
  destruct v; simpl in *; unfold_bodies H;
    repeat rewrite (loc_Returned _ _ _ _ Hr) in H; simpl in H;
    repeat outcome_step; bool_facts;
    first [ apply T_idle
          | by apply T_long | by apply T_short
          | by apply T_reverse_long | by apply T_reverse_short
          | by apply T_close_long | by apply T_close_short
          | apply T_hold_long; [done | auto | lia]
          | apply T_hold_short; [done | auto | lia] ].
Qed.

(** *** Totality of one iteration *)

Lemma start_idx_EMA_MACD (cfg : Config EMA_MACD) : 26 <= start_idx EMA_MACD cfg.
Proof. simpl. unfold Strategy_2.start_idx. lia. Qed.

Lemma body_returns v (cfg : Config v) (data : list (Row v)) i s :
  i < length data -> start_idx v cfg <= i ->
  position s = 0%Z \/ 1 <= i ->
  returns (body v cfg data i s).
Proof.
  intros Hi Hstart Hpos.
  destruct (lookup_lt_is_Some_2 data i Hi) as [r Hr].
  destruct i as [|j].
  - destruct Hpos as [Hpos|]; [|lia].
    destruct v; simpl in *;
      [pose proof (start_idx_EMA_MACD cfg); simpl in *; lia| | |];
      unfold main3.body, main4.body, main5.body;
      repeat rewrite (loc_Returned _ _ _ _ Hr); simpl; rewrite Hpos; simpl;
      repeat case_match; by eexists.
  - assert (j < length data) as Hj by lia.
    destruct (lookup_lt_is_Some_2 data j Hj) as [p Hp].
    destruct v; simpl in *;
      unfold Strategy_2.body, main3.body, main4.body, main5.body;
      repeat rewrite (loc_Returned _ _ _ _ Hr);
      repeat rewrite (loc_prev_Returned _ _ _ _ Hp); simpl;
      repeat case_match; by eexists.
Qed.

(** *** The loop, one bar at a time *)

Lemma for_range_snoc {St} (body : nat -> St -> outcome St) start n s :
  for_range body start (S n) s
  = for_range body start n s ≫= body (start + n).
Proof.
  revert start s. induction n as [|n IH]; intros start s.
  - simpl. rewrite Nat.add_0_r. by destruct (body start s).
  - change (for_range body start (S (S n)) s)
      with (match body start s with
            | Returned s' => for_range body (S start) (S n) s'
            | Raised e => Raised e
            end).
    simpl (for_range body start (S n) s).
    destruct (body start s) as [s'|e]; [|done].
    rewrite IH. by replace (S start + n) with (start + S n) by lia.
Qed.

Lemma state_at_unfold v (cfg : Config v) (data : list (Row v)) k :
  state_at v cfg data k
  = for_range (body v cfg data) (start_idx v cfg) (k - start_idx v cfg)
              (init_state (length data)).
Proof. by destruct v. Qed.

Lemma strat_unfold v (cfg : Config v) (data : list (Row v)) :
  strat v cfg data = columns <$> state_at v cfg data (length data).
Proof. by destruct v. Qed.

Lemma state_at_warm_up v (cfg : Config v) (data : list (Row v)) k :
  k <= start_idx v cfg ->
  state_at v cfg data k = Returned (init_state (length data)).
Proof.
  intros Hk. rewrite state_at_unfold.
  by replace (k - start_idx v cfg) with 0 by lia.
Qed.

Lemma state_at_succ v (cfg : Config v) (data : list (Row v)) k :
  start_idx v cfg <= k ->
  state_at v cfg data (S k) = state_at v cfg data k ≫= body v cfg data k.
Proof.
  intros Hk. rewrite !state_at_unfold.
  replace (S k - start_idx v cfg) with (S (k - start_idx v cfg)) by lia.
  rewrite for_range_snoc.
  by replace (start_idx v cfg + (k - start_idx v cfg)) with k by lia.
Qed.

(** *** The loop invariant *)

Lemma init_state_inv len lim k : Inv len lim k (init_state len).
Proof.
  split; simpl; try rewrite length_replicate; auto; try lia.
  intros j _ Hj. by rewrite !lookup_replicate_2.
Qed.

Lemma transition_inv len lim k c a m s s' :
  Inv len lim k s -> k < len ->
  transition k c a m lim s s' -> Inv len lim (S k) s'.
Proof.
  intros [Hsg Hty Hpos Hfirst Hflat [Hnw0 Hnw] Hfresh] Hk Ht.
  assert (forall j, S k <= j -> j < len ->
            signals s !! j = Some 0%Z /\ trade_type s !! j = Some HOLD) as Hfresh'.
  { intros j ? ?. apply Hfresh; lia. }
  destruct Ht; split; simpl; rewrite ?length_insert; auto; try lia.
  all: try (intros j ? ?; rewrite !list_lookup_insert_ne by lia; by apply Hfresh').
  all: try (intros Hp; rewrite Hp in *; discriminate).
Qed.

Lemma transition_emitted len lim k c a m s s' :
  Inv len lim k s -> k < len ->
  transition k c a m lim s s' ->
  exists sg ty, signals s' !! k = Some sg /\ trade_type s' !! k = Some ty
                /\ emitted (position s) (position s') sg ty.
Proof.
  intros [Hsg Hty _ _ _ _ Hfresh] Hk Ht.
  destruct (Hfresh k) as [H1 H2]; [lia..|].
  destruct Ht; simpl;
    try (do 2 eexists; rewrite !list_lookup_insert_eq by lia;
         split; [done|split; [done|]]; by constructor).
  all: exists 0%Z, HOLD; split; [done|split; [done|]]; by constructor.
Qed.

Lemma transition_frame k c a m lim s s' j :
  transition k c a m lim s s' -> j <> k ->
  signals s' !! j = signals s !! j /\ trade_type s' !! j = trade_type s !! j.
Proof.
  intros Ht Hj. destruct Ht; simpl; rewrite ?list_lookup_insert_ne by done; done.
Qed.

Lemma state_at_inv v (cfg : Config v) (data : list (Row v)) k :
  k <= length data ->
  exists s, state_at v cfg data k = Returned s
            /\ Inv (length data) (limit cfg) k s.
Proof.
  induction k as [|k IH]; intros Hk.
  - exists (init_state (length data)). split; [|apply init_state_inv].
    apply state_at_warm_up. lia.
  - destruct IH as (s & Hs & Hinv); [lia|].
    destruct (decide (k < start_idx v cfg)) as [Hwarm|Hrun].
    + exists (init_state (length data)). split; [|apply init_state_inv].
      apply state_at_warm_up. lia.
    + destruct (body_returns v cfg data k s) as [s' Hs']; [lia|lia|apply Hinv|].
      exists s'. rewrite state_at_succ, Hs by lia. split; [done|].
      destruct (body_transition _ _ _ _ _ _ Hs') as (r & _ & Ht).
      eapply transition_inv; eauto.
Qed.

(** One bar of the run: the states around bar [i] and what bar [i] did. *)
Lemma state_at_step v (cfg : Config v) (data : list (Row v)) i :
  i < length data ->
  exists s s',
    state_at v cfg data i = Returned s
    /\ state_at v cfg data (S i) = Returned s'
    /\ Inv (length data) (limit cfg) i s
    /\ Inv (length data) (limit cfg) (S i) s'
    /\ ((i < start_idx v cfg /\ s' = s)
        \/ (start_idx v cfg <= i /\ body v cfg data i s = Returned s')).
Proof.
  intros Hi.
  destruct (state_at_inv v cfg data i) as (s & Hs & Hinv); [lia|].
  destruct (state_at_inv v cfg data (S i)) as (s' & Hs' & Hinv'); [lia|].
  exists s, s'. do 4 (split; [done|]).
  destruct (decide (i < start_idx v cfg)) as [Hwarm|Hrun].
  - left. split; [done|].
    rewrite state_at_warm_up in Hs, Hs' by lia. congruence.
  - right. split; [lia|].
    rewrite state_at_succ, Hs in Hs' by lia. done.
Qed.

(** Later iterations leave the rows below them alone. *)
Lemma state_at_frame v (cfg : Config v) (data : list (Row v)) k k' s s' j :
  k <= k' -> k' <= length data ->
  state_at v cfg data k = Returned s ->
  state_at v cfg data k' = Returned s' ->
  j < k ->
  signals s' !! j = signals s !! j /\ trade_type s' !! j = trade_type s !! j.
Proof.
  intros Hkk'. revert s'. induction Hkk' as [|k' Hkk' IH]; intros s' Hlen Hs Hs' Hj.
  - by replace s' with s by congruence.
  - destruct (state_at_step v cfg data k') as (t & t' & Ht & Ht' & _ & _ & Hcase); [lia|].
    replace t' with s' in * by congruence.
    destruct (IH t) as [IH1 IH2]; [lia|done..|].
    destruct Hcase as [[_ ->]|[_ Hb]]; [done|].
    destruct (body_transition _ _ _ _ _ _ Hb) as (r & _ & Htr).
    destruct (transition_frame _ _ _ _ _ _ _ j Htr) as [F1 F2]; [lia|].
    by rewrite F1, F2.
Qed.

(** The run returns, and row [i] of its result is what bar [i] wrote. *)
Lemma strat_returns v (cfg : Config v) (data : list (Row v)) :
  exists s, state_at v cfg data (length data) = Returned s
            /\ strat v cfg data = Returned (columns s)
            /\ Inv (length data) (limit cfg) (length data) s.
Proof.
  destruct (state_at_inv v cfg data (length data)) as (s & Hs & Hinv); [lia|].
  exists s. rewrite strat_unfold, Hs. done.
Qed.

Lemma strat_row v (cfg : Config v) (data : list (Row v)) i :
  i < length data ->
  exists out s s' sg ty,
    strat v cfg data = Returned out
    /\ state_at v cfg data i = Returned s
    /\ state_at v cfg data (S i) = Returned s'
    /\ out.1 !! i = Some sg /\ out.2 !! i = Some ty
    /\ signals s' !! i = Some sg /\ trade_type s' !! i = Some ty
    /\ emitted (position s) (position s') sg ty.
Proof.
  intros Hi.
  destruct (strat_returns v cfg data) as (f & Hf & Hout & _).
  destruct (state_at_step v cfg data i Hi) as (s & s' & Hs & Hs' & Hinv & Hinv' & Hcase).
  assert (exists sg ty, signals s' !! i = Some sg /\ trade_type s' !! i = Some ty
                        /\ emitted (position s) (position s') sg ty)
    as (sg & ty & H1 & H2 & He).
  { destruct Hcase as [[_ ->]|[_ Hb]].
    - destruct (inv_fresh _ _ _ _ Hinv i) as [? ?]; [lia..|].
      exists 0%Z, HOLD. do 2 (split; [done|]). by constructor.
    - destruct (body_transition _ _ _ _ _ _ Hb) as (r & _ & Htr).
      eapply transition_emitted; eauto. }
  destruct (state_at_frame v cfg data (S i) (length data) s' f i) as [F1 F2];
    [lia|lia|done..|lia|].
  exists (columns f), s, s', sg, ty. simpl. rewrite F1, F2. done.
Qed.

(** ** Signal / trade-type pairing *)

Lemma row_at_Some out i sg ty :
  row_at out i = Some (sg, ty) <-> out.1 !! i = Some sg /\ out.2 !! i = Some ty.
Proof.
  unfold row_at. destruct (out.1 !! i), (out.2 !! i); split;
    try done; try (by intros [? ?]).
  - by intros [= -> ->].
  - by intros [[= ->] [= ->]].
Qed.

Lemma emitted_allowed pos pos' sg ty :
  emitted pos pos' sg ty ->
  (sg, ty) ∈ allowed_pairs
  /\ (Z.abs sg = 2%Z <-> is_reversal ty)
  /\ (sg = 0%Z <-> ty = HOLD)
  /\ (sg = (-1)%Z -> ty = CLOSE -> pos = 1%Z)
  /\ (sg = 1%Z -> ty = CLOSE -> pos = (-1)%Z).
Proof.
  unfold allowed_pairs, is_reversal.
  destruct 1; (split; [repeat constructor|]); repeat split; intros; subst;
    try done; try lia; try (destruct_or?; done); auto.
Qed.

(** C10. In every variant the run returns a frame of the input's length in
    which every row holds one of the seven pairs (0, HOLD), (1, LONG),
    (-1, SHORT), (-1, CLOSE), (1, CLOSE), (-2, REVERSE_LONG_TO_SHORT),
    (2, REVERSE_SHORT_TO_LONG); |signals| = 2 exactly on a reversal row,
    signals = 0 exactly on a HOLD row, and (-1, CLOSE) is written only on a
    bar entered long, (1, CLOSE) only on a bar entered short. *)
Theorem signal_trade_type_pairing :
  forall v (cfg : Config v) (data : list (Row v)),
  exists out,
    strat v cfg data = Returned out
    /\ length out.1 = length data /\ length out.2 = length data
    /\ forall i sg ty,
        row_at out i = Some (sg, ty) ->
        (sg, ty) ∈ allowed_pairs
        /\ (Z.abs sg = 2%Z <-> is_reversal ty)
        /\ (sg = 0%Z <-> ty = HOLD)
        /\ exists s, state_at v cfg data i = Returned s
             /\ (sg = (-1)%Z -> ty = CLOSE -> position s = 1%Z)
             /\ (sg = 1%Z -> ty = CLOSE -> position s = (-1)%Z).
Proof.
  intros v cfg data.
  destruct (strat_returns v cfg data) as (f & Hf & Hout & Hinv).
  exists (columns f). split; [done|]. simpl.
  split; [apply Hinv|]. split; [apply Hinv|].
  intros i sg ty [Hsg Hty]%row_at_Some. simpl in *.
  assert (i < length data) as Hi.
  { rewrite <- (inv_signals _ _ _ _ Hinv). by eapply lookup_lt_Some. }
  destruct (strat_row v cfg data i Hi)
    as (out & s & s' & sg' & ty' & Ho & Hs & _ & Hsg' & Hty' & _ & _ & He).
  replace out with (columns f) in * by congruence. simpl in *.
  replace sg' with sg in * by congruence.
  replace ty' with ty in * by congruence.
  destruct (emitted_allowed _ _ _ _ He) as (A & B & C & D & E).
  do 3 (split; [done|]). exists s. done.
Qed.

Lemma signal_trade_type_pairing_witness :
  (-2, REVERSE_LONG_TO_SHORT)%Z ∈ allowed_pairs
  /\ (Z.abs (-2) = 2%Z <-> is_reversal REVERSE_LONG_TO_SHORT)
  /\ ((-2)%Z = 0%Z <-> REVERSE_LONG_TO_SHORT = HOLD).
Proof.
  destruct (signal_trade_type_pairing VolumeSpike demo_config demo_frame)
    as (out & Ho & _ & _ & H).
  vm_compute in Ho. injection Ho as <-.
  destruct (H 10 (-2)%Z REVERSE_LONG_TO_SHORT) as (A & B & C & _); [reflexivity|].
  exact (conj A (conj B C)).
Defined.

(** ** Single open position *)

Lemma emitted_opening pos pos' sg ty :
  emitted pos pos' sg ty -> opening ty -> pos = 0%Z /\ pos' <> 0%Z.
Proof. destruct 1; intros [?|?]; try done; split; lia. Qed.

Lemma emitted_held pos pos' sg ty :
  emitted pos pos' sg ty -> pos <> 0%Z ->
  closing_or_reversing ty \/ pos' <> 0%Z.
Proof.
  unfold closing_or_reversing.
  destruct 1; intros Hpos; try lia; auto.
Qed.

(** A position that is open after bar [i] stays open until a CLOSE or
    REVERSE row is written. *)
Lemma held_between v (cfg : Config v) (data : list (Row v)) out n i s :
  strat v cfg data = Returned out ->
  i + 1 + n <= length data ->
  state_at v cfg data (i + 1) = Returned s -> position s <> 0%Z ->
  (exists m tm, i < m < i + 1 + n /\ out.2 !! m = Some tm /\ closing_or_reversing tm)
  \/ (exists s', state_at v cfg data (i + 1 + n) = Returned s' /\ position s' <> 0%Z).
Proof.
  intros Hout. induction n as [|n IH]; intros Hlen Hs Hpos.
  - right. exists s. by rewrite Nat.add_0_r.
  - destruct IH as [(m & tm & Hm & Htm & Hc)|(t & Ht & Hpt)]; [lia|done..| |].
    + left. exists m, tm. split; [lia|done].
    + destruct (strat_row v cfg data (i + 1 + n))
        as (out' & u & u' & sg & ty & Ho & Hu & Hu' & _ & Hty & _ & _ & He); [lia|].
      replace out' with out in * by congruence.
      replace u with t in * by congruence.
      destruct (emitted_held _ _ _ _ He Hpt) as [Hc|Hp].
      * left. exists (i + 1 + n), ty. split; [lia|done].
      * right. exists u'. split; [|done].
        by replace (i + 1 + S n) with (S (i + 1 + n)) by lia.
Qed.

(** C3. In every variant the run returns, and: on entering any bar,
    [position] is 0, 1 or -1 (one slot); a row holds LONG or SHORT only if
    the position was flat on entering that bar; and between two rows that
    hold an opening signal there is a row holding CLOSE or a REVERSE. *)
Theorem single_open_position :
  forall v (cfg : Config v) (data : list (Row v)),
  exists out,
    strat v cfg data = Returned out
    /\ (forall k, k <= length data ->
          exists s, state_at v cfg data k = Returned s
                    /\ (position s = 0 \/ position s = 1 \/ position s = -1)%Z)
    /\ (forall i ty, out.2 !! i = Some ty -> opening ty ->
          exists s, state_at v cfg data i = Returned s /\ position s = 0%Z)
    /\ (forall i j ti tj, i < j ->
          out.2 !! i = Some ti -> opening ti ->
          out.2 !! j = Some tj -> opening tj ->
          exists m tm, i < m < j /\ out.2 !! m = Some tm /\ closing_or_reversing tm).
Proof.
  intros v cfg data.
  destruct (strat_returns v cfg data) as (f & Hf & Hout & Hinv).
  exists (columns f). split; [done|].
  assert (forall i ty, (columns f).2 !! i = Some ty -> i < length data) as Hlt.
  { intros i ty Hty. rewrite <- (inv_trade_type _ _ _ _ Hinv).
    by eapply lookup_lt_Some. }
  assert (forall i ty, (columns f).2 !! i = Some ty -> opening ty ->
            exists s s', state_at v cfg data i = Returned s
                         /\ state_at v cfg data (S i) = Returned s'
                         /\ position s = 0%Z /\ position s' <> 0%Z) as Hopen.
  { intros i ty Hty Hop.
    destruct (strat_row v cfg data i (Hlt _ _ Hty))
      as (out & s & s' & sg & ty' & Ho & Hs & Hs' & _ & Hty' & _ & _ & He).
    replace out with (columns f) in * by congruence.
    replace ty' with ty in * by congruence.
    destruct (emitted_opening _ _ _ _ He Hop). by exists s, s'. }
  split; [|split].
  - intros k Hk. destruct (state_at_inv v cfg data k Hk) as (s & Hs & Hi).
    exists s. split; [done|apply Hi].
  - intros i ty Hty Hop.
    destruct (Hopen i ty Hty Hop) as (s & _ & Hs & _ & Hp & _). by exists s.
  - intros i j ti tj Hij Hti Hoi Htj Hoj.
    destruct (Hopen i ti Hti Hoi) as (_ & s' & _ & Hs' & _ & Hp').
    destruct (Hopen j tj Htj Hoj) as (t & _ & Ht & _ & Hpt & _).
    pose proof (Hlt _ _ Htj) as Hj.
    destruct (held_between v cfg data (columns f) (j - i - 1) i s') as
      [(m & tm & Hm & Htm & Hc)|(u & Hu & Hpu)]; [done|lia| |done| |].
    + by replace (i + 1) with (S i) by lia.
    + exists m, tm. split; [lia|done].
    + replace (i + 1 + (j - i - 1)) with j in Hu by lia.
      replace u with t in * by congruence. done.
Qed.

Lemma single_open_position_witness :
  exists m tm,
    4 < m < 9
    /\ [HOLD; HOLD; HOLD; HOLD; LONG; HOLD; HOLD; HOLD; CLOSE; LONG;
        REVERSE_LONG_TO_SHORT] !! m = Some tm
    /\ closing_or_reversing tm.
Proof.
  destruct (single_open_position VolumeSpike demo_config demo_frame)
    as (out & Ho & _ & _ & H).
  vm_compute in Ho. injection Ho as <-.
  apply (H 4 9 LONG LONG); [lia | reflexivity | by left | reflexivity | by left].
Defined.

(** ** Warm-up and undefined indicators *)

Lemma body_skip v (cfg : Config v) (data : list (Row v)) i s r :
  data !! i = Some r -> start_idx v cfg <= i ->
  undefined r = true ->
  body v cfg data i s = Returned s.
Proof.
  intros Hr Hstart Hna.
  destruct v; simpl in *.
  - pose proof (start_idx_EMA_MACD cfg) as H26. simpl in H26.
    destruct i as [|j]; [lia|].
    destruct (lookup_lt_is_Some_2 data j) as [p Hp].
    { apply lookup_lt_Some in Hr. lia. }
    unfold Strategy_2.body.
    repeat rewrite (loc_Returned _ _ _ _ Hr).
    repeat rewrite (loc_prev_Returned _ _ _ _ Hp). simpl.
    by rewrite Hna.
  - unfold main3.body. repeat rewrite (loc_Returned _ _ _ _ Hr). simpl.
    by rewrite Hna.
  - unfold main4.body. repeat rewrite (loc_Returned _ _ _ _ Hr). simpl.
    by rewrite Hna.
  - unfold main5.body. repeat rewrite (loc_Returned _ _ _ _ Hr). simpl.
    by rewrite Hna.
Qed.

(** C6, amended. In every variant, a bar below [start_idx], or a bar at
    which an indicator read by the variant's [pd.isna] guard is NaN (ATR;
    also MACD, MACD_signal and EMA in Strategy_2.py, RSI in main4.py, RSI
    and SMA in main5.py), is a no-op: the run returns, the result row at
    that bar is (0, HOLD), and the loop state (position, trailing stop,
    adverse counter) after the bar is the state before it. *)
Theorem warm_up_and_undefined_safety :
  forall v (cfg : Config v) (data : list (Row v)) i r,
    data !! i = Some r ->
    i < start_idx v cfg \/ undefined r = true ->
    exists out s,
      strat v cfg data = Returned out
      /\ row_at out i = Some (0%Z, HOLD)
      /\ state_at v cfg data i = Returned s
      /\ state_at v cfg data (S i) = Returned s.
Proof.
  intros v cfg data i r Hr Hcase.
  assert (i < length data) as Hi by by eapply lookup_lt_Some.
  destruct (strat_row v cfg data i Hi)
    as (out & s & s' & sg & ty & Ho & Hs & Hs' & Hsg & Hty & Hsg' & Hty' & _).
  destruct (state_at_step v cfg data i Hi)
    as (t & t' & Ht & Ht' & Hinv & _ & Hstep).
  replace t with s in * by congruence.
  replace t' with s' in * by congruence.
  assert (s' = s) as ->.
  { destruct Hstep as [[_ ?]|[Hstart Hb]]; [done|].
    destruct Hcase as [?|Hna]; [lia|].
    rewrite (body_skip v cfg data i s r) in Hb by done. congruence. }
  destruct (inv_fresh _ _ _ _ Hinv i) as [F1 F2]; [lia..|].
  exists out, s. split; [done|]. split; [|done].
  apply row_at_Some. split; congruence.
Qed.

Lemma warm_up_and_undefined_safety_witness :
  exists out s,
    strat VolumeSpike demo_config demo_frame = Returned out
    /\ row_at out 5 = Some (0%Z, HOLD)
    /\ state_at VolumeSpike demo_config demo_frame 5 = Returned s
    /\ state_at VolumeSpike demo_config demo_frame 6 = Returned s.
Proof.
  apply (warm_up_and_undefined_safety VolumeSpike demo_config demo_frame 5
           (demo_row 3 4 1 nan)).
  - reflexivity.
  - right. reflexivity.
Defined.

(** C6 as stated fails in main3.py: on bar 8 of [nan_volume_frame] the
    rolling standard deviation of the volume is undefined (one number in
    the window), the guard reads ATR only, and the bar closes the long
    position that it entered with: the row is (-1, CLOSE). *)
Lemma undefined_threshold_counterexample : ~ warm_up_safety_as_stated.
Proof.
  intros H.
  destruct (H VolumeSpike demo_config nan_volume_frame 8
              {| position := 1; trailing_stop := 4%float; num_wrong := 0;
                 signals := [0; 0; 0; 0; 1; 0; 0; 0; 0]%Z;
                 trade_type := [HOLD; HOLD; HOLD; HOLD; LONG; HOLD; HOLD;
                                HOLD; HOLD] |})
    as (out & Ho & Hrow & _).
  - simpl. lia.
  - reflexivity.
  - right. reflexivity.
  - vm_compute in Ho. injection Ho as <-. vm_compute in Hrow. discriminate Hrow.
Qed.

(** ** Trailing stop *)

(** The float order is asymmetric and irreflexive (NaN included). *)
Lemma SFcompare_antisym x y :
  SFcompare y x = CompOpp <$> SFcompare x y.
Proof.
  destruct x as [sx|sx| |sx mx ex], y as [sy|sy| |sy my ey]; simpl;
    try (destruct sx); try (destruct sy); try reflexivity.
  all: rewrite (Z.compare_antisym ex ey); destruct (ex ?= ey)%Z; simpl; try reflexivity.
  all: pose proof (Pos.compare_cont_antisym mx my Eq) as H; simpl in H;
    rewrite <- H; by destruct (Pos.compare_cont Eq mx my).
Qed.

Lemma ltb_asym a b : PrimFloat.ltb a b = true -> PrimFloat.ltb b a = false.
Proof.
  rewrite !ltb_spec. unfold SFltb.
  rewrite (SFcompare_antisym (Prim2SF a) (Prim2SF b)).
  by destruct (SFcompare (Prim2SF a) (Prim2SF b)) as [[]|].
Qed.

Lemma ltb_irrefl a : PrimFloat.ltb a a = false.
Proof.
  destruct (PrimFloat.ltb a a) eqn:E; [|done].
  by rewrite (ltb_asym a a E) in E.
Qed.

Lemma not_lowered_refl a : not_lowered a a.
Proof. split; [by left | apply ltb_irrefl]. Qed.

Lemma not_raised_refl a : not_raised a a.
Proof. split; [by left | apply ltb_irrefl]. Qed.

Lemma max_not_lowered a b : not_lowered a (Py.max a b).
Proof.
  unfold Py.max, gt. destruct (PrimFloat.ltb a b) eqn:E.
  - split; [by right | by apply ltb_asym].
  - apply not_lowered_refl.
Qed.

Lemma min_not_raised a b : not_raised a (Py.min a b).
Proof.
  unfold Py.min, lt. destruct (PrimFloat.ltb b a) eqn:E.
  - split; [by right | by apply ltb_asym].
  - apply not_raised_refl.
Qed.

Lemma transition_trailing_stop i c a m lim s s' :
  transition i c a m lim s s' ->
  (position s = 1%Z -> position s' = 1%Z ->
     (trailing_stop s' = trailing_stop s
      \/ trailing_stop s' = Py.max (trailing_stop s) (c - a * m)%float)
     /\ not_lowered (trailing_stop s) (trailing_stop s'))
  /\ (position s = (-1)%Z -> position s' = (-1)%Z ->
     (trailing_stop s' = trailing_stop s
      \/ trailing_stop s' = Py.min (trailing_stop s) (c + a * m)%float)
     /\ not_raised (trailing_stop s) (trailing_stop s')).
Proof.
  destruct 1; simpl; split; intros ? ?; try lia;
    try (split; [by left | first [apply not_lowered_refl | apply not_raised_refl]]).
  - split; [by right | apply max_not_lowered].
  - split; [by right | apply min_not_raised].
Qed.

(** C2. In every variant and on every frame, from the state entering a bar
    to the state leaving it: if the position is long before and after, the
    trailing stop is either untouched or replaced by
    max(trailing_stop, close - ATR * multiplier), and it is not lowered
    (equal or strictly greater, and not strictly smaller, in the float
    order); if the position is short before and after, it is either
    untouched or replaced by min(trailing_stop, close + ATR * multiplier),
    and it is not raised. *)
Theorem trailing_stop_monotone :
  forall v (cfg : Config v) (data : list (Row v)) k,
    k < length data ->
    exists s s' r,
      state_at v cfg data k = Returned s
      /\ state_at v cfg data (S k) = Returned s'
      /\ data !! k = Some r
      /\ (position s = 1%Z -> position s' = 1%Z ->
            (trailing_stop s' = trailing_stop s
             \/ trailing_stop s'
                = Py.max (trailing_stop s)
                         (col_close (bar_of r) - atr_of r * multiplier cfg)%float)
            /\ not_lowered (trailing_stop s) (trailing_stop s'))
      /\ (position s = (-1)%Z -> position s' = (-1)%Z ->
            (trailing_stop s' = trailing_stop s
             \/ trailing_stop s'
                = Py.min (trailing_stop s)
                         (col_close (bar_of r) + atr_of r * multiplier cfg)%float)
            /\ not_raised (trailing_stop s) (trailing_stop s')).
Proof.
  intros v cfg data k Hk.
  destruct (state_at_step v cfg data k Hk) as (s & s' & Hs & Hs' & _ & _ & Hstep).
  destruct (lookup_lt_is_Some_2 data k Hk) as [r Hr].
  exists s, s', r. do 3 (split; [done|]).
  destruct Hstep as [[_ ->]|[_ Hb]].
  - split; intros _ _;
      (split; [by left | first [apply not_lowered_refl | apply not_raised_refl]]).
  - destruct (body_transition _ _ _ _ _ _ Hb) as (r' & Hr' & Htr).
    replace r' with r in * by congruence.
    by apply transition_trailing_stop in Htr.
Qed.

Lemma trailing_stop_monotone_witness :
  exists s s' r,
    state_at VolumeSpike demo_config demo_frame 6 = Returned s
    /\ state_at VolumeSpike demo_config demo_frame 7 = Returned s'
    /\ demo_frame !! 6 = Some r
    /\ (position s = 1%Z -> position s' = 1%Z ->
          (trailing_stop s' = trailing_stop s
           \/ trailing_stop s'
              = Py.max (trailing_stop s)
                       (col_close (main3.bar r)
                        - main3.ATR r * main3.trailing_stop_multiplier demo_config)%float)
          /\ not_lowered (trailing_stop s) (trailing_stop s'))
    /\ (position s = (-1)%Z -> position s' = (-1)%Z ->
          (trailing_stop s' = trailing_stop s
           \/ trailing_stop s'
              = Py.min (trailing_stop s)
                       (col_close (main3.bar r)
                        + main3.ATR r * main3.trailing_stop_multiplier demo_config)%float)
          /\ not_raised (trailing_stop s) (trailing_stop s')).
Proof.
  apply (trailing_stop_monotone VolumeSpike demo_config demo_frame 6).
  simpl. lia.
Defined.

(** ** State after a CLOSE *)

Lemma transition_close len lim k c a m s s' :
  Inv len lim k s -> k < len ->
  transition k c a m lim s s' ->
  trade_type s' !! k = Some CLOSE ->
  position s' = 0%Z /\ num_wrong s' = 0%Z
  /\ trailing_stop s' = trailing_stop s.
Proof.
  intros Hinv Hk Ht.
  destruct (inv_fresh _ _ _ _ Hinv k) as [_ F]; [lia..|].
  pose proof (inv_trade_type _ _ _ _ Hinv) as Hlen.
  destruct Ht; simpl; rewrite ?list_lookup_insert_eq by lia;
    intros Hc; try done; congruence.
Qed.

(** C7, amended. In every variant the run returns, and at every row that
    holds CLOSE the state after that bar has [position] 0 and [num_wrong] 0,
    while [trailing_stop] keeps the value it had on entering the bar. *)
Theorem close_resets_position_and_counter :
  forall v (cfg : Config v) (data : list (Row v)),
  exists out,
    strat v cfg data = Returned out
    /\ forall i, out.2 !! i = Some CLOSE ->
         exists s s',
           state_at v cfg data i = Returned s
           /\ state_at v cfg data (S i) = Returned s'
           /\ position s' = 0%Z /\ num_wrong s' = 0%Z
           /\ trailing_stop s' = trailing_stop s.
Proof.
  intros v cfg data.
  destruct (strat_returns v cfg data) as (f & Hf & Hout & Hinv).
  exists (columns f). split; [done|]. intros i Hty.
  assert (i < length data) as Hi.
  { rewrite <- (inv_trade_type _ _ _ _ Hinv). by eapply lookup_lt_Some. }
  destruct (strat_row v cfg data i Hi)
    as (out & s & s' & sg & ty & Ho & Hs & Hs' & _ & Hty' & _ & Hty'' & _).
  replace out with (columns f) in * by congruence.
  replace ty with CLOSE in * by congruence.
  destruct (state_at_step v cfg data i Hi)
    as (t & t' & Ht & Ht' & Hinvs & _ & Hstep).
  replace t with s in * by congruence.
  replace t' with s' in * by congruence.
  exists s, s'. do 2 (split; [done|]).
  destruct Hstep as [[_ ->]|[_ Hb]].
  - destruct (inv_fresh _ _ _ _ Hinvs i) as [_ F]; [lia..|]. congruence.
  - destruct (body_transition _ _ _ _ _ _ Hb) as (r & _ & Htr).
    eapply transition_close; eauto.
Qed.

Lemma close_resets_position_and_counter_witness :
  exists s s',
    state_at VolumeSpike demo_config demo_frame 8 = Returned s
    /\ state_at VolumeSpike demo_config demo_frame 9 = Returned s'
    /\ position s' = 0%Z /\ num_wrong s' = 0%Z
    /\ trailing_stop s' = trailing_stop s.
Proof.
  destruct (close_resets_position_and_counter VolumeSpike demo_config demo_frame)
    as (out & Ho & H).
  vm_compute in Ho. injection Ho as <-.
  apply (H 8). reflexivity.
Defined.

Lemma float_3_neq_0 : 3%float <> 0%float.
Proof.
  intros H. apply (f_equal (fun x => PrimFloat.eqb x 0)) in H.
  vm_compute in H. discriminate H.
Qed.

(** C7 as stated fails: on the worked frame bar 8 writes CLOSE and leaves
    [trailing_stop] at 3.0. *)
Lemma reset_on_close_counterexample : ~ reset_on_close_as_stated.
Proof.
  intros H.
  destruct (H VolumeSpike demo_config demo_frame
              ([0; 0; 0; 0; 1; 0; 0; 0; -1; 1; -2]%Z,
               [HOLD; HOLD; HOLD; HOLD; LONG; HOLD; HOLD; HOLD; CLOSE; LONG;
                REVERSE_LONG_TO_SHORT])
              8
              {| position := 0; trailing_stop := 3%float; num_wrong := 0;
                 signals := [0; 0; 0; 0; 1; 0; 0; 0; -1; 0; 0]%Z;
                 trade_type := [HOLD; HOLD; HOLD; HOLD; LONG; HOLD; HOLD; HOLD;
                                CLOSE; HOLD; HOLD] |})
    as (_ & Hts & _); try (vm_compute; reflexivity).
  simpl in Hts. by apply float_3_neq_0.
Qed.

(** ** Adverse-close counter *)

Ltac rewrite_rows Hr Hp :=
  unfold Strategy_2.body, main3.body, main4.body, main5.body;
  repeat rewrite (loc_Returned _ _ _ _ Hr);
  repeat rewrite (loc_prev_Returned _ _ _ _ Hp); simpl.

Ltac rewrite_rows_in H Hr Hp :=
  unfold Strategy_2.body, main3.body, main4.body, main5.body in H;
  repeat rewrite (loc_Returned _ _ _ _ Hr) in H;
  repeat rewrite (loc_prev_Returned _ _ _ _ Hp) in H; simpl in H.

Lemma body_long_force_close v (cfg : Config v) (data : list (Row v)) j s r p :
  data !! S j = Some r -> data !! j = Some p ->
  undefined r = false -> position s = 1%Z ->
  le (col_close (bar_of r)) (col_close (bar_of p)) = true ->
  (limit cfg <= num_wrong s + 1)%Z ->
  reversal_long v cfg data (S j) = false ->
  body v cfg data (S j) s
  = Returned (emit (S j) (-1) CLOSE 0 (trailing_stop s) 0 s).
Proof.
  intros Hr Hp Hna Hpos Hle Hlim Hrev.
  assert ((num_wrong s + 1 >=? limit cfg)%Z = true) as Hge.
  { rewrite Z.geb_leb. apply Z.leb_le. lia. }
  destruct v; simpl in *; rewrite ?Hr in Hrev; rewrite_rows Hr Hp;
    rewrite Hna, Hpos, Hle; simpl; rewrite ?Hrev, Hge; simpl;
    rewrite ?orb_true_r; done.
Qed.

Lemma body_short_force_close v (cfg : Config v) (data : list (Row v)) j s r p :
  data !! S j = Some r -> data !! j = Some p ->
  undefined r = false -> position s = (-1)%Z ->
  ge (col_close (bar_of r)) (col_close (bar_of p)) = true ->
  (limit cfg <= num_wrong s + 1)%Z ->
  reversal_short v cfg data (S j) = false ->
  body v cfg data (S j) s
  = Returned (emit (S j) 1 CLOSE 0 (trailing_stop s) 0 s).
Proof.
  intros Hr Hp Hna Hpos Hle Hlim Hrev.
  assert ((num_wrong s + 1 >=? limit cfg)%Z = true) as Hge.
  { rewrite Z.geb_leb. apply Z.leb_le. lia. }
  destruct v; simpl in *; rewrite ?Hr in Hrev; rewrite_rows Hr Hp;
    rewrite Hna, Hpos, Hle; simpl; rewrite ?Hrev, Hge; simpl;
    rewrite ?orb_true_r; done.
Qed.

Lemma body_long_count v (cfg : Config v) (data : list (Row v)) j s s' r p :
  data !! S j = Some r -> data !! j = Some p ->
  undefined r = false -> position s = 1%Z ->
  le (col_close (bar_of r)) (col_close (bar_of p)) = true ->
  body v cfg data (S j) s = Returned s' ->
  position s' = 1%Z ->
  num_wrong s' = (num_wrong s + 1)%Z.
Proof.
  intros Hr Hp Hna Hpos Hle Hb Hpos'.
  destruct v; simpl in *; rewrite_rows_in Hb Hr Hp;
    rewrite Hna, Hpos, Hle in Hb; simpl in Hb;
    repeat outcome_step; simpl in *; done.
Qed.

Lemma body_short_count v (cfg : Config v) (data : list (Row v)) j s s' r p :
  data !! S j = Some r -> data !! j = Some p ->
  undefined r = false -> position s = (-1)%Z ->
  ge (col_close (bar_of r)) (col_close (bar_of p)) = true ->
  body v cfg data (S j) s = Returned s' ->
  position s' = (-1)%Z ->
  num_wrong s' = (num_wrong s + 1)%Z.
Proof.
  intros Hr Hp Hna Hpos Hle Hb Hpos'.
  destruct v; simpl in *; rewrite_rows_in Hb Hr Hp;
    rewrite Hna, Hpos, Hle in Hb; simpl in Hb;
    repeat outcome_step; simpl in *; done.
Qed.

Lemma adverse_long_inv {v} (data : list (Row v)) j :
  adverse_long data j = true ->
  exists j' r p, j = S j' /\ data !! j = Some r /\ data !! j' = Some p
    /\ le (col_close (bar_of r)) (col_close (bar_of p)) = true.
Proof.
  unfold adverse_long. destruct j as [|j']; [done|].
  destruct (data !! S j') as [r|] eqn:Hr, (data !! j') as [p|] eqn:Hp; try done.
  intros H. by exists j', r, p.
Qed.

Lemma adverse_short_inv {v} (data : list (Row v)) j :
  adverse_short data j = true ->
  exists j' r p, j = S j' /\ data !! j = Some r /\ data !! j' = Some p
    /\ ge (col_close (bar_of r)) (col_close (bar_of p)) = true.
Proof.
  unfold adverse_short. destruct j as [|j']; [done|].
  destruct (data !! S j') as [r|] eqn:Hr, (data !! j') as [p|] eqn:Hp; try done.
  intros H. by exists j', r, p.
Qed.

Lemma defined_at_inv {v} (data : list (Row v)) j :
  defined_at data j = true ->
  exists r, data !! j = Some r /\ undefined r = false.
Proof.
  unfold defined_at. destruct (data !! j) as [r|]; [|done].
  intros H. exists r. split; [done|]. by apply negb_true_iff.
Qed.

(** While a long position is held over consecutive defined adverse bars,
    the counter goes up by one per bar. *)
Lemma long_run_count v (cfg : Config v) (data : list (Row v)) k s n :
  state_at v cfg data k = Returned s -> start_idx v cfg <= k ->
  position s = 1%Z ->
  (forall j, k <= j < k + n -> defined_at data j = true) ->
  (forall j, k <= j < k + n -> adverse_long data j = true) ->
  (forall j, k < j <= k + n ->
     exists sj, state_at v cfg data j = Returned sj /\ position sj = 1%Z) ->
  exists t, state_at v cfg data (k + n) = Returned t
            /\ position t = 1%Z
            /\ num_wrong t = (num_wrong s + Z.of_nat n)%Z.
Proof.
  intros Hs Hstart Hpos. induction n as [|n IH]; intros Hdef Hadv Hheld.
  - exists s. rewrite Nat.add_0_r. repeat split; try done. lia.
  - destruct IH as (t & Ht & Hpt & Hnt).
    { intros j ?. apply Hdef. lia. }
    { intros j ?. apply Hadv. lia. }
    { intros j ?. apply Hheld. lia. }
    destruct (Hheld (k + S n)) as (u & Hu & Hpu); [lia|].
    destruct (defined_at_inv data (k + n)) as (r & Hr & Hna); [apply Hdef; lia|].
    destruct (adverse_long_inv data (k + n)) as (j' & r' & p & Hj & Hr' & Hp & Hle);
      [apply Hadv; lia|].
    replace r' with r in * by congruence.
    exists u. split; [done|]. split; [done|].
    replace (k + S n) with (S (k + n)) in Hu by lia.
    rewrite state_at_succ, Ht in Hu by lia. simpl in Hu.
    rewrite Hj in Hu, Hr.
    rewrite (body_long_count v cfg data j' t u r p) by done. lia.
Qed.

Lemma short_run_count v (cfg : Config v) (data : list (Row v)) k s n :
  state_at v cfg data k = Returned s -> start_idx v cfg <= k ->
  position s = (-1)%Z ->
  (forall j, k <= j < k + n -> defined_at data j = true) ->
  (forall j, k <= j < k + n -> adverse_short data j = true) ->
  (forall j, k < j <= k + n ->
     exists sj, state_at v cfg data j = Returned sj /\ position sj = (-1)%Z) ->
  exists t, state_at v cfg data (k + n) = Returned t
            /\ position t = (-1)%Z
            /\ num_wrong t = (num_wrong s + Z.of_nat n)%Z.
Proof.
  intros Hs Hstart Hpos. induction n as [|n IH]; intros Hdef Hadv Hheld.
  - exists s. rewrite Nat.add_0_r. repeat split; try done. lia.
  - destruct IH as (t & Ht & Hpt & Hnt).
    { intros j ?. apply Hdef. lia. }
    { intros j ?. apply Hadv. lia. }
    { intros j ?. apply Hheld. lia. }
    destruct (Hheld (k + S n)) as (u & Hu & Hpu); [lia|].
    destruct (defined_at_inv data (k + n)) as (r & Hr & Hna); [apply Hdef; lia|].
    destruct (adverse_short_inv data (k + n)) as (j' & r' & p & Hj & Hr' & Hp & Hle);
      [apply Hadv; lia|].
    replace r' with r in * by congruence.
    exists u. split; [done|]. split; [done|].
    replace (k + S n) with (S (k + n)) in Hu by lia.
    rewrite state_at_succ, Ht in Hu by lia. simpl in Hu.
    rewrite Hj in Hu, Hr.
    rewrite (body_short_count v cfg data j' t u r p) by done. lia.
Qed.

(** The row that a known iteration leaves in the result. *)
Lemma strat_row_of_body v (cfg : Config v) (data : list (Row v)) i s sg ty pos ts nw :
  i < length data -> start_idx v cfg <= i ->
  state_at v cfg data i = Returned s ->
  body v cfg data i s = Returned (emit i sg ty pos ts nw s) ->
  exists out, strat v cfg data = Returned out
              /\ row_at out i = Some (sg, ty)
              /\ state_at v cfg data (S i) = Returned (emit i sg ty pos ts nw s).
Proof.
  intros Hi Hstart Hs Hb.
  destruct (strat_row v cfg data i Hi)
    as (out & t & t' & sg' & ty' & Ho & Ht & Ht' & Hsg & Hty & Hsg' & Hty' & _).
  destruct (state_at_inv v cfg data i) as (u & Hu & Hinv); [lia|].
  replace u with s in * by congruence.
  replace t with s in * by congruence.
  rewrite state_at_succ, Hs in Ht' by lia. simpl in Ht'.
  rewrite Hb in Ht'. injection Ht' as <-.
  simpl in Hsg', Hty'.
  rewrite list_lookup_insert_eq in Hsg' by (rewrite (inv_signals _ _ _ _ Hinv); lia).
  rewrite list_lookup_insert_eq in Hty' by (rewrite (inv_trade_type _ _ _ _ Hinv); lia).
  exists out. split; [done|]. split.
  - apply row_at_Some. split; congruence.
  - rewrite state_at_succ, Hs by lia. done.
Qed.

(** C4. In every variant: (1) on entering any bar the adverse counter is
    non-negative and is 0 or below [num_wrong_limit], so with a
    non-negative limit it never exceeds the limit; (2) if a long position is
    held on entering bar [k] with counter [c], the [n >= 1] bars
    [k .. k+n-1] are all defined and each closes at or below the previous
    close, the position is still long on entering each of the later bars of
    the run (no exit or reversal fired earlier), [c + n] reaches
    [num_wrong_limit], and the reversal rule does not trigger on the last
    bar, then the last bar writes (-1, CLOSE) and leaves the position flat;
    (3) the mirror statement for a short position, closes at or above the
    previous close, and (1, CLOSE). *)
Theorem adverse_counter_bound :
  forall v (cfg : Config v) (data : list (Row v)),
    (forall k, k <= length data ->
       exists s, state_at v cfg data k = Returned s
         /\ (0 <= num_wrong s)%Z
         /\ (num_wrong s = 0 \/ num_wrong s < limit cfg)%Z
         /\ ((0 <= limit cfg)%Z -> (num_wrong s <= limit cfg)%Z))
    /\ (forall k n s,
          1 <= n -> start_idx v cfg <= k ->
          state_at v cfg data k = Returned s ->
          (limit cfg <= num_wrong s + Z.of_nat n)%Z ->
          (forall j, k <= j < k + n -> defined_at data j = true) ->
          (position s = 1%Z ->
           (forall j, k <= j < k + n -> adverse_long data j = true) ->
           (forall j, k < j < k + n ->
              exists sj, state_at v cfg data j = Returned sj /\ position sj = 1%Z) ->
           reversal_long v cfg data (k + n - 1) = false ->
           exists out s',
             strat v cfg data = Returned out
             /\ row_at out (k + n - 1) = Some ((-1)%Z, CLOSE)
             /\ state_at v cfg data (k + n) = Returned s'
             /\ position s' = 0%Z)
          /\ (position s = (-1)%Z ->
           (forall j, k <= j < k + n -> adverse_short data j = true) ->
           (forall j, k < j < k + n ->
              exists sj, state_at v cfg data j = Returned sj /\ position sj = (-1)%Z) ->
           reversal_short v cfg data (k + n - 1) = false ->
           exists out s',
             strat v cfg data = Returned out
             /\ row_at out (k + n - 1) = Some (1%Z, CLOSE)
             /\ state_at v cfg data (k + n) = Returned s'
             /\ position s' = 0%Z)).
Proof.
  intros v cfg data. split.
  - intros k Hk. destruct (state_at_inv v cfg data k Hk) as (s & Hs & Hinv).
    exists s. split; [done|].
    destruct (inv_count _ _ _ _ Hinv) as [H0 Hlt].
    split; [done|]. split; [done|]. lia.
  - intros k n s Hn Hstart Hs Hlim Hdef.
    destruct n as [|n]; [lia|].
    replace (k + S n - 1) with (k + n) by lia.
    replace (k + S n) with (S (k + n)) by lia.
    destruct (defined_at_inv data (k + n)) as (r & Hr & Hna); [apply Hdef; lia|].
    assert (k + n < length data) as Hlen by by eapply lookup_lt_Some.
    split; intros Hpos Hadv Hheld Hrev.
    + destruct (long_run_count v cfg data k s n) as (t & Ht & Hpt & Hnt);
        try done.
      { intros j ?. apply Hdef. lia. }
      { intros j ?. apply Hadv. lia. }
      { intros j ?. apply Hheld. lia. }
      destruct (adverse_long_inv data (k + n)) as (j' & r' & p & Hj & Hr' & Hp & Hle);
        [apply Hadv; lia|].
      replace r' with r in * by congruence.
      destruct (strat_row_of_body v cfg data (k + n) t (-1) CLOSE 0
                  (trailing_stop t) 0) as (out & Ho & Hrow & Hnext);
        [done|lia|done| |].
      { rewrite Hj in *.
        apply (body_long_force_close v cfg data j' t r p); try done. lia. }
      exists out, (emit (k + n) (-1) CLOSE 0 (trailing_stop t) 0 t). done.
    + destruct (short_run_count v cfg data k s n) as (t & Ht & Hpt & Hnt);
        try done.
      { intros j ?. apply Hdef. lia. }
      { intros j ?. apply Hadv. lia. }
      { intros j ?. apply Hheld. lia. }
      destruct (adverse_short_inv data (k + n)) as (j' & r' & p & Hj & Hr' & Hp & Hle);
        [apply Hadv; lia|].
      replace r' with r in * by congruence.
      destruct (strat_row_of_body v cfg data (k + n) t 1 CLOSE 0
                  (trailing_stop t) 0) as (out & Ho & Hrow & Hnext);
        [done|lia|done| |].
      { rewrite Hj in *.
        apply (body_short_force_close v cfg data j' t r p); try done. lia. }
      exists out, (emit (k + n) 1 CLOSE 0 (trailing_stop t) 0 t). done.
Qed.

Lemma adverse_counter_bound_witness :
  exists out s',
    strat VolumeSpike demo_config demo_frame = Returned out
    /\ row_at out 8 = Some ((-1)%Z, CLOSE)
    /\ state_at VolumeSpike demo_config demo_frame 9 = Returned s'
    /\ position s' = 0%Z.
Proof.
  destruct (adverse_counter_bound VolumeSpike demo_config demo_frame) as [_ H].
  refine (proj1 (H 7 2
            {| position := 1; trailing_stop := 3%float; num_wrong := 0;
               signals := [0; 0; 0; 0; 1; 0; 0; 0; 0; 0; 0]%Z;
               trade_type := replicate 4 HOLD ++ [LONG] ++ replicate 6 HOLD |}
            _ _ _ _ _) _ _ _ _).
  - lia.
  - simpl. unfold main3.start_idx. simpl. lia.
  - reflexivity.
  - simpl. lia.
  - intros j Hj. assert (j = 7 \/ j = 8) as [-> | ->] by lia; reflexivity.
  - reflexivity.
  - intros j Hj. assert (j = 7 \/ j = 8) as [-> | ->] by lia; reflexivity.
  - intros j Hj. assert (j = 8) as -> by lia.
    eexists. split; reflexivity.
  - reflexivity.
Defined.

(** ** Reversal *)

Lemma body_reversal_long v (cfg : Config v) (data : list (Row v)) j s r p :
  data !! S j = Some r -> data !! j = Some p ->
  undefined r = false -> position s = 1%Z ->
  reversal_long v cfg data (S j) = true ->
  body v cfg data (S j) s
  = Returned (emit (S j) (-2) REVERSE_LONG_TO_SHORT (-1)
                (col_close (bar_of r) + atr_of r * multiplier cfg)%float 0 s).
Proof.
  intros Hr Hp Hna Hpos Hrev.
  destruct v; simpl in *; try done; rewrite Hr in Hrev; rewrite_rows Hr Hp;
    rewrite Hna, Hpos; simpl; by rewrite Hrev.
Qed.

Lemma body_reversal_short v (cfg : Config v) (data : list (Row v)) j s r p :
  data !! S j = Some r -> data !! j = Some p ->
  undefined r = false -> position s = (-1)%Z ->
  reversal_short v cfg data (S j) = true ->
  body v cfg data (S j) s
  = Returned (emit (S j) 2 REVERSE_SHORT_TO_LONG 1
                (col_close (bar_of r) - atr_of r * multiplier cfg)%float 0 s).
Proof.
  intros Hr Hp Hna Hpos Hrev.
  destruct v; simpl in *; try done; rewrite Hr in Hrev; rewrite_rows Hr Hp;
    rewrite Hna, Hpos; simpl; by rewrite Hrev.
Qed.

(** A held position implies a previous row. *)
Lemma held_has_previous v (cfg : Config v) (data : list (Row v)) i s :
  i < length data ->
  state_at v cfg data i = Returned s -> position s <> 0%Z ->
  exists j p, i = S j /\ data !! j = Some p.
Proof.
  intros Hi Hs Hpos.
  destruct (state_at_inv v cfg data i) as (t & Ht & Hinv); [lia|].
  replace t with s in * by congruence.
  destruct (inv_first _ _ _ _ Hinv) as [?|Hk]; [done|].
  destruct i as [|j]; [lia|].
  destruct (lookup_lt_is_Some_2 data j) as [p Hp]; [lia|].
  by exists j, p.
Qed.

Lemma reversal_long_row v (cfg : Config v) (data : list (Row v)) i s r :
  start_idx v cfg <= i -> data !! i = Some r -> undefined r = false ->
  state_at v cfg data i = Returned s -> position s = 1%Z ->
  reversal_long v cfg data i = true ->
  exists out,
    strat v cfg data = Returned out
    /\ row_at out i = Some ((-2)%Z, REVERSE_LONG_TO_SHORT)
    /\ state_at v cfg data (S i)
       = Returned (emit i (-2) REVERSE_LONG_TO_SHORT (-1)
                     (col_close (bar_of r) + atr_of r * multiplier cfg)%float 0 s).
Proof.
  intros Hstart Hr Hna Hs Hpos Hrev.
  assert (i < length data) as Hi by by eapply lookup_lt_Some.
  destruct (held_has_previous v cfg data i s) as (j & p & -> & Hp); [done..|lia|].
  apply strat_row_of_body; try done.
  by apply (body_reversal_long v cfg data j s r p).
Qed.

Lemma reversal_short_row v (cfg : Config v) (data : list (Row v)) i s r :
  start_idx v cfg <= i -> data !! i = Some r -> undefined r = false ->
  state_at v cfg data i = Returned s -> position s = (-1)%Z ->
  reversal_short v cfg data i = true ->
  exists out,
    strat v cfg data = Returned out
    /\ row_at out i = Some (2%Z, REVERSE_SHORT_TO_LONG)
    /\ state_at v cfg data (S i)
       = Returned (emit i 2 REVERSE_SHORT_TO_LONG 1
                     (col_close (bar_of r) - atr_of r * multiplier cfg)%float 0 s).
Proof.
  intros Hstart Hr Hna Hs Hpos Hrev.
  assert (i < length data) as Hi by by eapply lookup_lt_Some.
  destruct (held_has_previous v cfg data i s) as (j & p & -> & Hp); [done..|lia|].
  apply strat_row_of_body; try done.
  by apply (body_reversal_short v cfg data j s r p).
Qed.

(** ** Causality *)

Lemma loc_take {R A} (data : list R) (k : nat) (z : Z) (col : R -> A) :
  (z < Z.of_nat k)%Z -> loc (take k data) z col = loc data z col.
Proof.
  intros Hz. unfold loc. destruct (Z.ltb_spec z 0); [done|].
  by rewrite lookup_take_lt by lia.
Qed.

Lemma loc_slice_take {R A} (data : list R) (k : nat) (a b : Z) (col : R -> A) :
  (b < Z.of_nat k)%Z -> loc_slice (take k data) a b col = loc_slice data a b col.
Proof.
  intros Hb. unfold loc_slice. rewrite take_take.
  by replace (Z.to_nat (b + 1) `min` k) with (Z.to_nat (b + 1)) by lia.
Qed.

Lemma restrict_emit k i sg ty pos ts nw s :
  i < k ->
  emit i sg ty pos ts nw (restrict k s) = restrict k (emit i sg ty pos ts nw s).
Proof.
  intros Hi. unfold emit, restrict. simpl.
  by rewrite !take_insert_lt by done.
Qed.

(** An iteration reads no row above its own label: on the first [k] rows of
    the frame it does what it does on the whole frame. *)
Lemma body_take v (cfg : Config v) (data : list (Row v)) k i s :
  i < k ->
  body v cfg (take k data) i (restrict k s) = restrict k <$> body v cfg data i s.
Proof.
  intros Hi.
  destruct v; simpl in *;
    unfold Strategy_2.body, main3.body, main4.body, main5.body,
           main3.vol_spike_threshold, main4.vol_spike_threshold,
           main3.vol_window, main4.vol_window;
    rewrite ?loc_take, ?loc_slice_take by lia;
    repeat (first
      [ match goal with
        | |- context [mbind _ (loc ?d ?z ?c)] => destruct (loc d z c); simpl; [|done]
        end
      | case_match ]; simpl);
    try done; rewrite ?restrict_emit by done; done.
Qed.

Lemma for_range_take v (cfg : Config v) (data : list (Row v)) k n start s :
  start + n <= k ->
  for_range (body v cfg (take k data)) start n (restrict k s)
  = restrict k <$> for_range (body v cfg data) start n s.
Proof.
  revert start s. induction n as [|n IH]; intros start s Hk; [done|].
  simpl. rewrite body_take by lia.
  destruct (body v cfg data start s) as [s'|e]; simpl; [|done].
  apply IH. lia.
Qed.

Lemma init_state_take k len :
  k <= len -> init_state k = restrict k (init_state len).
Proof.
  intros Hk. unfold init_state, restrict. simpl.
  rewrite !take_replicate. by replace (k `min` len) with k by lia.
Qed.

Lemma state_at_take v (cfg : Config v) (data : list (Row v)) k j :
  j <= k -> k <= length data ->
  state_at v cfg (take k data) j = restrict k <$> state_at v cfg data j.
Proof.
  intros Hj Hk. rewrite !state_at_unfold.
  rewrite length_take_le by done.
  rewrite (init_state_take k (length data)) by done.
  destruct (decide (j <= start_idx v cfg)) as [Hwarm|Hrun].
  - by replace (j - start_idx v cfg) with 0 by lia.
  - apply for_range_take. lia.
Qed.

(** The signal at row [i] computed from the first [k > i] rows is the
    signal at row [i] computed from the whole frame. *)
Lemma strat_take v (cfg : Config v) (data : list (Row v)) k i :
  i < k -> k <= length data ->
  exists full part sg ty,
    strat v cfg data = Returned full
    /\ strat v cfg (take k data) = Returned part
    /\ row_at full i = Some (sg, ty) /\ row_at part i = Some (sg, ty).
Proof.
  intros Hi Hk.
  destruct (strat_row v cfg data i) as
    (full & s & s' & sg & ty & Hfull & Hs & Hs' & Hsg & Hty & Hsg' & Hty' & _); [lia|].
  destruct (state_at_inv v cfg data k Hk) as (t & Ht & Hinv).
  destruct (state_at_frame v cfg data (S i) k s' t i) as [F1 F2]; [lia|done..|lia|].
  exists full, (columns (restrict k t)), sg, ty.
  split; [done|]. split.
  - rewrite strat_unfold, length_take_le, state_at_take, Ht by done. done.
  - split; apply row_at_Some; simpl; [done|].
    rewrite !lookup_take_lt by done. split; congruence.
Qed.

(** *** What [process_data] returns and when it raises *)

Lemma getitem_Raised df name e :
  getitem df name = Raised e -> e = ColumnKeyError name.
Proof.
  induction df as [|[n xs] df IH]; simpl; [by intros [= <-]|].
  by destruct (String.eqb n name).
Qed.

Lemma process_data_lookup v lib (p : Params v) (bars : list Bar) data :
  process_data v lib p bars = Returned data ->
  forall i, data !! i = processed_row v lib p bars i <$> bars !! i.
Proof.
  destruct v; simpl;
    unfold Strategy_2.process_data, main3.process_data,
           main4.process_data, main5.process_data, frame_cell.
  - destruct (ta_macd lib _ _ _ _) as [df|]; [|done]. simpl.
    destruct (getitem df (column_name "MACD" _ _ _)) as [m|]; [|done]. simpl.
    destruct (getitem df (column_name "MACDs" _ _ _)) as [g|]; [|done]. simpl.
    intros [= <-] i. by rewrite list_lookup_imap.
  - intros [= <-] i. by rewrite list_lookup_imap.
  - intros [= <-] i. by rewrite list_lookup_imap.
  - intros [= <-] i. by rewrite list_lookup_imap.
Qed.

Lemma process_data_length v lib (p : Params v) (bars : list Bar) data :
  process_data v lib p bars = Returned data -> length data = length bars.
Proof.
  intros H. pose proof (process_data_lookup v lib p bars data H) as Hl.
  destruct (Nat.lt_trichotomy (length data) (length bars)) as [Hlt|[?|Hlt]];
    [|done|].
  - specialize (Hl (length data)).
    rewrite (lookup_ge_None_2 data) in Hl by lia.
    destruct (lookup_lt_is_Some_2 bars (length data) Hlt) as [b Hb].
    by rewrite Hb in Hl.
  - specialize (Hl (length bars)).
    rewrite (lookup_ge_None_2 bars) in Hl by lia.
    destruct (lookup_lt_is_Some_2 data (length bars) Hlt) as [r Hr].
    by rewrite Hr in Hl.
Qed.

(** Only Strategy_2.py's [process_data] can raise: TypeError when [ta.macd]
    returned [None], KeyError when its frame lacks a column; the MACD or
    MACD_signal cell is then undefined at every label. *)
Lemma process_data_Raised v lib (p : Params v) (bars : list Bar) e :
  process_data v lib p bars = Raised e ->
  v = EMA_MACD
  /\ (e = TypeError \/ exists name, e = ColumnKeyError name)
  /\ forall i b, undefined (processed_row v lib p bars i b) = true.
Proof.
  destruct v; simpl; try done.
  unfold Strategy_2.process_data, frame_cell.
  destruct (ta_macd lib _ _ _ _) as [df|]; simpl.
  - destruct (getitem df (column_name "MACD" _ _ _)) as [m|e1] eqn:E1; simpl.
    + destruct (getitem df (column_name "MACDs" _ _ _)) as [g|e2] eqn:E2;
        simpl; [done|].
      intros [= <-]. split; [done|]. split.
      * right. eexists. by eapply getitem_Raised.
      * intros i b. by rewrite !orb_true_r.
    + intros [= <-]. split; [done|]. split.
      * right. eexists. by eapply getitem_Raised.
      * intros i b. by rewrite !orb_true_r.
  - intros [= <-]. split; [done|]. split; [by left|].
    intros i b. by rewrite !orb_true_r.
Qed.

Lemma process_data_returns v lib (p : Params v) (bars : list Bar) :
  v <> EMA_MACD -> exists data, process_data v lib p bars = Returned data.
Proof.
  intros Hv. destruct (process_data v lib p bars) as [data|e] eqn:E; [by eexists|].
  by destruct (process_data_Raised v lib p bars e E) as [? _].
Qed.

Lemma pipeline_Returned v lib (p : Params v) cfg bars out :
  pipeline v lib p cfg bars = Returned out ->
  exists data, process_data v lib p bars = Returned data
               /\ strat v cfg data = Returned out.
Proof.
  unfold pipeline. destruct (process_data v lib p bars) as [data|]; [|done].
  simpl. by exists data.
Qed.

(** A causal library is causal for every variant and all arguments. *)
Lemma causal_causal_at lib v (p : Params v) : causal lib -> causal_at v lib p.
Proof.
  intros [Hewm Hroll Hatr Hrsi Hmacd] bars k i b Hi.
  destruct v; simpl; rewrite !fmap_take.
  - by rewrite Hewm, Hatr, !Hmacd.
  - by rewrite Hatr.
  - by rewrite Hatr, Hrsi.
  - by rewrite Hroll, Hatr, Hrsi.
Qed.

(** [process_data] of a prefix, where it returns, is the prefix of
    [process_data]. *)
Lemma process_data_take v lib (p : Params v) (bars : list Bar) k data part :
  causal_at v lib p ->
  process_data v lib p bars = Returned data ->
  process_data v lib p (take k bars) = Returned part ->
  part = take k data.
Proof.
  intros Hc Hd Hp. apply list_eq. intros i.
  rewrite (process_data_lookup _ _ _ _ _ Hp).
  destruct (decide (i < k)) as [Hi|Hi].
  - rewrite !lookup_take_lt by done.
    rewrite (process_data_lookup _ _ _ _ _ Hd).
    destruct (bars !! i); simpl; [|done].
    by rewrite Hc.
  - by rewrite !lookup_take_ge by lia.
Qed.

(** Where [process_data] raises on a prefix but returns on the whole
    input, the rows of the whole frame below the prefix's length are
    undefined. *)
Lemma process_data_prefix_Raised v lib (p : Params v) (bars : list Bar) k data e :
  causal_at v lib p ->
  process_data v lib p bars = Returned data ->
  process_data v lib p (take k bars) = Raised e ->
  v = EMA_MACD
  /\ (e = TypeError \/ exists name, e = ColumnKeyError name)
  /\ forall i r, i < k -> data !! i = Some r -> undefined r = true.
Proof.
  intros Hc Hd He.
  destruct (process_data_Raised _ _ _ _ _ He) as (Hv & Hexn & Hu).
  do 2 (split; [done|]). intros i r Hi Hr.
  rewrite (process_data_lookup _ _ _ _ _ Hd) in Hr.
  destruct (bars !! i) as [b|]; simpl in Hr; [|done].
  injection Hr as <-. rewrite <- (Hc bars k i b Hi).
  apply Hu.
Qed.

(** The run on the bars [0..i] against the run on the whole input. *)
Lemma prefix_run v lib (p : Params v) (cfg : Config v) (bars : list Bar) full i :
  causal_at v lib p ->
  i < length bars ->
  pipeline v lib p cfg bars = Returned full ->
  exists sg ty,
    row_at full i = Some (sg, ty)
    /\ ((exists part,
           pipeline v lib p cfg (take (S i) bars) = Returned part
           /\ row_at part i = Some (sg, ty))
        \/ (v = EMA_MACD /\ sg = 0%Z /\ ty = HOLD
            /\ exists e,
                 pipeline v lib p cfg (take (S i) bars) = Raised e
                 /\ (e = TypeError \/ exists name, e = ColumnKeyError name))).
Proof.
  intros Hc Hi Hfull.
  destruct (pipeline_Returned _ _ _ _ _ _ Hfull) as (data & Hd & Hs).
  pose proof (process_data_length _ _ _ _ _ Hd) as Hlen.
  unfold pipeline.
  destruct (process_data v lib p (take (S i) bars)) as [prefix|e] eqn:Hp; simpl.
  - rewrite (process_data_take v lib p bars (S i) data prefix Hc Hd Hp).
    destruct (strat_take v cfg data (S i) i)
      as (out & part & sg & ty & Ho & Hpart & R1 & R2); [lia..|].
    replace out with full in * by congruence.
    exists sg, ty. split; [done|]. left. by exists part.
  - destruct (process_data_prefix_Raised v lib p bars (S i) data e Hc Hd Hp)
      as (Hv & Hexn & Hu).
    destruct (lookup_lt_is_Some_2 data i) as [r Hr]; [lia|].
    destruct (strat_row v cfg data i)
      as (out & s & s' & sg & ty & Ho & Hst & Hst' & Hsg & Hty & Hsg' & Hty' & _);
      [lia|].
    replace out with full in * by congruence.
    exists sg, ty. split; [by apply row_at_Some|]. right.
    assert (s' = s) as ->.
    { destruct (decide (i < start_idx v cfg)) as [Hw|Hw].
      - rewrite state_at_warm_up in Hst, Hst' by lia. congruence.
      - rewrite state_at_succ, Hst in Hst' by lia. simpl in Hst'.
        rewrite (body_skip v cfg data i s r) in Hst'; [congruence|done|lia|].
        apply (Hu i r); [lia|done]. }
    destruct (state_at_inv v cfg data i) as (s0 & Hs0 & Hinv0); [lia|].
    replace s0 with s in * by congruence.
    destruct (inv_fresh _ _ _ _ Hinv0 i) as [G1 G2]; [lia..|].
    assert (sg = 0%Z /\ ty = HOLD) as [-> ->] by (split; congruence).
    do 3 (split; [done|]). by exists e.
Qed.

(** C1, amended. With an indicator library whose series, for the
    arguments given to [process_data], are causal: in every variant and
    for every configuration, (1) whenever [strat(process_data(bars))]
    returns, at every index [i] the run on the bars [0..i] alone returns
    as well and row [i] holds the same signal (and trade type) in both
    results; the one exception is Strategy_2.py, whose [process_data]
    raises TypeError (or KeyError) on a prefix for which [ta.macd] gives
    no frame (or no such column), and then row [i] of the whole run is
    (0, HOLD); (2) in main3.py, main4.py and main5.py the run returns on
    every input; (3) two processed frames that agree on the rows [0..i]
    give the same row [i], so the signal at [i] depends on no bar or
    indicator value above [i]. *)
Theorem causality :
  forall v lib (p : Params v),
    causal_at v lib p ->
    forall cfg : Config v,
      (forall (bars : list Bar) full i,
         i < length bars ->
         pipeline v lib p cfg bars = Returned full ->
         exists sg ty,
           row_at full i = Some (sg, ty)
           /\ ((exists part,
                  pipeline v lib p cfg (take (S i) bars) = Returned part
                  /\ row_at part i = Some (sg, ty))
               \/ (v = EMA_MACD /\ sg = 0%Z /\ ty = HOLD
                   /\ exists e,
                        pipeline v lib p cfg (take (S i) bars) = Raised e
                        /\ (e = TypeError \/ exists name, e = ColumnKeyError name))))
      /\ (v <> EMA_MACD ->
          forall bars : list Bar,
            exists full, pipeline v lib p cfg bars = Returned full)
      /\ (forall (data data' : list (Row v)) i,
            i < length data -> i < length data' ->
            take (S i) data = take (S i) data' ->
            exists out out' sg ty,
              strat v cfg data = Returned out
              /\ strat v cfg data' = Returned out'
              /\ row_at out i = Some (sg, ty) /\ row_at out' i = Some (sg, ty)).
Proof.
  intros v lib p Hc cfg. split_and!.
  - intros bars full i Hi Hfull. by apply prefix_run.
  - intros Hv bars. unfold pipeline.
    destruct (process_data_returns v lib p bars Hv) as [data ->]. simpl.
    destruct (strat_returns v cfg data) as (s & _ & Hs & _). by eexists.
  - intros data data' i Hi Hi' Heq.
    destruct (strat_take v cfg data (S i) i) as (out & part & sg & ty & Ho & Hp & R1 & R2);
      [lia..|].
    destruct (strat_take v cfg data' (S i) i)
      as (out' & part' & sg' & ty' & Ho' & Hp' & R1' & R2'); [lia..|].
    rewrite <- Heq in Hp'.
    replace part' with part in * by congruence.
    exists out, out', sg, ty. do 3 (split; [done|]). congruence.
Qed.

Lemma cell_take (xs : list float) k i : i < k -> cell (take k xs) i = cell xs i.
Proof. intros Hi. unfold cell. by rewrite lookup_take_lt. Qed.

Lemma cell_warm n xs i :
  cell (warm n xs) i = if (i <? n)%nat then nan else cell xs i.
Proof.
  unfold cell, warm. rewrite list_lookup_imap.
  destruct (xs !! i); simpl; by destruct (i <? n)%nat.
Qed.

Lemma cell_zip_with_take (f : float -> float -> float) h l k i :
  i < k -> cell (zip_with f (take k h) (take k l)) i = cell (zip_with f h l) i.
Proof.
  intros Hi. unfold cell. by rewrite !lookup_zip_with, !lookup_take_lt.
Qed.

Lemma cell_fmap_take (f : float -> float) c k i :
  i < k -> cell (f <$> take k c) i = cell (f <$> c) i.
Proof.
  intros Hi. unfold cell. by rewrite !list_lookup_fmap, lookup_take_lt.
Qed.

Lemma sample_library_causal : causal sample_library.
Proof.
  split.
  - intros n xs k i Hi. simpl. by apply cell_take.
  - intros n xs k i Hi. simpl. by apply cell_take.
  - intros h l c n k i Hi. simpl. by apply cell_zip_with_take.
  - intros c n k i Hi. simpl. by apply cell_fmap_take.
  - intros c f s g name k i Hi.
    unfold frame_cell. cbn [sample_library ta_macd getitem].
    repeat (destruct (String.eqb _ name);
            [by (apply cell_take || apply cell_fmap_take)|]).
    done.
Qed.

Lemma warming_library_causal : causal warming_library.
Proof.
  split.
  - intros n xs k i Hi. simpl. by apply cell_take.
  - intros n xs k i Hi. simpl. by apply cell_take.
  - intros h l c n k i Hi. cbn [warming_library ta_atr]. rewrite length_take.
    destruct (Nat.ltb_spec (k `min` length c) n),
             (Nat.ltb_spec (length c) n); cbn [column]; rewrite ?cell_warm;
      try done; try lia.
    + by destruct (Nat.ltb_spec i n); [|lia].
    + destruct (i <? n)%nat; [done|]. by apply cell_zip_with_take.
  - intros c n k i Hi. cbn [warming_library ta_rsi]. rewrite length_take.
    destruct (Nat.ltb_spec (k `min` length c) n),
             (Nat.ltb_spec (length c) n); cbn [column]; rewrite ?cell_warm;
      try done; try lia.
    + by destruct (Nat.ltb_spec i n); [|lia].
    + destruct (i <? n)%nat; [done|]. by apply cell_fmap_take.
  - intros c f s g name k i Hi. cbn [warming_library ta_macd].
    cbv zeta. rewrite length_take. unfold frame_cell.
    destruct (Nat.ltb_spec (k `min` length c) (f `max` (s `max` g))),
             (Nat.ltb_spec (length c) (f `max` (s `max` g)));
      cbn [getitem]; try done; try lia.
    + repeat (destruct (String.eqb _ name);
              [rewrite cell_warm;
               by destruct (Nat.ltb_spec i (f `max` (s `max` g))); [|lia]|]).
      done.
    + repeat (destruct (String.eqb _ name);
              [rewrite !cell_warm; destruct (i <? _)%nat; [done|];
               by (apply cell_take || apply cell_fmap_take)|]).
      done.
Qed.

Lemma causality_witness :
  exists sg ty,
    row_at ([0; 0; 0; 0; 1; 0; 0; -1; 0; 1; -2]%Z,
            [HOLD; HOLD; HOLD; HOLD; LONG; HOLD; HOLD; CLOSE; HOLD; LONG;
             REVERSE_LONG_TO_SHORT]) 4 = Some (sg, ty)
    /\ ((exists part,
           pipeline VolumeSpike warming_library 1 demo_config
                    (take 5 (main3.bar <$> demo_frame)) = Returned part
           /\ row_at part 4 = Some (sg, ty))
        \/ (VolumeSpike = EMA_MACD /\ sg = 0%Z /\ ty = HOLD
            /\ exists e,
                 pipeline VolumeSpike warming_library 1 demo_config
                          (take 5 (main3.bar <$> demo_frame)) = Raised e
                 /\ (e = TypeError \/ exists name, e = ColumnKeyError name))).
Proof.
  apply (proj1 (causality VolumeSpike warming_library 1
                  (causal_causal_at _ _ _ warming_library_causal) demo_config)
               (main3.bar <$> demo_frame) _ 4).
  - simpl. lia.
  - vm_compute. reflexivity.
Defined.

(** C1 as stated fails. Strategy_2.py under its defaults (MACD lengths 6,
    19, 4) on thirty bars, with a causal library that, like pandas_ta,
    returns [None] for an input shorter than the indicator: the whole run
    returns, the run on the first bar alone raises TypeError when
    [process_data] subscripts the [None] that [ta.macd] returned. *)
Lemma causality_counterexample : ~ causality_as_stated.
Proof.
  intros H.
  destruct (H warming_library warming_library_causal EMA_MACD
              Strategy_2.default_params Strategy_2.default_config
              (replicate 30 (mkBar 1 1 1 1 1)) 0)
    as (full & part & sg & ty & _ & Hp & _); [simpl; lia|].
  vm_compute in Hp. discriminate Hp.
Qed.

(** ** The volume window *)

Lemma loc_slice_window {R} (col : R -> float) (data : list R) i n r :
  n <= i -> data !! i = Some r ->
  let w := loc_slice data (Z.of_nat i - Z.of_nat n) (Z.of_nat i) col in
  length w = S n /\ last w = Some (col r).
Proof.
  intros Hn Hr. simpl. unfold loc_slice.
  apply lookup_lt_Some in Hr as Hi.
  replace (Z.to_nat (Z.of_nat i - Z.of_nat n)) with (i - n) by lia.
  replace (Z.to_nat (Z.of_nat i + 1)) with (S i) by lia.
  assert (length (col <$> drop (i - n) (take (S i) data)) = S n) as Hlen.
  { rewrite length_fmap, length_drop, length_take. lia. }
  split; [done|].
  rewrite last_lookup, Hlen. simpl.
  rewrite list_lookup_fmap, lookup_drop, lookup_take_lt by lia.
  replace (i - n + n) with i by lia. by rewrite Hr.
Qed.

(** In both volume-spike variants, on a bar [i] of the loop
    ([volume_lookback <= i]) the window under the threshold has
    [volume_lookback + 1] cells and ends with bar [i]'s own volume: the
    inclusive label slice [i - volume_lookback : i] takes in the current
    bar. *)
Lemma vol_window_shape :
  (forall (cfg : main3.Config) (data : list main3.Row) i r,
     main3.volume_lookback cfg <= i -> data !! i = Some r ->
     length (main3.vol_window cfg data i) = S (main3.volume_lookback cfg)
     /\ last (main3.vol_window cfg data i) = Some (col_volume (main3.bar r)))
  /\ (forall (cfg : main4.Config) (data : list main4.Row) i r,
     main4.volume_lookback cfg <= i -> data !! i = Some r ->
     length (main4.vol_window cfg data i) = S (main4.volume_lookback cfg)
     /\ last (main4.vol_window cfg data i) = Some (col_volume (main4.bar r))).
Proof.
  split; intros cfg data i r Hn Hr.
  - apply (loc_slice_window (col_volume ∘ main3.bar) data i _ r Hn Hr).
  - apply (loc_slice_window (col_volume ∘ main4.bar) data i _ r Hn Hr).
Qed.

(** The window of the specification's wording, for comparison: the
    [volume_lookback] cells before bar [i], without bar [i]. *)
Lemma spec_vol_window_shape {R} (col : R -> float) (data : list R) i n :
  n <= i -> i <= length data ->
  spec_vol_window col n data i = col <$> take n (drop (i - n) data).
Proof.
  intros Hn Hi. unfold spec_vol_window, loc_slice.
  replace (Z.to_nat (Z.of_nat i - Z.of_nat n)) with (i - n) by lia.
  replace (Z.to_nat (Z.of_nat i - 1 + 1)) with i by lia.
  f_equal. rewrite take_drop_commute. by replace (i - n + n) with i by lia.
Qed.

(** C8, the code at the failing input. Under the default configuration of
    main3.py (volume_lookback = 11) on [spike_frame], the window of bar 14
    is the twelve volumes of rows 3..14, bar 14's own volume 117 included,
    where the claim has the eleven volumes of rows 3..13; the code's
    threshold is not exceeded by 117 and the run writes HOLD on every row,
    while the threshold over the eleven preceding rows is exceeded by 117
    (bar 14 would be a volume spike, and its bullish candle a LONG). The
    comparison itself is strict, as the claim says. *)
Theorem volume_window_divergence :
  main3.vol_window main3.default_config spike_frame 14
  = [90; 110; 90; 110; 90; 110; 90; 110; 90; 110; 90; 117]%float
  /\ spec_vol_window (col_volume ∘ main3.bar) 11 spike_frame 14
     = [90; 110; 90; 110; 90; 110; 90; 110; 90; 110; 90]%float
  /\ gt 117 (main3.vol_spike_threshold main3.default_config spike_frame 14) = false
  /\ gt 117 (spec_vol_spike_threshold (col_volume ∘ main3.bar) 11 spike_frame 14) = true
  /\ main3.strat main3.default_config spike_frame
     = Returned (replicate 15 0%Z, replicate 15 HOLD).
Proof. repeat split; vm_compute; reflexivity. Qed.

(** ** Short inputs *)

(** C9, amended. In every variant a frame shorter than [start_idx] does not
    make [strat] fail: it returns a frame of the same length in which every
    row is (0, HOLD). *)
Theorem short_input_all_hold :
  forall v (cfg : Config v) (data : list (Row v)),
    length data < start_idx v cfg ->
    strat v cfg data
    = Returned (replicate (length data) 0%Z, replicate (length data) HOLD).
Proof.
  intros v cfg data Hlen.
  rewrite strat_unfold, state_at_warm_up by lia. done.
Qed.

Lemma short_input_all_hold_witness :
  strat VolumeSpike main3.default_config (take 3 demo_frame)
  = Returned ([0; 0; 0]%Z, [HOLD; HOLD; HOLD]).
Proof.
  apply (short_input_all_hold VolumeSpike main3.default_config (take 3 demo_frame)).
  simpl. unfold main3.start_idx. simpl. lia.
Defined.

(** C9 as stated fails: three rows under the default configuration of
    main3.py (warm-up 14) return three HOLD rows. *)
Lemma insufficient_data_counterexample : ~ insufficient_data_as_stated.
Proof.
  intros H.
  assert (length (take 3 demo_frame) < start_idx VolumeSpike main3.default_config)
    as Hlen by (simpl; unfold main3.start_idx; simpl; lia).
  specialize (H VolumeSpike main3.default_config (take 3 demo_frame) Hlen).
  vm_compute in H. discriminate H.
Qed.

(** * Further properties of the code *)

(** ** One decision table for the four loops *)

Ltac destruct_atoms :=
  repeat match goal with
    | |- context [gt ?a ?b] => destruct (gt a b)
    | |- context [lt ?a ?b] => destruct (lt a b)
    | |- context [le ?a ?b] => destruct (le a b)
    | |- context [ge ?a ?b] => destruct (ge a b)
    | |- context [(?a >=? ?b)%Z] => destruct (a >=? b)%Z
    end.

(** From [start_idx] on, the body of each variant is [step]. *)
Lemma body_step v (cfg : Config v) (data : list (Row v)) i s :
  start_idx v cfg <= i ->
  body v cfg data i s = step v cfg data i s.
Proof.
  intros Hstart. unfold step.
  destruct (data !! i) as [r|] eqn:Hr.
  2: { destruct v; simpl in *;
         unfold Strategy_2.body, main3.body, main4.body, main5.body;
         repeat rewrite (loc_Raised _ _ _ Hr); done. }
  destruct i as [|j].
  - destruct v; simpl in *;
      [pose proof (start_idx_EMA_MACD cfg) as H26; simpl in H26; lia| | |];
      unfold main3.body, main4.body, main5.body;
      repeat rewrite (loc_Returned _ _ _ _ Hr); simpl; rewrite Hr; simpl;
      unfold count_long, count_short;
      repeat (first
        [ match goal with
          | |- context [mbind _ (loc ?d ?z ?c)] => destruct (loc d z c); simpl
          end
        | match goal with
          | |- context [isna ?a] => destruct (isna a); simpl
          | |- context [(?a =? ?b)%Z] => destruct (a =? b)%Z; simpl
          end ]);
      try done; destruct_atoms; done.
  - assert (is_Some (data !! j)) as [p Hp].
    { apply lookup_lt_is_Some. apply lookup_lt_Some in Hr. lia. }
    destruct v; simpl in *;
      unfold Strategy_2.body, main3.body, main4.body, main5.body;
      repeat rewrite (loc_Returned _ _ _ _ Hr);
      repeat rewrite (loc_prev_Returned _ _ _ _ Hp); simpl;
      rewrite ?Hr, ?Hp; simpl; unfold count_long, count_short;
      repeat match goal with
        | |- context [isna ?a] => destruct (isna a); simpl
        | |- context [(?a =? ?b)%Z] => destruct (a =? b)%Z; simpl
        end;
      try done; destruct_atoms; done.
Qed.

Lemma loc_prev_inv {R A} (data : list R) (i : nat) (col : R -> A) x :
  loc data (Z.of_nat i - 1) col = Returned x ->
  exists p, prev_row data i = Some p /\ x = col p.
Proof.
  unfold loc. destruct (Z.ltb_spec (Z.of_nat i - 1) 0); [done|].
  destruct i as [|j]; [lia|].
  replace (Z.to_nat (Z.of_nat (S j) - 1)) with j by lia. simpl.
  destruct (data !! j) as [p|]; [|done]. intros [= <-]. by exists p.
Qed.

(** A step that returns, from a state with a position of 0, 1 or -1, is one
    of the decisions. *)
Lemma step_decision v (cfg : Config v) (data : list (Row v)) i s s' :
  (position s = 0 \/ position s = 1 \/ position s = -1)%Z ->
  step v cfg data i s = Returned s' ->
  exists r, data !! i = Some r /\
    ((exists sg ty, sg <> 0%Z /\ decision cfg data i r s s' sg ty
                    /\ s' = emit i sg ty (position s') (trailing_stop s')
                                 (num_wrong s') s)
     \/ (decision cfg data i r s s' 0 HOLD
         /\ signals s' = signals s /\ trade_type s' = trade_type s)).
Proof.
  intros Hpos Hstep. unfold step in Hstep.
  destruct (data !! i) as [r|] eqn:Hr; [|done].
  exists r. split; [done|]. simpl in Hstep.
  destruct (undefined r) eqn:Hna.
  { injection Hstep as <-. right. split; [by apply D_skip|done]. }
  destruct Hpos as [Hp|[Hp|Hp]]; rewrite Hp in Hstep; simpl in Hstep.
  - injection Hstep as <-.
    destruct (entry_long v cfg data i) eqn:EL; [|destruct (entry_short v cfg data i) eqn:ES].
    + left. exists 1%Z, LONG. split; [done|]. split; [by apply D_long|done].
    + left. exists (-1)%Z, SHORT. split; [done|]. split; [by apply D_short|done].
    + right. split; [by apply D_flat|done].
  - destruct (loc data (Z.of_nat i - 1) (col_close ∘ bar_of)) as [x|] eqn:Hx;
      simpl in Hstep; [|done].
    apply loc_prev_inv in Hx as (p & Hprev & ->). simpl in Hstep.
    injection Hstep as <-.
    destruct (reversal_long v cfg data i) eqn:ER.
    { left. exists (-2)%Z, REVERSE_LONG_TO_SHORT. split; [done|].
      split; [by eapply D_reverse_long|done]. }
    match goal with |- context [if ?b then _ else _] => destruct b eqn:EX end.
    + left. exists (-1)%Z, CLOSE. split; [done|].
      split; [by eapply D_close_long|done].
    + right. split; [by eapply D_hold_long|done].
  - destruct (loc data (Z.of_nat i - 1) (col_close ∘ bar_of)) as [x|] eqn:Hx;
      simpl in Hstep; [|done].
    apply loc_prev_inv in Hx as (p & Hprev & ->). simpl in Hstep.
    injection Hstep as <-.
    destruct (reversal_short v cfg data i) eqn:ER.
    { left. exists 2%Z, REVERSE_SHORT_TO_LONG. split; [done|].
      split; [by eapply D_reverse_short|done]. }
    match goal with |- context [if ?b then _ else _] => destruct b eqn:EX end.
    + left. exists 1%Z, CLOSE. split; [done|].
      split; [by eapply D_close_short|done].
    + right. split; [by eapply D_hold_short|done].
Qed.

(** Every bar of the loop, in the run: the states around it, its row in the
    result, and the decision that produced them. *)
Lemma run_decision v (cfg : Config v) (data : list (Row v)) i :
  i < length data -> start_idx v cfg <= i ->
  exists out s s' r sg ty,
    strat v cfg data = Returned out
    /\ state_at v cfg data i = Returned s
    /\ state_at v cfg data (S i) = Returned s'
    /\ data !! i = Some r
    /\ row_at out i = Some (sg, ty)
    /\ decision cfg data i r s s' sg ty
    /\ Inv (length data) (limit cfg) i s.
Proof.
  intros Hi Hstart.
  destruct (strat_row v cfg data i Hi)
    as (out & s & s' & sg & ty & Ho & Hs & Hs' & Hsg & Hty & Hsg' & Hty' & _).
  destruct (state_at_step v cfg data i Hi)
    as (t & t' & Ht & Ht' & Hinv & _ & Hcase).
  replace t with s in * by congruence.
  replace t' with s' in * by congruence.
  destruct Hcase as [[? _]|[_ Hb]]; [lia|].
  rewrite body_step in Hb by done.
  destruct (step_decision v cfg data i s s' (inv_position _ _ _ _ Hinv) Hb)
    as (r & Hr & Hdec).
  exists out, s, s', r.
  destruct (inv_fresh _ _ _ _ Hinv i) as [F1 F2]; [lia..|].
  destruct Hdec as [(sg0 & ty0 & _ & Hd & Heq)|(Hd & E1 & E2)].
  - exists sg0, ty0. do 4 (split; [done|]). split; [|done].
    rewrite Heq in Hsg', Hty'. simpl in Hsg', Hty'.
    rewrite list_lookup_insert_eq in Hsg'
      by (rewrite (inv_signals _ _ _ _ Hinv); lia).
    rewrite list_lookup_insert_eq in Hty'
      by (rewrite (inv_trade_type _ _ _ _ Hinv); lia).
    apply row_at_Some. split; congruence.
  - exists 0%Z, HOLD. do 4 (split; [done|]). split; [|done].
    apply row_at_Some. rewrite E1 in Hsg'. rewrite E2 in Hty'.
    split; congruence.
Qed.

(** ** The signals add up to the position *)

Lemma sum_signals_snoc l x : sum_signals (l ++ [x]) = (sum_signals l + x)%Z.
Proof.
  unfold sum_signals. induction l as [|y l IH]; simpl; [lia|].
  rewrite IH. lia.
Qed.

Lemma emitted_sum pos pos' sg ty : emitted pos pos' sg ty -> pos' = (pos + sg)%Z.
Proof. destruct 1; lia. Qed.

(** X1. In every variant, on entering any bar [k] the position equals the
    sum of the signals written on the rows below [k]; at [k = len] the sum
    of the whole signals column is the final position. *)
Theorem position_is_sum_of_signals :
  forall v (cfg : Config v) (data : list (Row v)) k,
    k <= length data ->
    exists out s,
      strat v cfg data = Returned out
      /\ state_at v cfg data k = Returned s
      /\ position s = sum_signals (take k out.1).
Proof.
  intros v cfg data k.
  destruct (strat_returns v cfg data) as (f & Hf & Hout & _).
  induction k as [|k IH]; intros Hk.
  - exists (columns f), (init_state (length data)).
    split; [done|]. split; [|done]. apply state_at_warm_up. lia.
  - destruct IH as (out & s & Ho & Hs & Hsum); [lia|].
    destruct (strat_row v cfg data k)
      as (out' & t & t' & sg & ty & Ho' & Ht & Ht' & Hsg & _ & _ & _ & He); [lia|].
    replace out' with out in * by congruence.
    replace t with s in * by congruence.
    exists out, t'. do 2 (split; [done|]).
    rewrite (take_S_r _ _ _ Hsg), sum_signals_snoc, <- Hsum.
    by apply emitted_sum in He.
Qed.

Lemma position_is_sum_of_signals_witness :
  exists out s,
    strat VolumeSpike demo_config demo_frame = Returned out
    /\ state_at VolumeSpike demo_config demo_frame 11 = Returned s
    /\ position s = sum_signals (take 11 out.1).
Proof.
  apply (position_is_sum_of_signals VolumeSpike demo_config demo_frame 11).
  simpl. lia.
Defined.

(** ** Entries *)

Lemma nan_compare x :
  isna x = true ->
  forall y, PrimFloat.ltb x y = false /\ PrimFloat.ltb y x = false
            /\ PrimFloat.leb x y = false /\ PrimFloat.leb y x = false.
Proof.
  unfold isna, PrimFloat.is_nan. intros Hx y.
  apply negb_true_iff in Hx.
  rewrite FloatAxioms.eqb_spec in Hx. unfold SFeqb in Hx.
  assert (Prim2SF x = S754_nan) as Hnan.
  { destruct (Prim2SF x) as [sx|sx| |sx mx ex]; simpl in Hx; try done.
    - by destruct sx.
    - rewrite Z.compare_refl, Pos.compare_cont_refl in Hx. by destruct sx. }
  rewrite !FloatAxioms.ltb_spec, !FloatAxioms.leb_spec, Hnan.
  unfold SFltb, SFleb. by destruct (Prim2SF y).
Qed.

Lemma gt_lt_exclusive a b : gt a b = true -> lt a b = false.
Proof. unfold gt, lt. apply ltb_asym. Qed.

(** A long entry needs a bullish candle, a short entry a bearish one, and
    in the volume-spike variants both need the spike. *)
Lemma entry_long_candle v (cfg : Config v) (data : list (Row v)) i r :
  data !! i = Some r -> entry_long v cfg data i = true ->
  gt (col_close (bar_of r)) (col_open (bar_of r)) = true
  /\ (v = VolumeSpike \/ v = VolumeSpike_RSI -> volume_spike v cfg data i = true).
Proof.
  intros Hr. destruct v; simpl in *; rewrite Hr.
  - destruct (prev_row data i); [|done]. intros H. bool_facts.
    split; [done|]. by intros [?|?].
  - intros H. bool_facts. done.
  - intros H. bool_facts. done.
  - intros H. bool_facts. split; [done|]. by intros [?|?].
Qed.

Lemma entry_short_candle v (cfg : Config v) (data : list (Row v)) i r :
  data !! i = Some r -> entry_short v cfg data i = true ->
  lt (col_close (bar_of r)) (col_open (bar_of r)) = true
  /\ (v = VolumeSpike \/ v = VolumeSpike_RSI -> volume_spike v cfg data i = true).
Proof.
  intros Hr. destruct v; simpl in *; rewrite Hr.
  - destruct (prev_row data i); [|done]. intros H. bool_facts.
    split; [done|]. by intros [?|?].
  - intros H. bool_facts. done.
  - intros H. bool_facts. done.
  - intros H. bool_facts. split; [done|]. by intros [?|?].
Qed.

Lemma entry_short_not_long v (cfg : Config v) (data : list (Row v)) i r :
  data !! i = Some r ->
  entry_short v cfg data i = true -> entry_long v cfg data i = false.
Proof.
  intros Hr Hs.
  destruct (entry_long v cfg data i) eqn:Hl; [|done].
  destruct (entry_long_candle v cfg data i r Hr Hl) as [Hg _].
  destruct (entry_short_candle v cfg data i r Hr Hs) as [Hlt _].
  apply gt_lt_exclusive in Hg. congruence.
Qed.

(** Every bar of the frame: a warm-up bar, or a decision. *)
Lemma run_bar v (cfg : Config v) (data : list (Row v)) i :
  i < length data ->
  exists out s s' r sg ty,
    strat v cfg data = Returned out
    /\ state_at v cfg data i = Returned s
    /\ state_at v cfg data (S i) = Returned s'
    /\ data !! i = Some r
    /\ row_at out i = Some (sg, ty)
    /\ ((i < start_idx v cfg /\ s' = s /\ sg = 0%Z /\ ty = HOLD)
        \/ (start_idx v cfg <= i /\ decision cfg data i r s s' sg ty))
    /\ Inv (length data) (limit cfg) i s.
Proof.
  intros Hi.
  destruct (decide (i < start_idx v cfg)) as [Hwarm|Hrun].
  - destruct (strat_row v cfg data i Hi)
      as (out & s & s' & sg & ty & Ho & Hs & Hs' & Hsg & Hty & Hsg' & Hty' & _).
    destruct (state_at_inv v cfg data i) as (t & Ht & Hinv); [lia|].
    replace t with s in * by congruence.
    destruct (lookup_lt_is_Some_2 data i Hi) as [r Hr].
    assert (s' = s) as ->.
    { rewrite state_at_warm_up in Hs, Hs' by lia. congruence. }
    destruct (inv_fresh _ _ _ _ Hinv i) as [F1 F2]; [lia..|].
    exists out, s, s, r, 0%Z, HOLD. do 4 (split; [done|]).
    split; [apply row_at_Some; split; congruence|]. split; [|done].
    left. done.
  - destruct (run_decision v cfg data i Hi) as
      (out & s & s' & r & sg & ty & Ho & Hs & Hs' & Hr & Hrow & Hd & Hinv); [lia|].
    exists out, s, s', r, sg, ty. do 5 (split; [done|]). split; [|done].
    right. split; [lia|done].
Qed.

(** ** Reversal and its RSI gate *)

(** C5, amended. On a defined bar of the loop with a volume spike:
    in main3.py a held long position with a bearish candle (close < open)
    writes the single row (-2, REVERSE_LONG_TO_SHORT), becomes short with
    trailing_stop = close + ATR * multiplier and num_wrong = 0, whatever the
    adverse counter and the old trailing stop are; a held short position
    with a bullish candle writes (2, REVERSE_SHORT_TO_LONG) and becomes long
    with trailing_stop = close - ATR * multiplier and num_wrong = 0.
    In main4.py the same holds only when, in addition, RSI <= the
    short-entry threshold (long to short), respectively RSI >= the
    long-entry threshold (short to long); otherwise the bar does not
    reverse and falls through: it writes CLOSE if the adverse counter has
    reached the limit or the close is beyond the trailing stop, and else
    writes HOLD, keeps the position and ratchets the stop. *)
Theorem reversal_atomic_and_first :
  (forall (cfg : main3.Config) (data : list main3.Row) i s r,
     main3.start_idx cfg <= i -> data !! i = Some r ->
     isna (main3.ATR r) = false ->
     main3.state_at cfg data i = Returned s ->
     gt (col_volume (main3.bar r)) (main3.vol_spike_threshold cfg data i) = true ->
     (position s = 1%Z ->
      lt (col_close (main3.bar r)) (col_open (main3.bar r)) = true ->
      exists out,
        main3.strat cfg data = Returned out
        /\ row_at out i = Some ((-2)%Z, REVERSE_LONG_TO_SHORT)
        /\ main3.state_at cfg data (S i)
           = Returned (emit i (-2) REVERSE_LONG_TO_SHORT (-1)
                         (col_close (main3.bar r)
                          + main3.ATR r * main3.trailing_stop_multiplier cfg)%float
                         0 s))
     /\ (position s = (-1)%Z ->
      gt (col_close (main3.bar r)) (col_open (main3.bar r)) = true ->
      exists out,
        main3.strat cfg data = Returned out
        /\ row_at out i = Some (2%Z, REVERSE_SHORT_TO_LONG)
        /\ main3.state_at cfg data (S i)
           = Returned (emit i 2 REVERSE_SHORT_TO_LONG 1
                         (col_close (main3.bar r)
                          - main3.ATR r * main3.trailing_stop_multiplier cfg)%float
                         0 s)))
  /\ (forall (cfg : main4.Config) (data : list main4.Row) i s r,
     main4.start_idx cfg <= i -> data !! i = Some r ->
     isna (main4.ATR r) || isna (main4.RSI r) = false ->
     main4.state_at cfg data i = Returned s ->
     gt (col_volume (main4.bar r)) (main4.vol_spike_threshold cfg data i) = true ->
     (position s = 1%Z ->
      lt (col_close (main4.bar r)) (col_open (main4.bar r)) = true ->
      le (main4.RSI r) (main4.rsi_entry_threshold_short cfg) = true ->
      exists out,
        main4.strat cfg data = Returned out
        /\ row_at out i = Some ((-2)%Z, REVERSE_LONG_TO_SHORT)
        /\ main4.state_at cfg data (S i)
           = Returned (emit i (-2) REVERSE_LONG_TO_SHORT (-1)
                         (col_close (main4.bar r)
                          + main4.ATR r * main4.trailing_stop_multiplier cfg)%float
                         0 s))
     /\ (position s = (-1)%Z ->
      gt (col_close (main4.bar r)) (col_open (main4.bar r)) = true ->
      ge (main4.RSI r) (main4.rsi_entry_threshold_long cfg) = true ->
      exists out,
        main4.strat cfg data = Returned out
        /\ row_at out i = Some (2%Z, REVERSE_SHORT_TO_LONG)
        /\ main4.state_at cfg data (S i)
           = Returned (emit i 2 REVERSE_SHORT_TO_LONG 1
                         (col_close (main4.bar r)
                          - main4.ATR r * main4.trailing_stop_multiplier cfg)%float
                         0 s))
     /\ (position s = 1%Z ->
      le (main4.RSI r) (main4.rsi_entry_threshold_short cfg) = false ->
      exists out p,
        main4.strat cfg data = Returned out
        /\ prev_row data i = Some p
        /\ let nw := count_long (col_close (main4.bar r))
                                (col_close (main4.bar p)) (num_wrong s) in
           if (nw >=? main4.num_wrong_limit cfg)%Z
              || lt (col_close (main4.bar r)) (trailing_stop s)
           then row_at out i = Some ((-1)%Z, CLOSE)
                /\ main4.state_at cfg data (S i)
                   = Returned (emit i (-1) CLOSE 0 (trailing_stop s) 0 s)
           else row_at out i = Some (0%Z, HOLD)
                /\ main4.state_at cfg data (S i)
                   = Returned
                       (keep (Py.max (trailing_stop s)
                                (col_close (main4.bar r)
                                 - main4.ATR r * main4.trailing_stop_multiplier cfg)%float)
                             nw s))
     /\ (position s = (-1)%Z ->
      ge (main4.RSI r) (main4.rsi_entry_threshold_long cfg) = false ->
      exists out p,
        main4.strat cfg data = Returned out
        /\ prev_row data i = Some p
        /\ let nw := count_short (col_close (main4.bar r))
                                 (col_close (main4.bar p)) (num_wrong s) in
           if (nw >=? main4.num_wrong_limit cfg)%Z
              || gt (col_close (main4.bar r)) (trailing_stop s)
           then row_at out i = Some (1%Z, CLOSE)
                /\ main4.state_at cfg data (S i)
                   = Returned (emit i 1 CLOSE 0 (trailing_stop s) 0 s)
           else row_at out i = Some (0%Z, HOLD)
                /\ main4.state_at cfg data (S i)
                   = Returned
                       (keep (Py.min (trailing_stop s)
                                (col_close (main4.bar r)
                                 + main4.ATR r * main4.trailing_stop_multiplier cfg)%float)
                             nw s))).
Proof.
  split.
  - intros cfg data i s r Hstart Hr Hna Hs Hspike. split.
    + intros Hpos Hbear.
      apply (reversal_long_row VolumeSpike cfg data i s r); try done.
      simpl. by rewrite Hr, Hspike, Hbear.
    + intros Hpos Hbull.
      apply (reversal_short_row VolumeSpike cfg data i s r); try done.
      simpl. by rewrite Hr, Hspike, Hbull.
  - intros cfg data i s r Hstart Hr Hna Hs Hspike.
    assert (i < length data) as Hi by by eapply lookup_lt_Some.
    destruct (run_decision VolumeSpike_RSI cfg data i Hi Hstart)
      as (out & s0 & s' & r0 & sg & ty & Ho & Hs0 & Hs' & Hr0 & Hrow & Hd & _).
    simpl in Ho, Hs0, Hs', Hr0.
    replace s0 with s in * by congruence.
    replace r0 with r in * by congruence.
    split_and!.
    + intros Hpos Hbear Hrsi.
      apply (reversal_long_row VolumeSpike_RSI cfg data i s r); try done.
      simpl. by rewrite Hr, Hspike, Hbear, Hrsi.
    + intros Hpos Hbull Hrsi.
      apply (reversal_short_row VolumeSpike_RSI cfg data i s r); try done.
      simpl. by rewrite Hr, Hspike, Hbull, Hrsi.
    + intros Hpos Hrsi.
      destruct Hd; simpl in *; try congruence; try lia.
      * match goal with H : match _ with Some _ => _ | None => _ end = true |- _ =>
          rewrite Hr, Hrsi, andb_false_r in H; done end.
      * exists out, p. do 2 (split; [done|]).
        match goal with H : _ || _ = true |- _ => rewrite H end. done.
      * exists out, p. do 2 (split; [done|]).
        match goal with H : _ || _ = false |- _ => rewrite H end. done.
    + intros Hpos Hrsi.
      destruct Hd; simpl in *; try congruence; try lia.
      * match goal with H : match _ with Some _ => _ | None => _ end = true |- _ =>
          rewrite Hr, Hrsi, andb_false_r in H; done end.
      * exists out, p. do 2 (split; [done|]).
        match goal with H : _ || _ = true |- _ => rewrite H end. done.
      * exists out, p. do 2 (split; [done|]).
        match goal with H : _ || _ = false |- _ => rewrite H end. done.
Qed.

Lemma reversal_atomic_and_first_witness :
  exists out,
    main3.strat demo_config demo_frame = Returned out
    /\ row_at out 10 = Some ((-2)%Z, REVERSE_LONG_TO_SHORT)
    /\ main3.state_at demo_config demo_frame 11
       = Returned (emit 10 (-2) REVERSE_LONG_TO_SHORT (-1) (4 + 1 * 2)%float 0
                    {| position := 1; trailing_stop := 3%float; num_wrong := 0;
                       signals := [0; 0; 0; 0; 1; 0; 0; 0; -1; 1; 0]%Z;
                       trade_type := [HOLD; HOLD; HOLD; HOLD; LONG; HOLD; HOLD;
                                      HOLD; CLOSE; LONG; HOLD] |}).
Proof.
  refine (proj1 (proj1 reversal_atomic_and_first demo_config demo_frame 10 _
                   (demo_row 5 4 3000 1) _ _ _ _ _) _ _);
    try reflexivity.
  unfold main3.start_idx. simpl. lia.
Defined.

(** C5 as stated fails in main4.py: on the worked frame bar 10 is a bearish
    volume spike on a held long position, its RSI (60) is above the
    short-entry threshold (50), and the bar writes (0, HOLD). *)
Lemma reversal_counterexample : ~ reversal_as_stated.
Proof.
  intros H.
  destruct (H VolumeSpike_RSI demo_config4 demo_frame4 10
              {| position := 1; trailing_stop := 3%float; num_wrong := 0;
                 signals := [0; 0; 0; 0; 1; 0; 0; 0; -1; 1; 0]%Z;
                 trade_type := [HOLD; HOLD; HOLD; HOLD; LONG; HOLD; HOLD; HOLD;
                                CLOSE; LONG; HOLD] |}
              (demo_row4 5 4 3000 1 60))
    as (out & Ho & Hrow); try reflexivity.
  - by right.
  - simpl. unfold main4.start_idx. simpl. lia.
  - vm_compute in Ho. injection Ho as <-. vm_compute in Hrow. discriminate Hrow.
Qed.

(** X2. In every variant, row [i] holds LONG exactly when bar [i] is a bar
    of the loop ([start_idx <= i]) that passes the NaN guard, is entered
    flat and satisfies the variant's long-entry condition; it holds SHORT
    exactly when the same holds with the short-entry condition. After a
    LONG row the state is long with trailing_stop = close - ATR * multiplier
    and counter 0; after a SHORT row it is short with
    trailing_stop = close + ATR * multiplier and counter 0. *)
Theorem entry_rows_characterised :
  forall v (cfg : Config v) (data : list (Row v)) i,
    i < length data ->
    exists out s s' r,
      strat v cfg data = Returned out
      /\ state_at v cfg data i = Returned s
      /\ state_at v cfg data (S i) = Returned s'
      /\ data !! i = Some r
      /\ (out.2 !! i = Some LONG <->
          start_idx v cfg <= i /\ undefined r = false /\ position s = 0%Z
          /\ entry_long v cfg data i = true)
      /\ (out.2 !! i = Some SHORT <->
          start_idx v cfg <= i /\ undefined r = false /\ position s = 0%Z
          /\ entry_short v cfg data i = true)
      /\ (out.2 !! i = Some LONG ->
          position s' = 1%Z /\ num_wrong s' = 0%Z
          /\ trailing_stop s'
             = (col_close (bar_of r) - atr_of r * multiplier cfg)%float)
      /\ (out.2 !! i = Some SHORT ->
          position s' = (-1)%Z /\ num_wrong s' = 0%Z
          /\ trailing_stop s'
             = (col_close (bar_of r) + atr_of r * multiplier cfg)%float).
Proof.
  intros v cfg data i Hi.
  destruct (run_bar v cfg data i Hi)
    as (out & s & s' & r & sg & ty & Ho & Hs & Hs' & Hr & Hrow & Hcase & Hinv).
  apply row_at_Some in Hrow as [_ Hty].
  exists out, s, s', r. do 4 (split; [done|]). rewrite Hty.
  assert (forall x, entry_short v cfg data i = true ->
                    entry_long v cfg data i = true -> x) as Hexcl.
  { intros x H1 H2.
    pose proof (entry_short_not_long v cfg data i r Hr H1). congruence. }
  destruct Hcase as [(Hwarm & -> & -> & ->)|[Hstart Hd]];
    [|destruct Hd; simpl];
    split_and!;
    try (intros Heq; first [discriminate Heq | by split_and!]);
    (split;
     [ intros Heq; first [discriminate Heq | by split_and!]
     | intros (? & ? & ? & ?);
       first [reflexivity | congruence | lia | by eapply Hexcl] ]).
Qed.

Lemma entry_rows_characterised_witness :
  exists out s s' r,
    strat VolumeSpike demo_config demo_frame = Returned out
    /\ state_at VolumeSpike demo_config demo_frame 4 = Returned s
    /\ state_at VolumeSpike demo_config demo_frame 5 = Returned s'
    /\ demo_frame !! 4 = Some r
    /\ (out.2 !! 4 = Some LONG <->
        start_idx VolumeSpike demo_config <= 4 /\ undefined (v:=VolumeSpike) r = false
        /\ position s = 0%Z
        /\ entry_long VolumeSpike demo_config demo_frame 4 = true)
    /\ (out.2 !! 4 = Some SHORT <->
        start_idx VolumeSpike demo_config <= 4 /\ undefined (v:=VolumeSpike) r = false
        /\ position s = 0%Z
        /\ entry_short VolumeSpike demo_config demo_frame 4 = true)
    /\ (out.2 !! 4 = Some LONG ->
        position s' = 1%Z /\ num_wrong s' = 0%Z
        /\ trailing_stop s'
           = (col_close (main3.bar r)
              - main3.ATR r * main3.trailing_stop_multiplier demo_config)%float)
    /\ (out.2 !! 4 = Some SHORT ->
        position s' = (-1)%Z /\ num_wrong s' = 0%Z
        /\ trailing_stop s'
           = (col_close (main3.bar r)
              + main3.ATR r * main3.trailing_stop_multiplier demo_config)%float).
Proof.
  apply (entry_rows_characterised VolumeSpike demo_config demo_frame 4).
  simpl. lia.
Defined.

(** ** Direction of entries and reversals *)

Lemma reversal_long_candle v (cfg : Config v) (data : list (Row v)) i r :
  data !! i = Some r -> reversal_long v cfg data i = true ->
  lt (col_close (bar_of r)) (col_open (bar_of r)) = true
  /\ volume_spike v cfg data i = true
  /\ (v = VolumeSpike \/ v = VolumeSpike_RSI).
Proof.
  intros Hr. destruct v; simpl in *; rewrite ?Hr; try done;
    intros H; bool_facts; split_and!; auto.
Qed.

Lemma reversal_short_candle v (cfg : Config v) (data : list (Row v)) i r :
  data !! i = Some r -> reversal_short v cfg data i = true ->
  gt (col_close (bar_of r)) (col_open (bar_of r)) = true
  /\ volume_spike v cfg data i = true
  /\ (v = VolumeSpike \/ v = VolumeSpike_RSI).
Proof.
  intros Hr. destruct v; simpl in *; rewrite ?Hr; try done;
    intros H; bool_facts; split_and!; auto.
Qed.

(** X3. In every variant, a row that opens or reverses to long (LONG,
    REVERSE_SHORT_TO_LONG) sits on a bar with close > open, and a row that
    opens or reverses to short (SHORT, REVERSE_LONG_TO_SHORT) on a bar with
    close < open; in the two volume-spike variants every such row sits on a
    volume-spike bar, and a REVERSE row occurs in those two variants
    only. *)
Theorem entries_follow_the_candle :
  forall v (cfg : Config v) (data : list (Row v)),
  exists out,
    strat v cfg data = Returned out
    /\ forall i ty r,
        out.2 !! i = Some ty -> data !! i = Some r ->
        (ty = LONG \/ ty = REVERSE_SHORT_TO_LONG ->
         gt (col_close (bar_of r)) (col_open (bar_of r)) = true)
        /\ (ty = SHORT \/ ty = REVERSE_LONG_TO_SHORT ->
            lt (col_close (bar_of r)) (col_open (bar_of r)) = true)
        /\ (opening ty \/ is_reversal ty ->
            v = VolumeSpike \/ v = VolumeSpike_RSI ->
            volume_spike v cfg data i = true)
        /\ (is_reversal ty -> v = VolumeSpike \/ v = VolumeSpike_RSI).
Proof.
  intros v cfg data.
  destruct (strat_returns v cfg data) as (f & _ & Hout & _).
  exists (columns f). split; [done|]. intros i ty r Hty Hr.
  assert (i < length data) as Hi by by eapply lookup_lt_Some.
  destruct (run_bar v cfg data i Hi)
    as (out & s & s' & r' & sg & ty' & Ho & _ & _ & Hr' & Hrow & Hcase & _).
  replace out with (columns f) in * by congruence.
  replace r' with r in * by congruence.
  apply row_at_Some in Hrow as [_ Hty'].
  replace ty' with ty in * by congruence.
  unfold opening, is_reversal.
  destruct Hcase as [(_ & _ & _ & ->)|[_ Hd]].
  { split_and!; intros; destruct_or?; done. }
  destruct Hd;
    try (split_and!; intros; destruct_or?; done).
  - destruct (entry_long_candle v cfg data i r) as [? ?]; [done..|].
    split_and!; intros; destruct_or?; try done; auto.
  - destruct (entry_short_candle v cfg data i r) as [? ?]; [done..|].
    split_and!; intros; destruct_or?; try done; auto.
  - destruct (reversal_long_candle v cfg data i r) as (? & ? & ?); [done..|].
    split_and!; intros; destruct_or?; try done; auto.
  - destruct (reversal_short_candle v cfg data i r) as (? & ? & ?); [done..|].
    split_and!; intros; destruct_or?; try done; auto.
Qed.

Lemma entries_follow_the_candle_witness :
  lt (col_close (main3.bar (demo_row 5 4 3000 1)))
     (col_open (main3.bar (demo_row 5 4 3000 1))) = true
  /\ volume_spike VolumeSpike demo_config demo_frame 10 = true.
Proof.
  destruct (entries_follow_the_candle VolumeSpike demo_config demo_frame)
    as (out & Ho & H).
  vm_compute in Ho. injection Ho as <-.
  destruct (H 10 REVERSE_LONG_TO_SHORT (demo_row 5 4 3000 1))
    as (_ & A & B & _); [reflexivity..|].
  split; [apply A; by right|].
  apply B; [right; by left | by left].
Defined.

(** ** Exits *)

(** X4. In every variant, on a bar of the loop that passes the NaN guard:
    a long position whose close is below the trailing stop does not stay
    long - the bar writes (-1, CLOSE), or (-2, REVERSE_LONG_TO_SHORT) when
    the reversal rule fires first; a short position whose close is above
    the trailing stop does not stay short - the bar writes (1, CLOSE) or
    (2, REVERSE_SHORT_TO_LONG). *)
Theorem stop_loss_enforced :
  forall v (cfg : Config v) (data : list (Row v)) i s r,
    start_idx v cfg <= i -> data !! i = Some r -> undefined r = false ->
    state_at v cfg data i = Returned s ->
    (position s = 1%Z ->
     lt (col_close (bar_of r)) (trailing_stop s) = true ->
     exists out s',
       strat v cfg data = Returned out
       /\ state_at v cfg data (S i) = Returned s'
       /\ ((row_at out i = Some ((-1)%Z, CLOSE) /\ position s' = 0%Z)
           \/ (row_at out i = Some ((-2)%Z, REVERSE_LONG_TO_SHORT)
               /\ position s' = (-1)%Z
               /\ reversal_long v cfg data i = true)))
    /\ (position s = (-1)%Z ->
     gt (col_close (bar_of r)) (trailing_stop s) = true ->
     exists out s',
       strat v cfg data = Returned out
       /\ state_at v cfg data (S i) = Returned s'
       /\ ((row_at out i = Some (1%Z, CLOSE) /\ position s' = 0%Z)
           \/ (row_at out i = Some (2%Z, REVERSE_SHORT_TO_LONG)
               /\ position s' = 1%Z
               /\ reversal_short v cfg data i = true))).
Proof.
  intros v cfg data i s r Hstart Hr Hna Hs.
  assert (i < length data) as Hi by by eapply lookup_lt_Some.
  destruct (run_decision v cfg data i Hi Hstart)
    as (out & t & s' & r' & sg & ty & Ho & Ht & Hs' & Hr' & Hrow & Hd & _).
  replace t with s in * by congruence.
  replace r' with r in * by congruence.
  split; intros Hpos Hstop; exists out, s'; (do 2 (split; [done|]));
    destruct Hd; try congruence; try lia; simpl; auto.
  - rewrite Hstop, !orb_true_r in *. done.
  - rewrite Hstop, !orb_true_r in *. done.
Qed.

Lemma stop_loss_enforced_witness :
  exists out s',
    strat VolumeSpike tight_stop_config demo_frame = Returned out
    /\ state_at VolumeSpike tight_stop_config demo_frame 9 = Returned s'
    /\ ((row_at out 8 = Some ((-1)%Z, CLOSE) /\ position s' = 0%Z)
        \/ (row_at out 8 = Some ((-2)%Z, REVERSE_LONG_TO_SHORT)
            /\ position s' = (-1)%Z
            /\ reversal_long VolumeSpike tight_stop_config demo_frame 8 = true)).
Proof.
  refine (proj1 (stop_loss_enforced VolumeSpike tight_stop_config demo_frame 8
            {| position := 1; trailing_stop := 4.5%float; num_wrong := 1;
               signals := [0; 0; 0; 0; 1; 0; 0; 0; 0; 0; 0]%Z;
               trade_type := [HOLD; HOLD; HOLD; HOLD; LONG; HOLD; HOLD;
                              HOLD; HOLD; HOLD; HOLD] |}
            (demo_row 4.5 4 1 1) _ _ _ _) _ _); try reflexivity.
  simpl. unfold main3.start_idx. simpl. lia.
Defined.

Lemma exit_long_no_reversal v (cfg : Config v) (data : list (Row v)) i :
  exit_long v cfg data i = true -> reversal_long v cfg data i = false.
Proof. by destruct v. Qed.

Lemma exit_short_no_reversal v (cfg : Config v) (data : list (Row v)) i :
  exit_short v cfg data i = true -> reversal_short v cfg data i = false.
Proof. by destruct v. Qed.

(** X5. On a bar of the loop that passes the NaN guard, a long position
    meeting the variant's exit signal (Strategy_2.py: bearish MACD crossover
    or close < EMA; main5.py: RSI < short threshold or close < SMA) is
    closed with (-1, CLOSE) whatever the counter and the stop are; a short
    position meeting the mirrored signal is closed with (1, CLOSE). *)
Theorem exit_signal_closes :
  forall v (cfg : Config v) (data : list (Row v)) i s r,
    start_idx v cfg <= i -> data !! i = Some r -> undefined r = false ->
    state_at v cfg data i = Returned s ->
    (position s = 1%Z -> exit_long v cfg data i = true ->
     exists out,
       strat v cfg data = Returned out
       /\ row_at out i = Some ((-1)%Z, CLOSE)
       /\ state_at v cfg data (S i)
          = Returned (emit i (-1) CLOSE 0 (trailing_stop s) 0 s))
    /\ (position s = (-1)%Z -> exit_short v cfg data i = true ->
     exists out,
       strat v cfg data = Returned out
       /\ row_at out i = Some (1%Z, CLOSE)
       /\ state_at v cfg data (S i)
          = Returned (emit i 1 CLOSE 0 (trailing_stop s) 0 s)).
Proof.
  intros v cfg data i s r Hstart Hr Hna Hs.
  assert (i < length data) as Hi by by eapply lookup_lt_Some.
  destruct (run_decision v cfg data i Hi Hstart)
    as (out & t & s' & r' & sg & ty & Ho & Ht & Hs' & Hr' & Hrow & Hd & _).
  replace t with s in * by congruence.
  replace r' with r in * by congruence.
  split; intros Hpos Hexit; exists out; (split; [done|]).
  - pose proof (exit_long_no_reversal v cfg data i Hexit) as Hrev.
    destruct Hd; try congruence; try lia; try done.
    match goal with H : _ || _ || _ = false |- _ => rewrite Hexit in H; done end.
  - pose proof (exit_short_no_reversal v cfg data i Hexit) as Hrev.
    destruct Hd; try congruence; try lia; try done.
    match goal with H : _ || _ || _ = false |- _ => rewrite Hexit in H; done end.
Qed.

Lemma exit_signal_closes_witness :
  exists out,
    strat SMA_RSI demo_config5 demo_frame5 = Returned out
    /\ row_at out 3 = Some ((-1)%Z, CLOSE)
    /\ state_at SMA_RSI demo_config5 demo_frame5 4
       = Returned (emit 3 (-1) CLOSE 0 1%float 0
                    {| position := 1; trailing_stop := 1%float; num_wrong := 0;
                       signals := [0; 1; 0; 0; 0; 0]%Z;
                       trade_type := [HOLD; LONG; HOLD; HOLD; HOLD; HOLD] |}).
Proof.
  refine (proj1 (exit_signal_closes SMA_RSI demo_config5 demo_frame5 3
            {| position := 1; trailing_stop := 1%float; num_wrong := 0;
               signals := [0; 1; 0; 0; 0; 0]%Z;
               trade_type := [HOLD; LONG; HOLD; HOLD; HOLD; HOLD] |}
            (demo_row5 3 2.5 2.75 1 50) _ _ _ _) _ _); try reflexivity.
  simpl. unfold main5.start_idx. simpl. lia.
Defined.

(** ** The adverse counter, bar by bar *)

(** X6. In every variant, across a bar of the loop that passes the NaN
    guard and on which the position is long before and after, the counter
    becomes [num_wrong + 1] if close <= previous close and 0 otherwise; the
    same across a bar held short, with close >= previous close. One bar
    that is not adverse wipes the count. *)
Theorem counter_law :
  forall v (cfg : Config v) (data : list (Row v)) i s s' r,
    start_idx v cfg <= i -> data !! i = Some r -> undefined r = false ->
    state_at v cfg data i = Returned s ->
    state_at v cfg data (S i) = Returned s' ->
    position s <> 0%Z ->
    exists p,
      prev_row data i = Some p
      /\ (position s = 1%Z -> position s' = 1%Z ->
          num_wrong s'
          = if le (col_close (bar_of r)) (col_close (bar_of p))
            then (num_wrong s + 1)%Z else 0%Z)
      /\ (position s = (-1)%Z -> position s' = (-1)%Z ->
          num_wrong s'
          = if ge (col_close (bar_of r)) (col_close (bar_of p))
            then (num_wrong s + 1)%Z else 0%Z).
Proof.
  intros v cfg data i s s' r Hstart Hr Hna Hs Hs' Hheld.
  assert (i < length data) as Hi by by eapply lookup_lt_Some.
  destruct (run_decision v cfg data i Hi Hstart)
    as (out & t & t' & r' & sg & ty & Ho & Ht & Ht' & Hr' & Hrow & Hd & _).
  replace t with s in * by congruence.
  replace t' with s' in * by congruence.
  replace r' with r in * by congruence.
  destruct Hd; try congruence;
    exists p; (split; [done|]); simpl;
    split; intros; try lia; done.
Qed.

Lemma counter_law_witness :
  exists p,
    prev_row demo_frame 7 = Some p
    /\ (1%Z = 1%Z -> 1%Z = 1%Z ->
        1%Z = if le (col_close (main3.bar (demo_row 5 4.5 1 1)))
                    (col_close (main3.bar p))
              then (0 + 1)%Z else 0%Z)
    /\ (1%Z = (-1)%Z -> 1%Z = (-1)%Z ->
        1%Z = if ge (col_close (main3.bar (demo_row 5 4.5 1 1)))
                    (col_close (main3.bar p))
              then (0 + 1)%Z else 0%Z).
Proof.
  refine (counter_law VolumeSpike demo_config demo_frame 7
            {| position := 1; trailing_stop := 3%float; num_wrong := 0;
               signals := [0; 0; 0; 0; 1; 0; 0; 0; 0; 0; 0]%Z;
               trade_type := [HOLD; HOLD; HOLD; HOLD; LONG; HOLD; HOLD;
                              HOLD; HOLD; HOLD; HOLD] |}
            {| position := 1; trailing_stop := 3%float; num_wrong := 1;
               signals := [0; 0; 0; 0; 1; 0; 0; 0; 0; 0; 0]%Z;
               trade_type := [HOLD; HOLD; HOLD; HOLD; LONG; HOLD; HOLD;
                              HOLD; HOLD; HOLD; HOLD] |}
            (demo_row 5 4.5 1 1) _ _ _ _ _ _); try reflexivity; try done.
  simpl. unfold main3.start_idx. simpl. lia.
Defined.

(** X7. With [num_wrong_limit <= 0] no position survives a bar: in every
    variant, a position held on entering a bar of the loop that passes the
    NaN guard is closed (CLOSE) or reversed (REVERSE) on that bar, even when
    the close moved in its favour. *)
Theorem nonpositive_limit_never_holds :
  forall v (cfg : Config v) (data : list (Row v)) i s r,
    (limit cfg <= 0)%Z ->
    start_idx v cfg <= i -> data !! i = Some r -> undefined r = false ->
    state_at v cfg data i = Returned s -> position s <> 0%Z ->
    exists out s' sg ty,
      strat v cfg data = Returned out
      /\ state_at v cfg data (S i) = Returned s'
      /\ row_at out i = Some (sg, ty)
      /\ (ty = CLOSE /\ position s' = 0%Z
          \/ is_reversal ty /\ position s' = (- position s)%Z).
Proof.
  intros v cfg data i s r Hlim Hstart Hr Hna Hs Hheld.
  assert (i < length data) as Hi by by eapply lookup_lt_Some.
  destruct (run_decision v cfg data i Hi Hstart)
    as (out & t & s' & r' & sg & ty & Ho & Ht & Hs' & Hr' & Hrow & Hd & Hinv).
  replace t with s in * by congruence.
  replace r' with r in * by congruence.
  destruct (inv_count _ _ _ _ Hinv) as [Hnw _].
  exists out, s', sg, ty. do 3 (split; [done|]).
  unfold is_reversal.
  destruct Hd; try congruence; simpl;
    try (left; done);
    try (right; split; [auto|lia]).
  - exfalso. bool_facts. unfold count_long in *.
    destruct (le _ _); lia.
  - exfalso. bool_facts. unfold count_short in *.
    destruct (ge _ _); lia.
Qed.

Lemma nonpositive_limit_never_holds_witness :
  exists out s' sg ty,
    strat VolumeSpike zero_limit_config demo_frame = Returned out
    /\ state_at VolumeSpike zero_limit_config demo_frame 7 = Returned s'
    /\ row_at out 6 = Some (sg, ty)
    /\ (ty = CLOSE /\ position s' = 0%Z
        \/ is_reversal ty /\ position s' = (- 1)%Z).
Proof.
  refine (nonpositive_limit_never_holds VolumeSpike zero_limit_config demo_frame 6
            {| position := 1; trailing_stop := 1%float; num_wrong := 0;
               signals := [0; 0; 0; 0; 1; 0; 0; 0; 0; 0; 0]%Z;
               trade_type := [HOLD; HOLD; HOLD; HOLD; LONG; HOLD; HOLD;
                              HOLD; HOLD; HOLD; HOLD] |}
            (demo_row 4 5 1 1) _ _ _ _ _ _); try reflexivity; try done.
  simpl. unfold main3.start_idx. simpl. lia.
Defined.

(** ** A bar whose close is NaN *)

Lemma isna_spec x : isna x = true <-> Prim2SF x = S754_nan.
Proof.
  unfold isna, PrimFloat.is_nan.
  rewrite negb_true_iff, FloatAxioms.eqb_spec. unfold SFeqb.
  destruct (Prim2SF x) as [sx|sx| |sx mx ex]; simpl; split; try done.
  - by destruct sx.
  - rewrite Z.compare_refl, Pos.compare_cont_refl. by destruct sx.
Qed.

Lemma isna_sub_l x y : isna x = true -> isna (x - y)%float = true.
Proof.
  rewrite !isna_spec, sub_spec. intros ->. done.
Qed.

Lemma isna_add_l x y : isna x = true -> isna (x + y)%float = true.
Proof.
  rewrite !isna_spec, add_spec. intros ->. done.
Qed.

Lemma max_nan_r a b : isna b = true -> Py.max a b = a.
Proof.
  intros Hb. unfold Py.max, gt.
  by destruct (nan_compare b Hb a) as (_ & -> & _).
Qed.

Lemma min_nan_r a b : isna b = true -> Py.min a b = a.
Proof.
  intros Hb. unfold Py.min, lt.
  by destruct (nan_compare b Hb a) as (-> & _).
Qed.

(** X8. In every variant, a bar of the loop whose close is NaN while its
    guarded indicators are defined never opens or reverses a position: its
    row is HOLD or CLOSE. When it is HOLD the position and the trailing
    stop are unchanged (max/min against NaN keeps the stop), and the
    adverse counter of a held position is set to 0, since a comparison with
    NaN is not adverse. *)
Theorem nan_close_bar :
  forall v (cfg : Config v) (data : list (Row v)) i s r,
    start_idx v cfg <= i -> data !! i = Some r -> undefined r = false ->
    isna (col_close (bar_of r)) = true ->
    state_at v cfg data i = Returned s ->
    exists out s' sg ty,
      strat v cfg data = Returned out
      /\ state_at v cfg data (S i) = Returned s'
      /\ row_at out i = Some (sg, ty)
      /\ (ty = HOLD \/ ty = CLOSE)
      /\ (ty = HOLD ->
          position s' = position s
          /\ trailing_stop s' = trailing_stop s
          /\ (position s <> 0%Z -> num_wrong s' = 0%Z)).
Proof.
  intros v cfg data i s r Hstart Hr Hna Hnan Hs.
  assert (i < length data) as Hi by by eapply lookup_lt_Some.
  destruct (run_decision v cfg data i Hi Hstart)
    as (out & t & s' & r' & sg & ty & Ho & Ht & Hs' & Hr' & Hrow & Hd & _).
  replace t with s in * by congruence.
  replace r' with r in * by congruence.
  exists out, s', sg, ty. do 3 (split; [done|]).
  pose proof (nan_compare _ Hnan (col_open (bar_of r))) as (L1 & L2 & _).
  destruct Hd; try congruence.
  - destruct (entry_long_candle v cfg data i r) as [Hc _]; [done..|].
    unfold gt in Hc. congruence.
  - destruct (entry_short_candle v cfg data i r) as [Hc _]; [done..|].
    unfold lt in Hc. congruence.
  - split; [by left|]. intros _. by split_and!.
  - destruct (reversal_long_candle v cfg data i r) as [Hc _]; [done..|].
    unfold lt in Hc. congruence.
  - split; [by right|]. done.
  - split; [by left|]. intros _. simpl. split_and!; [done| |].
    + apply max_nan_r. by apply isna_sub_l.
    + intros _. unfold count_long, le.
      by destruct (nan_compare _ Hnan (col_close (bar_of p))) as (_ & _ & -> & _).
  - destruct (reversal_short_candle v cfg data i r) as [Hc _]; [done..|].
    unfold gt in Hc. congruence.
  - split; [by right|]. done.
  - split; [by left|]. intros _. simpl. split_and!; [done| |].
    + apply min_nan_r. by apply isna_add_l.
    + intros _. unfold count_short, ge.
      by destruct (nan_compare _ Hnan (col_close (bar_of p))) as (_ & _ & _ & ->).
Qed.

Lemma nan_close_bar_witness :
  exists out s' sg ty,
    strat VolumeSpike demo_config nan_close_frame = Returned out
    /\ state_at VolumeSpike demo_config nan_close_frame 6 = Returned s'
    /\ row_at out 5 = Some (sg, ty)
    /\ (ty = HOLD \/ ty = CLOSE)
    /\ (ty = HOLD ->
        position s' = 1%Z /\ trailing_stop s' = 1%float
        /\ (1%Z <> 0%Z -> num_wrong s' = 0%Z)).
Proof.
  refine (nan_close_bar VolumeSpike demo_config nan_close_frame 5
            {| position := 1; trailing_stop := 1%float; num_wrong := 0;
               signals := [0; 0; 0; 0; 1; 0]%Z;
               trade_type := [HOLD; HOLD; HOLD; HOLD; LONG; HOLD] |}
            (demo_row 3 nan 1 1) _ _ _ _ _); try reflexivity.
  simpl. unfold main3.start_idx. simpl. lia.
Defined.

(** ** The look-ahead check of [main] *)

Lemma strat_length v (cfg : Config v) (data : list (Row v)) out :
  strat v cfg data = Returned out -> length out.1 = length data.
Proof.
  intros Ho. destruct (strat_returns v cfg data) as (s & _ & Hs & Hinv).
  replace out with (columns s) by congruence. simpl. apply Hinv.
Qed.

Lemma pipeline_length v lib (p : Params v) cfg bars out :
  pipeline v lib p cfg bars = Returned out -> length out.1 = length bars.
Proof.
  intros H. destruct (pipeline_Returned _ _ _ _ _ _ H) as (data & Hd & Hs).
  rewrite (strat_length _ _ _ _ Hs). by eapply process_data_length.
Qed.

Lemma pipeline_of_frame v lib (p : Params v) cfg bars data :
  process_data v lib p bars = Returned data ->
  pipeline v lib p cfg bars = strat v cfg data.
Proof. intros H. unfold pipeline. by rewrite H. Qed.


Lemma mismatch_at_lt v lib (p : Params v) cfg bars i :
  mismatch_at v lib p cfg bars i -> i < length bars.
Proof.
  intros (full & part & sg & sg' & Hf & _ & Hsg & _).
  apply pipeline_length in Hf. rewrite <- Hf. by eapply lookup_lt_Some.
Qed.

(** One iteration, where the re-run of [process_data] returns if it is
    made: the state is left alone unless row [i] is a mismatch. *)
Lemma lookahead_step v lib (p : Params v) cfg bars full i st :
  pipeline v lib p cfg bars = Returned full ->
  i < length bars ->
  (full.1 !! i <> Some 0%Z ->
   exists data, process_data v lib p (take (S i) bars) = Returned data) ->
  exists st',
    lookahead_body v lib p cfg bars full i st = Returned st'
    /\ ((mismatch_at v lib p cfg bars i
         /\ st' = {| lookahead_bias := true;
                     printed := printed st ++ [Detected i] |})
        \/ (~ mismatch_at v lib p cfg bars i /\ st' = st)).
Proof.
  intros Hfull Hi Hret.
  pose proof (pipeline_length _ _ _ _ _ _ Hfull) as Hlen.
  destruct (lookup_lt_is_Some_2 full.1 i) as [sg Hsg]; [lia|].
  unfold lookahead_body.
  rewrite (loc_Returned _ _ id _ Hsg). simpl.
  destruct (Z.eqb_spec sg 0) as [Hz|Hz]; simpl.
  { exists st. split; [done|]. right. split; [|done].
    intros (f & q & a & b & Hf & _ & Ha & _ & Hne & _).
    replace f with full in * by congruence. congruence. }
  destruct Hret as [data Hd]; [congruence|].
  rewrite Hd. simpl.
  destruct (strat_returns v cfg data) as (t & _ & Hpart & _).
  pose proof (strat_length _ _ _ _ Hpart) as Hlen'.
  rewrite (process_data_length _ _ _ _ _ Hd), length_take_le in Hlen' by lia.
  destruct (lookup_lt_is_Some_2 (columns t).1 i) as [sg' Hsg']; [lia|].
  rewrite Hpart. simpl. simpl in Hsg'.
  rewrite (loc_Returned _ _ id _ Hsg'). simpl.
  rewrite <- (pipeline_of_frame v lib p cfg _ _ Hd) in Hpart.
  destruct (Z.eqb_spec sg' sg) as [He|He]; simpl.
  - exists st. split; [done|]. right. split; [|done].
    intros (f & q & a & b & Hf & Hq & Ha & Hb & _ & Hne).
    replace f with full in * by congruence.
    replace q with (columns t) in * by congruence.
    simpl in *. congruence.
  - eexists. split; [done|]. left. split; [|done].
    by exists full, (columns t), sg, sg'.
Qed.


Lemma for_range_fixed {St} (body : nat -> St -> outcome St) s n :
  forall start,
    (forall i, start <= i < start + n -> body i s = Returned s) ->
    for_range body start n s = Returned s.
Proof.
  induction n as [|n IH]; intros start H; simpl; [done|].
  rewrite H by lia. apply IH. intros i Hi. apply H. lia.
Qed.

(** With a causal library the re-run returns on the prefix of every row
    that carries a signal, and no row is a mismatch. *)
Lemma causal_rerun_returns lib v (p : Params v) cfg bars full i :
  causal_at v lib p ->
  pipeline v lib p cfg bars = Returned full ->
  i < length bars -> full.1 !! i <> Some 0%Z ->
  exists data, process_data v lib p (take (S i) bars) = Returned data.
Proof.
  intros Hlib Hfull Hi Hsg.
  destruct (prefix_run v lib p cfg bars full i Hlib Hi Hfull)
    as (sg & ty & Hrow & [(part & Hpart & _)|(_ & -> & _)]).
  - destruct (pipeline_Returned _ _ _ _ _ _ Hpart) as (data & Hd & _).
    by exists data.
  - apply row_at_Some in Hrow as [Hrow _]. done.
Qed.

Lemma causal_no_mismatch lib v (p : Params v) cfg bars i :
  causal_at v lib p -> ~ mismatch_at v lib p cfg bars i.
Proof.
  intros Hlib Hm. pose proof (mismatch_at_lt _ _ _ _ _ _ Hm) as Hi.
  destruct Hm as (full & part & sg & sg' & Hf & Hq & Hsg & Hsg' & Hne0 & Hne).
  destruct (prefix_run v lib p cfg bars full i Hlib Hi Hf)
    as (a & ty & Hrow & [(part' & Hpart & Hrow')|(_ & -> & _)]);
    apply row_at_Some in Hrow as [Hrow _].
  - replace part' with part in * by congruence.
    apply row_at_Some in Hrow' as [Hrow' _]. congruence.
  - congruence.
Qed.

(** X9. With an indicator library whose series, for the arguments given
    to [process_data], are causal, in every variant and for every
    configuration: whenever [process_data] returns on the input, the
    look-ahead check of [main] passes: the run and each re-run that the
    check makes return, no lookup raises, no index is reported, and the
    lines printed are the header followed by "No lookahead bias
    detected.".  When [process_data] raises on the input, which only
    Strategy_2.py's can, the check is not reached and the call raises that
    error.  [main] itself is the check with the default arguments. *)
Theorem lookahead_check_passes :
  forall v lib (p : Params v),
    causal_at v lib p ->
    forall (cfg : Config v) (bars : list Bar),
      (forall data, process_data v lib p bars = Returned data ->
         lookahead_check v lib p cfg bars = Returned [Checking; NoBias])
      /\ (forall e, process_data v lib p bars = Raised e ->
            v = EMA_MACD /\ lookahead_check v lib p cfg bars = Raised e)
      /\ (p = default_params v -> cfg = default_config v ->
          main v lib bars = lookahead_check v lib p cfg bars).
Proof.
  intros v lib p Hlib cfg bars. split_and!.
  - intros data Hd. unfold lookahead_check. rewrite Hd. simpl.
    destruct (strat_returns v cfg data) as (t & _ & Hfull & _).
    rewrite Hfull. simpl.
    rewrite <- (pipeline_of_frame v lib p cfg _ _ Hd) in Hfull.
    pose proof (pipeline_length _ _ _ _ _ _ Hfull) as Hlen. simpl in Hlen.
    rewrite for_range_fixed; [done|].
    intros i Hi.
    destruct (lookahead_step v lib p cfg bars (columns t) i
                {| lookahead_bias := false; printed := [Checking] |} Hfull)
      as (st' & -> & [[Hm _]|[_ ->]]); [lia| | |done].
    + intros Hsg. apply (causal_rerun_returns lib v p cfg bars (columns t) i);
        [done|done|lia|done].
    + by destruct (causal_no_mismatch lib v p cfg bars i).
  - intros e He. destruct (process_data_Raised _ _ _ _ _ He) as (Hv & _).
    split; [done|]. unfold lookahead_check. by rewrite He.
  - by intros -> ->.
Qed.

Lemma lookahead_check_passes_witness :
  lookahead_check VolumeSpike warming_library 1 demo_config
                  (main3.bar <$> demo_frame)
  = Returned [Checking; NoBias]
  /\ lookahead_check EMA_MACD warming_library Strategy_2.default_params
                     Strategy_2.default_config (replicate 30 (mkBar 1 1 1 1 1))
     = Returned [Checking; NoBias].
Proof.
  split.
  - eapply (proj1 (lookahead_check_passes VolumeSpike warming_library 1
                     (causal_causal_at _ _ _ warming_library_causal)
                     demo_config (main3.bar <$> demo_frame))).
    reflexivity.
  - eapply (proj1 (lookahead_check_passes EMA_MACD warming_library
                     Strategy_2.default_params
                     (causal_causal_at _ _ _ warming_library_causal)
                     Strategy_2.default_config
                     (replicate 30 (mkBar 1 1 1 1 1)))).
    vm_compute. reflexivity.
Defined.



(** ** A volume window of one bar *)

Lemma isna_add_r x y : isna y = true -> isna (x + y)%float = true.
Proof.
  rewrite !isna_spec, add_spec. intros ->. by destruct (Prim2SF x).
Qed.

Lemma isna_mul_r x y : isna y = true -> isna (x * y)%float = true.
Proof.
  rewrite !isna_spec, mul_spec. intros ->. by destruct (Prim2SF x).
Qed.

(** The sample standard deviation of fewer than two cells is NaN, and so
    is the spike threshold built on it. *)
Lemma threshold_nan (w : list float) :
  length w <= 1 -> isna (mean w + 1.5 * std w)%float = true.
Proof.
  intros Hw. apply isna_add_r, isna_mul_r. unfold std.
  assert (length (dropna w) <= 1) as Hd.
  { unfold dropna. pose proof (length_filter (fun x => isna x = false) w). lia. }
  by destruct (Nat.leb_spec (length (dropna w)) 1); [|lia].
Qed.

Lemma loc_slice_single {R A} (data : list R) (i : nat) (col : R -> A) :
  length (loc_slice data (Z.of_nat i - Z.of_nat 0) (Z.of_nat i) col) <= 1.
Proof.
  unfold loc_slice. rewrite length_fmap, length_drop, length_take.
  replace (Z.to_nat (Z.of_nat i - Z.of_nat 0)) with i by lia.
  replace (Z.to_nat (Z.of_nat i + 1)) with (S i) by lia. lia.
Qed.

Lemma zero_lookback_no_spike v (cfg : Config v) (data : list (Row v)) i :
  zero_lookback cfg -> volume_spike v cfg data i = false.
Proof.
  intros Hz. destruct v; simpl in *; try done; destruct (data !! i); try done.
  - unfold main3.vol_spike_threshold, main3.vol_window. rewrite Hz.
    unfold gt.
    by destruct (nan_compare _ (threshold_nan _ (loc_slice_single data i
                                       (col_volume ∘ main3.bar)))
                             (col_volume (main3.bar r))) as (-> & _).
  - unfold main4.vol_spike_threshold, main4.vol_window. rewrite Hz.
    unfold gt.
    by destruct (nan_compare _ (threshold_nan _ (loc_slice_single data i
                                       (col_volume ∘ main4.bar)))
                             (col_volume (main4.bar r))) as (-> & _).
Qed.

(** X11. In main3.py and main4.py, with [volume_lookback = 0] the volume
    window [data.loc[i - 0 : i, 'volume']] is the single cell of bar [i];
    its sample standard deviation is NaN, the threshold is NaN, and no bar
    is a volume spike.  So for every frame and every other setting the run
    returns with every row (0, HOLD): no position is ever opened. *)
Theorem zero_lookback_never_trades :
  forall v (cfg : Config v) (data : list (Row v)),
    zero_lookback cfg ->
    exists out,
      strat v cfg data = Returned out
      /\ (forall i, volume_spike v cfg data i = false)
      /\ (forall i, i < length data -> row_at out i = Some (0%Z, HOLD)).
Proof.
  intros v cfg data Hz.
  assert (v = VolumeSpike \/ v = VolumeSpike_RSI) as Hv.
  { destruct v; simpl in Hz; auto; done. }
  assert (forall k, k <= length data ->
            state_at v cfg data k = Returned (init_state (length data))) as Hflat.
  { induction k as [|k IH]; intros Hk; [apply state_at_warm_up; lia|].
    destruct (run_bar v cfg data k)
      as (out & s & s' & r & sg & ty & _ & Hs & Hs' & Hr & _ & Hcase & _); [lia|].
    rewrite IH in Hs by lia. injection Hs as <-.
    rewrite Hs'. f_equal.
    destruct Hcase as [(_ & -> & _)|(_ & Hd)]; [done|].
    destruct Hd; try done; simpl in *; try lia.
    - destruct (entry_long_candle v cfg data k r) as [_ Hsp]; [done..|].
      rewrite zero_lookback_no_spike in Hsp by done. by specialize (Hsp Hv).
    - destruct (entry_short_candle v cfg data k r) as [_ Hsp]; [done..|].
      rewrite zero_lookback_no_spike in Hsp by done. by specialize (Hsp Hv). }
  destruct (strat_returns v cfg data) as (t & Ht & Hout & _).
  exists (columns t). split; [done|].
  split; [intros i; by apply zero_lookback_no_spike|].
  intros i Hi. rewrite Hflat in Ht by lia. injection Ht as <-.
  apply row_at_Some. simpl. rewrite !lookup_replicate. done.
Qed.

Lemma zero_lookback_never_trades_witness :
  exists out,
    strat VolumeSpike zero_lookback_config demo_frame = Returned out
    /\ (forall i, volume_spike VolumeSpike zero_lookback_config demo_frame i = false)
    /\ (forall i, i < length demo_frame -> row_at out i = Some (0%Z, HOLD)).
Proof.
  apply (zero_lookback_never_trades VolumeSpike zero_lookback_config demo_frame).
  reflexivity.
Defined.

(** ** [process_data] followed by [strat] *)

Lemma process_data_row v lib (p : Params v) (bars : list Bar) data i b :
  process_data v lib p bars = Returned data ->
  bars !! i = Some b ->
  exists r, data !! i = Some r
            /\ bar_of r = b
            /\ atr_of r = column (atr_series v lib p bars) i.
Proof.
  intros Hd Hb. rewrite (process_data_lookup _ _ _ _ _ Hd), Hb. simpl.
  eexists. split; [done|]. unfold atr_series. by destruct v.
Qed.

Lemma undefined_atr {v} (r : Row v) : isna (atr_of r) = true -> undefined r = true.
Proof.
  destruct v; simpl; intros ->; done.
Qed.

(** X12. [process_data] followed by [strat] on a row without ATR: in every
    variant, whatever the other series and settings, when [process_data]
    returns (in main3.py, main4.py and main5.py it always does) and
    [ta.atr] returned [None], or a series that has no cell at label [i] or
    holds NaN there, row [i] of [strat(process_data(data))] is (0, HOLD)
    and bar [i] leaves the position, the trailing stop and the adverse
    counter as they were. *)
Theorem missing_atr_holds :
  forall v lib (p : Params v) (cfg : Config v) (bars : list Bar) data i,
    process_data v lib p bars = Returned data ->
    i < length bars ->
    isna (column (atr_series v lib p bars) i) = true ->
    exists out s,
      strat v cfg data = Returned out
      /\ row_at out i = Some (0%Z, HOLD)
      /\ state_at v cfg data i = Returned s
      /\ state_at v cfg data (S i) = Returned s.
Proof.
  intros v lib p cfg bars data i Hd Hi Hna.
  destruct (lookup_lt_is_Some_2 bars i Hi) as [b Hb].
  destruct (process_data_row v lib p bars data i b Hd Hb) as (r & Hr & _ & Hatr).
  destruct (run_bar v cfg data i)
    as (out & s & s' & r' & sg & ty & Ho & Hs & Hs' & Hr' & Hrow & Hcase & _).
  { by rewrite (process_data_length _ _ _ _ _ Hd). }
  replace r' with r in * by congruence.
  assert (undefined r = true) as Hu.
  { apply undefined_atr. by rewrite Hatr. }
  exists out, s. split; [done|].
  destruct Hcase as [(_ & -> & -> & ->)|(_ & Hdec)]; [done|].
  destruct Hdec; try congruence. done.
Qed.

Lemma missing_atr_holds_witness :
  exists out s,
    strat VolumeSpike demo_config
          (main3.process_data warming_library 20 (main3.bar <$> demo_frame))
    = Returned out
    /\ row_at out 4 = Some (0%Z, HOLD)
    /\ state_at VolumeSpike demo_config
         (main3.process_data warming_library 20 (main3.bar <$> demo_frame)) 4
       = Returned s
    /\ state_at VolumeSpike demo_config
         (main3.process_data warming_library 20 (main3.bar <$> demo_frame)) 5
       = Returned s.
Proof.
  apply (missing_atr_holds VolumeSpike warming_library 20 demo_config
           (main3.bar <$> demo_frame) _ 4).
  - reflexivity.
  - simpl. lia.
  - reflexivity.
Defined.

(** ** The columns [strat] reads *)

Lemma for_range_ext {St} (f g : nat -> St -> outcome St) n :
  forall start s,
    (forall i t, start <= i -> f i t = g i t) ->
    for_range f start n s = for_range g start n s.
Proof.
  induction n as [|n IH]; intros start s H; simpl; [done|].
  rewrite H by lia. destruct (g start s); [|done].
  apply IH. intros i t Hi. apply H. lia.
Qed.

Lemma loc_fmap_ext {R A} (g : R -> R) (col : R -> A) (data : list R) z :
  (forall r, col (g r) = col r) ->
  loc (g <$> data) z col = loc data z col.
Proof.
  intros H. unfold loc. rewrite list_lookup_fmap.
  destruct (z <? 0)%Z; [done|].
  destruct (data !! Z.to_nat z); simpl; by rewrite ?H.
Qed.

Lemma loc_slice_fmap_ext {R A} (g : R -> R) (col : R -> A) (data : list R) a b :
  (forall r, col (g r) = col r) ->
  loc_slice (g <$> data) a b col = loc_slice data a b col.
Proof.
  intros H. unfold loc_slice.
  rewrite <- fmap_take, <- fmap_drop, <- list_fmap_compose.
  apply list_fmap_ext. intros _ r _. apply H.
Qed.

Lemma prev_row_fmap {R} (g : R -> R) (data : list R) i :
  prev_row (g <$> data) i = g <$> prev_row data i.
Proof. destruct i; simpl; [done|]. apply list_lookup_fmap. Qed.

Lemma same_inputs_open v (f : Bar -> Bar) :
  (forall b, same_inputs v b (f b)) -> forall b, col_open (f b) = col_open b.
Proof. intros H b. apply H. Qed.

Lemma same_inputs_close v (f : Bar -> Bar) :
  (forall b, same_inputs v b (f b)) -> forall b, col_close (f b) = col_close b.
Proof. intros H b. apply H. Qed.

Lemma undefined_map_bar {v} (f : Bar -> Bar) (r : Row v) :
  undefined (map_bar f r) = undefined r.
Proof. by destruct v. Qed.

Lemma atr_of_map_bar {v} (f : Bar -> Bar) (r : Row v) :
  atr_of (map_bar f r) = atr_of r.
Proof. by destruct v. Qed.

Lemma close_map_bar {v} (f : Bar -> Bar) (r : Row v) :
  (forall b, same_inputs v b (f b)) ->
  col_close (bar_of (map_bar f r)) = col_close (bar_of r).
Proof.
  intros Hf. pose proof (same_inputs_close v f Hf) as Hc.
  destruct v; simpl; apply Hc.
Qed.

Ltac map_bar_atoms f :=
  let Hf := fresh "Hf" in
  let Ho := fresh "Ho" in
  let Hc := fresh "Hc" in
  intros Hf;
  pose proof (same_inputs_open _ f Hf) as Ho;
  pose proof (same_inputs_close _ f Hf) as Hc;
  unfold same_inputs in Hf;
  match goal with v : variant |- _ => destruct v end; simpl in *; try done;
  rewrite ?prev_row_fmap, ?list_lookup_fmap;
  unfold main3.vol_spike_threshold, main3.vol_window,
         main4.vol_spike_threshold, main4.vol_window;
  rewrite ?loc_slice_fmap_ext by (intros; simpl; apply Hf);
  repeat match goal with
         | |- context [?d !! ?i] => destruct (d !! i); simpl
         | |- context [prev_row ?d ?i] => destruct (prev_row d i); simpl
         end;
  try done;
  repeat rewrite Ho; repeat rewrite Hc;
  repeat match goal with
         | |- context [col_volume (f ?b)] =>
             replace (col_volume (f b)) with (col_volume b)
               by (symmetry; apply Hf)
         end;
  done.

Lemma entry_long_map_bar v f cfg (data : list (Row v)) i :
  (forall b, same_inputs v b (f b)) ->
  entry_long v cfg (map_bar f <$> data) i = entry_long v cfg data i.
Proof. map_bar_atoms f. Qed.

Lemma entry_short_map_bar v f cfg (data : list (Row v)) i :
  (forall b, same_inputs v b (f b)) ->
  entry_short v cfg (map_bar f <$> data) i = entry_short v cfg data i.
Proof. map_bar_atoms f. Qed.

Lemma exit_long_map_bar v f cfg (data : list (Row v)) i :
  (forall b, same_inputs v b (f b)) ->
  exit_long v cfg (map_bar f <$> data) i = exit_long v cfg data i.
Proof. map_bar_atoms f. Qed.

Lemma exit_short_map_bar v f cfg (data : list (Row v)) i :
  (forall b, same_inputs v b (f b)) ->
  exit_short v cfg (map_bar f <$> data) i = exit_short v cfg data i.
Proof. map_bar_atoms f. Qed.

Lemma reversal_long_map_bar v f cfg (data : list (Row v)) i :
  (forall b, same_inputs v b (f b)) ->
  reversal_long v cfg (map_bar f <$> data) i = reversal_long v cfg data i.
Proof. map_bar_atoms f. Qed.

Lemma reversal_short_map_bar v f cfg (data : list (Row v)) i :
  (forall b, same_inputs v b (f b)) ->
  reversal_short v cfg (map_bar f <$> data) i = reversal_short v cfg data i.
Proof. map_bar_atoms f. Qed.

Lemma step_map_bar v f cfg (data : list (Row v)) i s :
  (forall b, same_inputs v b (f b)) ->
  step v cfg (map_bar f <$> data) i s = step v cfg data i s.
Proof.
  intros Hf. unfold step. rewrite list_lookup_fmap.
  destruct (data !! i) as [r|]; simpl; [|done].
  rewrite undefined_map_bar, atr_of_map_bar, close_map_bar by done.
  rewrite entry_long_map_bar, entry_short_map_bar, exit_long_map_bar,
    exit_short_map_bar, reversal_long_map_bar, reversal_short_map_bar by done.
  rewrite (loc_fmap_ext (map_bar f) (col_close ∘ bar_of)); [done|].
  intros r'. by apply close_map_bar.
Qed.

Lemma state_at_map_bar v f cfg (data : list (Row v)) k :
  (forall b, same_inputs v b (f b)) ->
  state_at v cfg (map_bar f <$> data) k = state_at v cfg data k.
Proof.
  intros Hf. rewrite !state_at_unfold, length_fmap.
  apply for_range_ext. intros i t Hi.
  by rewrite !body_step, step_map_bar.
Qed.

Lemma same_inputs_read_part v b : same_inputs v b (read_part v b).
Proof. by destruct v. Qed.

Lemma same_read_columns_read_part v (r r' : Row v) :
  same_read_columns v r r' ->
  map_bar (read_part v) r' = map_bar (read_part v) r.
Proof.
  unfold same_read_columns, same_inputs.
  destruct v; destruct r as [[]], r' as [[]]; simpl;
    intros (Hi & Ho & Hc & Hv); injection Hi as <-; subst;
    by repeat match goal with H : _ = _ |- _ => rewrite H end.
Qed.

Lemma Forall2_read_part v (data data' : list (Row v)) :
  Forall2 (same_read_columns v) data data' ->
  map_bar (read_part v) <$> data' = map_bar (read_part v) <$> data.
Proof.
  induction 1 as [|r r' data data' Hr _ IH]; [done|].
  rewrite !fmap_cons. f_equal; [|done].
  by apply same_read_columns_read_part.
Qed.

(** X13. [strat] reads only the open and close of a bar, the volume in
    main3.py and main4.py, and the indicator columns: any two frames that
    agree row by row on those columns, whatever their high and low (and,
    in Strategy_2.py and main5.py, their volume) columns hold, give the
    same outcome, signals and trade types alike, and the same loop state
    on entering every bar. *)
Theorem strat_ignores_unread_columns :
  forall v (cfg : Config v) (data data' : list (Row v)),
    Forall2 (same_read_columns v) data data' ->
    strat v cfg data' = strat v cfg data
    /\ forall k, state_at v cfg data' k = state_at v cfg data k.
Proof.
  intros v cfg data data' H.
  assert (forall k, state_at v cfg data' k = state_at v cfg data k) as Hk.
  { intros k.
    rewrite <- (state_at_map_bar v (read_part v) cfg data' k)
      by apply same_inputs_read_part.
    rewrite <- (state_at_map_bar v (read_part v) cfg data k)
      by apply same_inputs_read_part.
    by rewrite (Forall2_read_part v data data' H). }
  split; [|done].
  by rewrite !strat_unfold, Hk, (Forall2_length _ _ _ H).
Qed.

Lemma strat_ignores_unread_columns_witness :
  strat VolumeSpike demo_config demo_frame_ranges
  = strat VolumeSpike demo_config demo_frame
  /\ forall k, state_at VolumeSpike demo_config demo_frame_ranges k
               = state_at VolumeSpike demo_config demo_frame k.
Proof.
  apply (strat_ignores_unread_columns VolumeSpike demo_config
           demo_frame demo_frame_ranges).
  unfold demo_frame_ranges, demo_frame. simpl.
  repeat (constructor; [by repeat split|]). constructor.
Defined.

(** ** Distance of the trailing stop *)

Lemma max_reaches a b : gt b (Py.max a b) = false.
Proof.
  unfold Py.max, gt. destruct (PrimFloat.ltb a b) eqn:E; [apply ltb_irrefl|done].
Qed.

Lemma min_reaches a b : lt b (Py.min a b) = false.
Proof.
  unfold Py.min, lt. destruct (PrimFloat.ltb b a) eqn:E; [apply ltb_irrefl|done].
Qed.

(** X14. In every variant, after a bar of the loop with defined indicators
    that leaves a long position open (entered, reversed into or held on
    that bar) the trailing stop is not below [close - ATR * multiplier] of
    that bar; after one that leaves a short open it is not above
    [close + ATR * multiplier]: the stop never lags the close by more than
    the ATR distance. *)
Theorem stop_within_distance :
  forall v (cfg : Config v) (data : list (Row v)) i r,
    start_idx v cfg <= i -> data !! i = Some r -> undefined r = false ->
    exists s',
      state_at v cfg data (S i) = Returned s'
      /\ (position s' = 1%Z ->
          gt (col_close (bar_of r) - atr_of r * multiplier cfg)%float
             (trailing_stop s') = false)
      /\ (position s' = (-1)%Z ->
          lt (col_close (bar_of r) + atr_of r * multiplier cfg)%float
             (trailing_stop s') = false).
Proof.
  intros v cfg data i r Hstart Hr Hna.
  assert (i < length data) as Hi by by eapply lookup_lt_Some.
  destruct (run_decision v cfg data i Hi Hstart)
    as (out & s & s' & r' & sg & ty & _ & _ & Hs' & Hr' & _ & Hd & _).
  replace r' with r in * by congruence.
  exists s'. split; [done|].
  destruct Hd; simpl; try congruence;
    (split; intros Hp; try lia; try congruence);
    first [apply ltb_irrefl | apply max_reaches | apply min_reaches].
Qed.

Lemma stop_within_distance_witness :
  exists s',
    state_at VolumeSpike demo_config demo_frame 7 = Returned s'
    /\ (position s' = 1%Z -> gt (5 - 1 * 2)%float (trailing_stop s') = false)
    /\ (position s' = (-1)%Z -> lt (5 + 1 * 2)%float (trailing_stop s') = false).
Proof.
  apply (stop_within_distance VolumeSpike demo_config demo_frame 6
           (demo_row 4 5 1 1)).
  - simpl. unfold main3.start_idx. simpl. lia.
  - reflexivity.
  - reflexivity.
Defined.
